(** * Verification of the persistent Kokoro TTS worker

    A shallow embedding of [scripts/kokoro_worker.py]: the PCM16 WAV encoder
    [wav_bytes_from_float32_mono], the engine pool [get_pipeline] and the
    JSON-lines protocol loop of [main].

    Modelling choices.
    - A Python [str] is the list of its Unicode code points ([pystr]);
      [bytes] is a list of 8-bit integers.
    - Python floats are IEEE binary64 and NumPy [float32] is IEEE binary32;
      both are [spec_float] with the operations of [SpecFloat] at precisions
      (53, 1024) and (24, 128).
    - The interpreter's library functions whose text is not part of the
      script ([json.loads], [float] on a string, [repr] of floats and
      containers, the wording of built-in error messages) are the fields of
      [PyLib]; the Kokoro engine is the record [Engine], a stateful oracle.
    - Exceptions are values of [exn]; they stand for instances of
      [Exception], the only ones the loop's [except Exception] catches.
    - The worker state threads the [pipelines] dictionary, the engine's
      hidden state, the lines written to [json_out] and a log of the
      engine calls made (a call-counting stub). *)

From Stdlib Require Import ZArith NArith List String Ascii Bool Lia.
From Stdlib Require Import SpecFloat DecimalString.
From Stdlib Require DecimalPos.
From stdpp Require Import base option list gmap.
Import ListNotations.

Local Open Scope Z_scope.
Set Warnings "-register-all".

(** ** Python strings *)

Abbreviation pystr := (list N).
Abbreviation bytes := (list Z).

(** An ASCII literal as a Python string. *)
Definition str (s : string) : pystr :=
  map N_of_ascii (list_ascii_of_string s).

(** [str.isspace] on one code point: the characters [str.strip()] removes. *)
Definition is_space (c : N) : bool :=
  ((9 <=? c) && (c <=? 13) || (28 <=? c) && (c <=? 32)
   || (c =? 133) || (c =? 160) || (c =? 5760)
   || (8192 <=? c) && (c <=? 8202)
   || (c =? 8232) || (c =? 8233) || (c =? 8239) || (c =? 8287)
   || (c =? 12288))%N.

Fixpoint lstrip (s : pystr) : pystr :=
  match s with
  | c :: s' => if is_space c then lstrip s' else s
  | [] => []
  end.

Definition rstrip (s : pystr) : pystr := rev (lstrip (rev s)).

(** [s.strip()] *)
Definition strip (s : pystr) : pystr := rstrip (lstrip s).

(** [not s] for a string. *)
Definition str_empty (s : pystr) : bool :=
  match s with [] => true | _ => false end.

Definition empty_str : pystr := [].

(** [s or d] for strings. *)
Definition str_or (s d : pystr) : pystr := if str_empty s then d else s.

(** [str(n)] for an [int]. *)
Definition str_of_int (z : Z) : pystr := str (NilZero.string_of_int (Z.to_int z)).

(** ** Floating point *)

Abbreviation f64 := spec_float.
Abbreviation f32 := spec_float.

Module F64.
Definition prec := 53.
Definition emax := 1024.
Definition ltb : f64 -> f64 -> bool := SFltb.
(** the literals of the script, as their nearest binary64 values *)
Definition c0_7 : f64 := S754_finite false 6305039478318694 (-53).
Definition c1_0 : f64 := S754_finite false 4503599627370496 (-52).
Definition c1_2 : f64 := S754_finite false 5404319552844595 (-52).
(** other values used in examples *)
Definition c0_3 : f64 := S754_finite false 5404319552844595 (-54).
Definition c5_0 : f64 := S754_finite false 5629499534213120 (-50).
(** [float(n)] for an [int]: round to nearest even; a result beyond the
    largest finite value is an [OverflowError]. *)
Definition of_int (z : Z) : option f64 :=
  match binary_normalize prec emax z 0 false with
  | S754_infinity _ => None
  | f => Some f
  end.
End F64.

Module F32.
Definition prec := 24.
Definition emax := 128.
Definition ltb : f32 -> f32 -> bool := SFltb.
Definition mul : f32 -> f32 -> f32 := SFmul prec emax.
Definition one : f32 := S754_finite false 8388608 (-23).
Definition minus_one : f32 := S754_finite true 8388608 (-23).
Definition c32767 : f32 := S754_finite false 16776704 (-9).
End F32.

(** ** Python values and exceptions *)

(** The values [json.loads] can return. A [dict] is kept as its item list in
    insertion order; [dict_get] reads the first item with the key. *)
Inductive pyval :=
| VNone
| VBool (b : bool)
| VInt (z : Z)
| VFloat (f : f64)
| VStr (s : pystr)
| VList (l : list pyval)
| VDict (d : list (pystr * pyval)).

Inductive exn_class :=
| TypeError | ValueError | AttributeError | OverflowError | StructError
| OtherError.

Record exn := Exn { exn_cls : exn_class; exn_msg : pystr }.

Inductive result (A : Type) :=
| Ok (a : A)
| Raise (e : exn).
Arguments Ok {A} a.
Arguments Raise {A} e.

(** [isinstance(e, TypeError)] *)
Definition is_TypeError (e : exn) : bool :=
  match exn_cls e with TypeError => true | _ => false end.

(** [bool(v)] *)
Definition truthy (v : pyval) : bool :=
  match v with
  | VNone => false
  | VBool b => b
  | VInt z => negb (z =? 0)
  | VFloat (S754_zero _) => false
  | VFloat _ => true
  | VStr s => negb (str_empty s)
  | VList l => match l with [] => false | _ => true end
  | VDict d => match d with [] => false | _ => true end
  end.

Definition pystr_eqb (a b : pystr) : bool := bool_decide (a = b).

(** [d.get(k)], [None] of Python being [None] of option. *)
Fixpoint dict_get (d : list (pystr * pyval)) (k : pystr) : option pyval :=
  match d with
  | [] => None
  | (k', v) :: d' => if pystr_eqb k' k then Some v else dict_get d' k
  end.

(** [del d[k]] *)
Definition dict_remove (d : list (pystr * pyval)) (k : pystr) :=
  List.filter (fun kv => negb (pystr_eqb (fst kv) k)) d.

(** [d.get(k) or dflt] *)
Definition get_or (d : list (pystr * pyval)) (k : pystr) (dflt : pyval) : pyval :=
  match dict_get d k with
  | Some v => if truthy v then v else dflt
  | None => dflt
  end.

(** The interpreter and standard-library behaviour the script relies on and
    whose text is not in the script. *)
Class PyLib := {
  (* json.loads *)
  json_loads : pystr -> result pyval;
  (* float(s) for a string s *)
  float_of_str : pystr -> result f64;
  (* str(v) for a float, a list or a dict *)
  repr_other : pyval -> pystr;
  (* the message of the exception a built-in raises on the given value *)
  builtin_msg : exn_class -> pyval -> pystr;
  (* what the C conversion float -> short yields on a NaN or an infinity,
     where C leaves it undefined *)
  int16_of_nonfinite : f32 -> Z
}.

(** ** The audio encoder: [wav_bytes_from_float32_mono] *)

(** An ASCII literal as [bytes]. *)
Definition bstr (s : string) : bytes :=
  map (fun a => Z.of_N (N_of_ascii a)) (list_ascii_of_string s).

(** [np.clip(a, -1.0, 1.0)] on one element: [minimum(maximum(x, -1), 1)];
    a NaN fails both comparisons and is passed through. *)
Definition np_clip (x : f32) : f32 :=
  let y := if F32.ltb x F32.minus_one then F32.minus_one else x in
  if F32.ltb F32.one y then F32.one else y.

(** The integer part of a finite float, rounding toward zero. *)
Definition trunc_finite (s : bool) (m : positive) (e : Z) : Z :=
  cond_Zopp s
    (match e with
     | Zneg p => Z.shiftr (Zpos m) (Zpos p)
     | _ => Z.shiftl (Zpos m) e
     end).

(** [.astype(np.int16)] on one element: the C conversion, which discards
    the fractional part. *)
Definition astype_int16 {L : PyLib} (x : f32) : Z :=
  match x with
  | S754_zero _ => 0
  | S754_finite s m e => trunc_finite s m e
  | _ => int16_of_nonfinite x
  end.

(** Little-endian bytes of the low 16 and 32 bits of an integer. *)
Definition le16 (z : Z) : bytes := [z mod 256; (z / 256) mod 256].

Definition le32 (z : Z) : bytes :=
  [z mod 256; (z / 256) mod 256; (z / 65536) mod 256; (z / 16777216) mod 256].

(** [.tobytes()] on one int16: two bytes, little endian, two's complement. *)
Definition int16_le (z : Z) : bytes := le16 z.

(** One element of [(a * 32767.0).astype(np.int16)] after the clip. *)
Definition pcm_sample {L : PyLib} (x : f32) : Z :=
  astype_int16 (F32.mul (np_clip x) F32.c32767).

(** Lines 40-44: the PCM payload. *)
Definition pcm_bytes {L : PyLib} (a : list f32) : bytes :=
  match a with
  | [] => []
  | _ => flat_map (fun x => int16_le (pcm_sample x)) a
  end.

(** [struct.pack("<H", z)] and [struct.pack("<L", z)]: out of range is a
    [struct.error]. *)
Definition pack_H {L : PyLib} (z : Z) : result bytes :=
  if (0 <=? z) && (z <? 65536)
  then Ok (le16 z)
  else Raise (Exn StructError (builtin_msg StructError (VInt z))).

Definition pack_L {L : PyLib} (z : Z) : result bytes :=
  if (0 <=? z) && (z <? 4294967296)
  then Ok (le32 z)
  else Raise (Exn StructError (builtin_msg StructError (VInt z))).

(** Sequencing of computations that may raise. *)
#[global] Instance result_bind : MBind result := fun A B k r =>
  match r with
  | Ok a => k a
  | Raise e => Raise e
  end.

(** What [wave.open(buf, "wb")] has written when the [with] block of lines
    47-51 ends: the 44-byte RIFF/WAVE header of [Wave_write._write_header]
    followed by the frames. *)
Definition wave_file {L : PyLib} (nchannels sampwidth framerate : Z) (frames : bytes)
  : result bytes :=
  let datalength := Z.of_nat (length frames) in
  riff_len ← pack_L (36 + datalength);
  fmt_len ← pack_L 16;
  fmt_tag ← pack_H 1;
  channels ← pack_H nchannels;
  rate ← pack_L framerate;
  byte_rate ← pack_L (nchannels * framerate * sampwidth);
  block_align ← pack_H (nchannels * sampwidth);
  bits ← pack_H (sampwidth * 8);
  data_len ← pack_L datalength;
  Ok (bstr "RIFF" ++ riff_len ++ bstr "WAVE" ++ bstr "fmt " ++ fmt_len
      ++ fmt_tag ++ channels ++ rate ++ byte_rate ++ block_align ++ bits
      ++ bstr "data" ++ data_len ++ frames).

(** [a] is the float32 array of line 39. *)
Definition wav_bytes_from_float32_mono {L : PyLib} (a : list f32) (sample_rate : Z)
  : result bytes :=
  let sample_rate := if sample_rate <=? 0 then 24000 else sample_rate in
  let pcm := pcm_bytes a in
  wave_file 1 2 sample_rate pcm.

(** ** [base64.b64encode(...).decode("ascii")] *)

Definition b64_alphabet : pystr :=
  str "ABCDEFGHIJKLMNOPQRSTUVWXYZabcdefghijklmnopqrstuvwxyz0123456789+/".

Definition b64_char (i : Z) : N := nth (Z.to_nat i) b64_alphabet 61%N.

Fixpoint b64encode (l : bytes) : pystr :=
  match l with
  | [] => []
  | [a] => [b64_char (a / 4); b64_char (a mod 4 * 16); 61%N; 61%N]
  | [a; b] =>
      [b64_char (a / 4); b64_char (a mod 4 * 16 + b / 16);
       b64_char (b mod 16 * 4); 61%N]
  | a :: b :: c :: r =>
      [b64_char (a / 4); b64_char (a mod 4 * 16 + b / 16);
       b64_char (b mod 16 * 4 + c / 64); b64_char (c mod 64)] ++ b64encode r
  end.

(** ** [json.dumps] on the response dictionaries *)

(** The values the script stores in a response. *)
Inductive scalar :=
| SStr (s : pystr)
| SBool (b : bool)
| SInt (z : Z).

(** A response: the dict literal, in insertion order. *)
Abbreviation response := (list (pystr * scalar)).

Definition hex_digit (n : N) : N :=
  (if n <? 10 then 48 + n else 87 + n)%N.

(** ['{0:04x}'.format(n)] for [n < 0x10000] *)
Definition hex4 (n : N) : pystr :=
  [hex_digit (n / 4096 mod 16); hex_digit (n / 256 mod 16);
   hex_digit (n / 16 mod 16); hex_digit (n mod 16)]%N.

Definition u_escape (n : N) : pystr := [92; 117]%N ++ hex4 n.

(** The replacement [json.encoder.py_encode_basestring_ascii] makes for one
    character: backslash and quote get a backslash, the rest of printable
    ASCII stays, the named control characters get their letter, anything
    else becomes [\uXXXX], as a surrogate pair above the basic plane. *)
Definition escape_char (c : N) : pystr :=
  (if c =? 92 then [92; 92]
   else if c =? 34 then [92; 34]
   else if (32 <=? c) && (c <=? 126) then [c]
   else if c =? 8 then [92; 98]
   else if c =? 12 then [92; 102]
   else if c =? 10 then [92; 110]
   else if c =? 13 then [92; 114]
   else if c =? 9 then [92; 116]
   else if c <? 65536 then u_escape c
   else
     let n := c - 65536 in
     u_escape (N.lor 55296 (N.land (N.shiftr n 10) 1023))
     ++ u_escape (N.lor 56320 (N.land n 1023)))%N.

Definition encode_basestring_ascii (s : pystr) : pystr :=
  [34%N] ++ flat_map escape_char s ++ [34%N].

Definition dumps_scalar (v : scalar) : pystr :=
  match v with
  | SStr s => encode_basestring_ascii s
  | SBool true => str "true"
  | SBool false => str "false"
  | SInt z => str_of_int z
  end.

Definition dumps_item (kv : pystr * scalar) : pystr :=
  encode_basestring_ascii (fst kv) ++ str ": " ++ dumps_scalar (snd kv).

(** [", ".join(items)] *)
Fixpoint join_items (items : list pystr) : pystr :=
  match items with
  | [] => []
  | [x] => x
  | x :: rest => x ++ str ", " ++ join_items rest
  end.

(** [json.dumps(resp)] with the default separators and [ensure_ascii]. *)
Definition json_dumps (resp : response) : pystr :=
  str "{" ++ join_items (map dumps_item resp) ++ str "}".

(** The two dict literals of the script. *)
Definition success_resp (rid audio_base64 : pystr) : response :=
  [(str "id", SStr rid); (str "ok", SBool true);
   (str "format", SStr (str "wav_24000")); (str "sample_rate", SInt 24000);
   (str "audio_base64", SStr audio_base64)].

Definition failure_resp (rid error : pystr) : response :=
  [(str "id", SStr rid); (str "ok", SBool false); (str "error", SStr error)].

(** [resp[k]] *)
Fixpoint resp_get (r : response) (k : pystr) : option scalar :=
  match r with
  | [] => None
  | (k', v) :: r' => if pystr_eqb k' k then Some v else resp_get r' k
  end.

(** ** JSON texts (RFC 8259), to state that a line is well formed *)

Definition is_hex (c : N) : Prop :=
  (48 <= c <= 57 \/ 65 <= c <= 70 \/ 97 <= c <= 102)%N.

Definition is_digit (c : N) : Prop := (48 <= c <= 57)%N.

(** The characters between the quotes of a string. *)
Inductive json_chars : pystr -> Prop :=
| jc_nil : json_chars []
| jc_plain c s :
    (32 <= c)%N -> c <> 34%N -> c <> 92%N -> json_chars s -> json_chars (c :: s)
| jc_escape c s :
    In c [34; 92; 47; 98; 102; 110; 114; 116]%N ->
    json_chars s -> json_chars (92%N :: c :: s)
| jc_unicode a b c d s :
    is_hex a -> is_hex b -> is_hex c -> is_hex d ->
    json_chars s -> json_chars (92%N :: 117%N :: a :: b :: c :: d :: s).

Inductive json_ws : pystr -> Prop :=
| jw_nil : json_ws []
| jw_cons c s : In c [32; 9; 10; 13]%N -> json_ws s -> json_ws (c :: s).

Inductive json_digits : pystr -> Prop :=
| jd_one c : is_digit c -> json_digits [c]
| jd_cons c s : is_digit c -> json_digits s -> json_digits (c :: s).

(** [int]: a lone zero, or digits that do not start with zero. *)
Inductive json_int : pystr -> Prop :=
| ji_zero : json_int [48%N]
| ji_digits c s : is_digit c -> c <> 48%N -> s = [] \/ json_digits s -> json_int (c :: s).

Inductive json_frac : pystr -> Prop :=
| jf_none : json_frac []
| jf_some s : json_digits s -> json_frac (46%N :: s).

Inductive json_exp : pystr -> Prop :=
| je_none : json_exp []
| je_some e sign s :
    In e [69; 101]%N -> In sign [[]; [43]; [45]]%N -> json_digits s ->
    json_exp (e :: sign ++ s).

Inductive json_number : pystr -> Prop :=
| jn_intro minus i f e :
    In minus [[]; [45]]%N -> json_int i -> json_frac f -> json_exp e ->
    json_number (minus ++ i ++ f ++ e).

Inductive json_value : pystr -> Prop :=
| jv_string s : json_chars s -> json_value ([34%N] ++ s ++ [34%N])
| jv_number s : json_number s -> json_value s
| jv_true : json_value (str "true")
| jv_false : json_value (str "false")
| jv_null : json_value (str "null")
| jv_object_empty w : json_ws w -> json_value (str "{" ++ w ++ str "}")
| jv_object ms : json_members ms -> json_value (str "{" ++ ms ++ str "}")
| jv_array_empty w : json_ws w -> json_value (str "[" ++ w ++ str "]")
| jv_array es : json_elements es -> json_value (str "[" ++ es ++ str "]")
with json_members : pystr -> Prop :=
| jm_one w1 k w2 e :
    json_ws w1 -> json_chars k -> json_ws w2 -> json_element e ->
    json_members (w1 ++ [34%N] ++ k ++ [34%N] ++ w2 ++ str ":" ++ e)
| jm_more w1 k w2 e ms :
    json_ws w1 -> json_chars k -> json_ws w2 -> json_element e ->
    json_members ms ->
    json_members (w1 ++ [34%N] ++ k ++ [34%N] ++ w2 ++ str ":" ++ e ++ str "," ++ ms)
with json_elements : pystr -> Prop :=
| jes_one e : json_element e -> json_elements e
| jes_more e es :
    json_element e -> json_elements es -> json_elements (e ++ str "," ++ es)
with json_element : pystr -> Prop :=
| jel_intro w1 v w2 :
    json_ws w1 -> json_value v -> json_ws w2 -> json_element (w1 ++ v ++ w2).

(** A text that is one JSON object. *)
Definition json_object_text (t : pystr) : Prop :=
  exists body, t = str "{" ++ body ++ str "}" /\
               (json_ws body \/ json_members body).

(** A protocol line: one JSON object, then the only newline of the line. *)
Definition protocol_line (l : pystr) : Prop :=
  exists t, l = t ++ [10%N] /\ json_object_text t /\ ~ In 10%N t.

(** ** The synthesis engine (external collaborator) *)

(** [kokoro.KPipeline]: its two construction forms and the call of an
    instance, each a transition on the hidden state of the library. A call
    returns what the generator yields (the third component of each tuple,
    [None] for a chunk without audio) or the exception that ends the
    iteration. *)
Class Engine := {
  World : Type;
  Handle : Type;
  (* KPipeline(lang_code=lang_code, repo_id=repo_id) *)
  KPipeline_repo : pystr -> pystr -> World -> World * result Handle;
  (* KPipeline(lang_code=lang_code) *)
  KPipeline_lang : pystr -> World -> World * result Handle;
  (* p(text, voice=voice, speed=speed, split_pattern=pat) *)
  run_pipeline :
    Handle -> pystr -> pystr -> f64 -> pystr -> World ->
    World * result (list (option (list f32)))
}.

(** What the loop does with the engine and its pool, for counting: a
    lookup in the pool, a construction (by the form with [repo_id] or the
    one without, and the instance made if any), a call of an instance. *)
Inductive event {E : Engine} :=
| EvAcquire (lang_code : pystr)
| EvNew (with_repo : bool) (lang_code : pystr) (made : option Handle)
| EvCall (p : Handle) (text voice : pystr) (speed : f64) (split_pattern : pystr).

(** The state of [main] while the loop runs. *)
Record worker {E : Engine} := Worker {
  pipelines : gmap pystr Handle;
  world : World;
  json_out : list pystr;
  calls : list event
}.

Definition init_worker {E : Engine} (wd : World) : worker :=
  {| pipelines := ∅; world := wd; json_out := []; calls := [] |}.

Definition made_of {A} (r : result A) : option A :=
  match r with Ok a => Some a | Raise _ => None end.

(** Line 81: [(lang_code or "a").strip() or "a"]. *)
Definition norm_lang (lang_code : pystr) : pystr :=
  str_or (strip (str_or lang_code (str "a"))) (str "a").

(** Lines 80-90. *)
Definition get_pipeline {E : Engine} (lang_code : pystr) (w : worker)
  : worker * result Handle :=
  let lang_code := norm_lang lang_code in
  let log0 := calls w ++ [EvAcquire lang_code] in
  match pipelines w !! lang_code with
  | Some p =>
      ({| pipelines := pipelines w; world := world w;
          json_out := json_out w; calls := log0 |}, Ok p)
  | None =>
      let '(wd1, r1) := KPipeline_repo lang_code (str "hexgrad/Kokoro-82M") (world w) in
      let log1 := log0 ++ [EvNew true lang_code (made_of r1)] in
      let '(wd2, r2, log2) :=
        match r1 with
        | Ok p => (wd1, Ok p, log1)
        | Raise e =>
            if is_TypeError e then
              let '(wd2, r2) := KPipeline_lang lang_code wd1 in
              (wd2, r2, log1 ++ [EvNew false lang_code (made_of r2)])
            else (wd1, Raise e, log1)
        end in
      match r2 with
      | Ok p =>
          ({| pipelines := <[lang_code := p]> (pipelines w); world := wd2;
              json_out := json_out w; calls := log2 |}, Ok p)
      | Raise e =>
          ({| pipelines := pipelines w; world := wd2;
              json_out := json_out w; calls := log2 |}, Raise e)
      end
  end.

(** ** The protocol loop: [main] *)

(** [str(v)] *)
Definition py_str {L : PyLib} (v : pyval) : pystr :=
  match v with
  | VStr s => s
  | VInt z => str_of_int z
  | VBool true => str "True"
  | VBool false => str "False"
  | VNone => str "None"
  | _ => repr_other v
  end.

(** [float(v)] *)
Definition py_float {L : PyLib} (v : pyval) : result f64 :=
  match v with
  | VFloat f => Ok f
  | VInt z =>
      match F64.of_int z with
      | Some f => Ok f
      | None => Raise (Exn OverflowError (builtin_msg OverflowError v))
      end
  | VBool b => Ok (if b then F64.c1_0 else S754_zero false)
  | VStr s => float_of_str s
  | _ => Raise (Exn TypeError (builtin_msg TypeError v))
  end.

(** Lines 106-109. *)
Definition clamp_speed (speed : f64) : f64 :=
  let speed := if F64.ltb speed F64.c0_7 then F64.c0_7 else speed in
  if F64.ltb F64.c1_2 speed then F64.c1_2 else speed.

Record request := Request {
  rq_text : pystr;
  rq_voice : pystr;
  rq_lang_code : pystr;
  rq_speed : f64
}.

(** Lines 99-109 on the parsed line. The first component is the value of
    the variable [rid] when the block is left, normally or by an exception. *)
Definition read_fields {L : PyLib} (req : pyval) : pystr * result request :=
  match req with
  | VDict d =>
      let rid := py_str (get_or d (str "id") (VStr empty_str)) in
      let text := strip (py_str (get_or d (str "text") (VStr empty_str))) in
      let voice :=
        str_or (strip (py_str (get_or d (str "voice") (VStr (str "af_heart")))))
               (str "af_heart") in
      let lang_code :=
        str_or (strip (py_str (get_or d (str "lang_code") (VStr (str "a")))))
               (str "a") in
      (rid,
       speed ← py_float (get_or d (str "speed") (VFloat F64.c1_0));
       Ok (Request text voice lang_code (clamp_speed speed)))
  | _ => (empty_str, Raise (Exn AttributeError (builtin_msg AttributeError req)))
  end.

(** [audio_parts] of lines 118-124: the chunks that carry audio. *)
Definition audio_parts (chunks : list (option (list f32))) : list (list f32) :=
  omap id chunks.

(** Lines 117-132: from the request to the container bytes. *)
Definition synthesize {L : PyLib} {E : Engine} (rq : request) (w : worker)
  : worker * result bytes :=
  let '(w1, rp) := get_pipeline (rq_lang_code rq) w in
  match rp with
  | Raise e => (w1, Raise e)
  | Ok p =>
      let pat := str "\n+" in
      let '(wd, rg) :=
        run_pipeline p (rq_text rq) (rq_voice rq) (rq_speed rq) pat (world w1) in
      let w2 :=
        {| pipelines := pipelines w1; world := wd; json_out := json_out w1;
           calls := calls w1
                    ++ [EvCall p (rq_text rq) (rq_voice rq) (rq_speed rq) pat] |} in
      match rg with
      | Raise e => (w2, Raise e)
      | Ok chunks =>
          let audio_all := concat (audio_parts chunks) in
          (w2, wav_bytes_from_float32_mono audio_all 24000)
      end
  end.

(** [json_out.write(json.dumps(resp) + "\n")] *)
Definition write_line {E : Engine} (resp : response) (w : worker) : worker :=
  {| pipelines := pipelines w; world := world w;
     json_out := json_out w ++ [json_dumps resp ++ [10%N]];
     calls := calls w |}.

(** The response of one iteration and the state it leaves; [None] when the
    iteration ends at the [continue] of line 95. The fast path of lines
    111-115 writes its response itself and continues, the other paths reach
    the write of lines 145-146: either way the response is written once, by
    [handle_line]. *)
Definition respond {L : PyLib} {E : Engine} (line : pystr) (w : worker)
  : worker * option response :=
  let line := strip line in
  if str_empty line then (w, None)
  else
    match json_loads line with
    | Raise exc => (w, Some (failure_resp empty_str (exn_msg exc)))
    | Ok req =>
        match read_fields req with
        | (rid, Raise exc) => (w, Some (failure_resp rid (exn_msg exc)))
        | (rid, Ok rq) =>
            if str_empty (rq_text rq) then (w, Some (success_resp rid empty_str))
            else
              let '(w', r) := synthesize rq w in
              match r with
              | Ok wav_bytes => (w', Some (success_resp rid (b64encode wav_bytes)))
              | Raise exc => (w', Some (failure_resp rid (exn_msg exc)))
              end
        end
    end.

(** One iteration of the loop of lines 92-146. *)
Definition handle_line {L : PyLib} {E : Engine} (line : pystr) (w : worker) : worker :=
  match respond line w with
  | (w', Some resp) => write_line resp w'
  | (w', None) => w'
  end.

(** The loop over the lines of [sys.stdin]. *)
Definition main_loop {L : PyLib} {E : Engine} (stdin : list pystr) (w : worker) : worker :=
  fold_left (fun w line => handle_line line w) stdin w.

(** The engine instances constructed for a language code. *)
Definition is_made {E : Engine} (k : pystr) (ev : event) : bool :=
  match ev with
  | EvNew _ k' (Some _) => pystr_eqb k' k
  | _ => false
  end.

Definition built_count {E : Engine} (k : pystr) (log : list event) : nat :=
  length (List.filter (is_made k) log).

(** The construction attempts for a language code. *)
Definition is_attempt {E : Engine} (k : pystr) (ev : event) : bool :=
  match ev with
  | EvNew _ k' _ => pystr_eqb k' k
  | _ => false
  end.

Definition attempt_count {E : Engine} (k : pystr) (log : list event) : nat :=
  length (List.filter (is_attempt k) log).

(** All instances constructed, whatever the language code. *)
Definition is_made_any {E : Engine} (ev : event) : bool :=
  match ev with
  | EvNew _ _ (Some _) => true
  | _ => false
  end.

Definition built_total {E : Engine} (log : list event) : nat :=
  length (List.filter is_made_any log).

(** ** What the specification says, for comparison *)

(** The rounding the specification names: to the nearest integer, a tie
    going toward zero. *)
Definition spec_round_half_to_zero (x : f32) : Z :=
  match x with
  | S754_finite s m (Zneg p) =>
      let q := Z.shiftr (Zpos m) (Zpos p) in
      let r := Zpos m - Z.shiftl q (Zpos p) in
      cond_Zopp s (if Z.shiftl 1 (Zpos p) <? 2 * r then q + 1 else q)
  | S754_finite s m e => cond_Zopp s (Z.shiftl (Zpos m) e)
  | _ => 0
  end.

Definition spec_quantize (x : f32) : Z :=
  spec_round_half_to_zero (F32.mul (np_clip x) F32.c32767).

(** ** Test doubles *)

Module Stub.

Definition quoted (s : string) : pystr := [34%N] ++ str s ++ [34%N].

(** [{'id':'1','text':'','voice':'x'}], with double quotes *)
Definition line_silence : pystr :=
  str "{" ++ quoted "id" ++ str ":" ++ quoted "1" ++ str ","
  ++ quoted "text" ++ str ":" ++ [34%N; 34%N] ++ str ","
  ++ quoted "voice" ++ str ":" ++ quoted "x" ++ str "}".

(** [{'id':'2','text':'hi','speed':0}] *)
Definition line_speed0 : pystr :=
  str "{" ++ quoted "id" ++ str ":" ++ quoted "2" ++ str ","
  ++ quoted "text" ++ str ":" ++ quoted "hi" ++ str ","
  ++ quoted "speed" ++ str ":0}".

(** [{'id':'3','text':'','speed':'fast'}] *)
Definition line_speed_word : pystr :=
  str "{" ++ quoted "id" ++ str ":" ++ quoted "3" ++ str ","
  ++ quoted "text" ++ str ":" ++ [34%N; 34%N] ++ str ","
  ++ quoted "speed" ++ str ":" ++ quoted "fast" ++ str "}".

(** [{'id':'4','text':'','speed':N}], [N] the decimal digits of 2^1024 *)
Definition line_speed_huge : pystr :=
  str "{" ++ quoted "id" ++ str ":" ++ quoted "4" ++ str ","
  ++ quoted "text" ++ str ":" ++ [34%N; 34%N] ++ str ","
  ++ quoted "speed" ++ str ":" ++ str_of_int (2 ^ 1024) ++ str "}".

(** [{'id':'5','text':'hi','voice':'bad','lang_code':'b'}] *)
Definition line_bad_voice : pystr :=
  str "{" ++ quoted "id" ++ str ":" ++ quoted "5" ++ str ","
  ++ quoted "text" ++ str ":" ++ quoted "hi" ++ str ","
  ++ quoted "voice" ++ str ":" ++ quoted "bad" ++ str ","
  ++ quoted "lang_code" ++ str ":" ++ quoted "b" ++ str "}".

(** [{'id':'6','text':'hi','speed':5.0}] *)
Definition line_fast : pystr :=
  str "{" ++ quoted "id" ++ str ":" ++ quoted "6" ++ str ","
  ++ quoted "text" ++ str ":" ++ quoted "hi" ++ str ","
  ++ quoted "speed" ++ str ":5.0}".

(** [{'id':7,'text':'  '}] *)
Definition line_int_id : pystr :=
  str "{" ++ quoted "id" ++ str ":7," ++ quoted "text" ++ str ":"
  ++ quoted "  " ++ str "}".

(** [[1, 2]] *)
Definition line_array : pystr := str "[1, 2]".

(** [{'id':], cut short *)
Definition line_broken : pystr := str "{" ++ quoted "id" ++ str ":".

(** [{'id':'8','text':'hi','speed':NaN}]; [json.loads] accepts the
    literal [NaN]. *)
Definition line_speed_nan : pystr :=
  str "{" ++ quoted "id" ++ str ":" ++ quoted "8" ++ str ","
  ++ quoted "text" ++ str ":" ++ quoted "hi" ++ str ","
  ++ quoted "speed" ++ str ":NaN}".

Definition parsed_lines : list (pystr * pyval) :=
  [(line_silence,
    VDict [(str "id", VStr (str "1")); (str "text", VStr empty_str);
           (str "voice", VStr (str "x"))]);
   (line_speed0,
    VDict [(str "id", VStr (str "2")); (str "text", VStr (str "hi"));
           (str "speed", VInt 0)]);
   (line_speed_word,
    VDict [(str "id", VStr (str "3")); (str "text", VStr empty_str);
           (str "speed", VStr (str "fast"))]);
   (line_speed_huge,
    VDict [(str "id", VStr (str "4")); (str "text", VStr empty_str);
           (str "speed", VInt (2 ^ 1024))]);
   (line_bad_voice,
    VDict [(str "id", VStr (str "5")); (str "text", VStr (str "hi"));
           (str "voice", VStr (str "bad")); (str "lang_code", VStr (str "b"))]);
   (line_fast,
    VDict [(str "id", VStr (str "6")); (str "text", VStr (str "hi"));
           (str "speed", VFloat F64.c5_0)]);
   (line_int_id,
    VDict [(str "id", VInt 7); (str "text", VStr (str "  "))]);
   (line_array, VList [VInt 1; VInt 2]);
   (line_speed_nan,
    VDict [(str "id", VStr (str "8")); (str "text", VStr (str "hi"));
           (str "speed", VFloat S754_nan)])].

Fixpoint table_get (t : list (pystr * pyval)) (s : pystr) : option pyval :=
  match t with
  | [] => None
  | (k, v) :: t' => if pystr_eqb k s then Some v else table_get t' s
  end.

(** [json.loads] on the lines above; any other text is taken as invalid. *)
Definition loads (s : pystr) : result pyval :=
  match table_get parsed_lines s with
  | Some v => Ok v
  | None => Raise (Exn ValueError (str "Expecting value"))
  end.

#[local] Instance lib : PyLib := {|
  json_loads := loads;
  float_of_str := fun s =>
    Raise (Exn ValueError (str "could not convert string to float"));
  repr_other := fun _ => str "?";
  builtin_msg := fun c _ =>
    match c with
    | OverflowError => str "int too large to convert to float"
    | StructError => str "argument out of range"
    | _ => str "bad operand"
    end;
  int16_of_nonfinite := fun _ => 0
|}.

(** An engine that counts the constructor calls. It does not know the
    [repo_id] parameter for language [b], fails to load language [z] on the
    first two constructor calls, and rejects the voice [bad]. *)
#[local] Instance engine : Engine := {|
  World := nat;
  Handle := pystr;
  KPipeline_repo := fun lang _ n =>
    if pystr_eqb lang (str "b")
    then (S n, Raise (Exn TypeError (str "unexpected keyword argument")))
    else if pystr_eqb lang (str "z") && (n <? 2)%nat
    then (S n, Raise (Exn OtherError (str "model not found")))
    else (S n, Ok lang);
  KPipeline_lang := fun lang n => (S n, Ok lang);
  run_pipeline := fun p text voice speed pat n =>
    if pystr_eqb voice (str "bad")
    then (n, Raise (Exn OtherError (str "unknown voice")))
    else (n, Ok [Some [S754_finite false 8388608 (-25)]; None;
                 Some [S754_finite false 12582912 (-23);
                       S754_finite true 8388608 (-22)]])
|}.

Definition w0 : worker := init_worker 0%nat.

End Stub.

(** ** Vocabulary of the statements *)

(** Printable ASCII. *)
Definition printable (c : N) : Prop := (32 <= c <= 126)%N.

(** A response value whose dump is a JSON value on printable ASCII. *)
Definition scalar_ok (v : scalar) : Prop :=
  json_value (dumps_scalar v) /\ Forall printable (dumps_scalar v).

(** The responses the loop can build. *)
Definition is_response (r : response) : Prop :=
  exists rid, (exists b64, r = success_resp rid b64)
              \/ (exists msg, r = failure_resp rid msg).

(** The non-blank lines of the input. *)
Definition requests (stdin : list pystr) : list pystr :=
  List.filter (fun line => negb (forallb is_space line)) stdin.

(** The outcomes of [get_pipeline], by cases on the cache and on the two
    constructors. *)
Inductive acquired {E : Engine} (k : pystr) (w : worker) : worker -> result Handle -> Prop :=
| acq_hit p :
    pipelines w !! k = Some p ->
    acquired k w
      {| pipelines := pipelines w; world := world w; json_out := json_out w;
         calls := calls w ++ [EvAcquire k] |} (Ok p)
| acq_made_repo wd p :
    pipelines w !! k = None ->
    KPipeline_repo k (str "hexgrad/Kokoro-82M") (world w) = (wd, Ok p) ->
    acquired k w
      {| pipelines := <[k := p]> (pipelines w); world := wd; json_out := json_out w;
         calls := (calls w ++ [EvAcquire k]) ++ [EvNew true k (Some p)] |} (Ok p)
| acq_made_lang wd1 e1 wd2 p :
    pipelines w !! k = None ->
    KPipeline_repo k (str "hexgrad/Kokoro-82M") (world w) = (wd1, Raise e1) ->
    is_TypeError e1 = true ->
    KPipeline_lang k wd1 = (wd2, Ok p) ->
    acquired k w
      {| pipelines := <[k := p]> (pipelines w); world := wd2; json_out := json_out w;
         calls := ((calls w ++ [EvAcquire k]) ++ [EvNew true k None])
                  ++ [EvNew false k (Some p)] |} (Ok p)
| acq_fail_repo wd e :
    pipelines w !! k = None ->
    KPipeline_repo k (str "hexgrad/Kokoro-82M") (world w) = (wd, Raise e) ->
    is_TypeError e = false ->
    acquired k w
      {| pipelines := pipelines w; world := wd; json_out := json_out w;
         calls := (calls w ++ [EvAcquire k]) ++ [EvNew true k None] |} (Raise e)
| acq_fail_lang wd1 e1 wd2 e :
    pipelines w !! k = None ->
    KPipeline_repo k (str "hexgrad/Kokoro-82M") (world w) = (wd1, Raise e1) ->
    is_TypeError e1 = true ->
    KPipeline_lang k wd1 = (wd2, Raise e) ->
    acquired k w
      {| pipelines := pipelines w; world := wd2; json_out := json_out w;
         calls := ((calls w ++ [EvAcquire k]) ++ [EvNew true k None])
                  ++ [EvNew false k None] |} (Raise e).

(** Each cached language code has had exactly one instance constructed, no
    other code has had any, and the cache holds as many entries as instances
    were constructed. *)
Definition pool_inv {E : Engine} (w : worker) : Prop :=
  (forall k, built_count k (calls w)
             = match pipelines w !! k with Some _ => 1%nat | None => 0%nat end)
  /\ built_total (calls w) = size (pipelines w).

(** An exception is raised while the loop handles [line] in state [w]:
    by [json.loads], by the reading of the fields, or by the synthesis step
    (acquisition, engine call, encoding). The indices are the value of
    [rid] at that moment, the exception and the state reached. *)
Inductive raises {L : PyLib} {E : Engine} (line : pystr) (w : worker)
  : pystr -> exn -> worker -> Prop :=
| raises_loads e :
    json_loads (strip line) = Raise e -> raises line w empty_str e w
| raises_fields req rid e :
    json_loads (strip line) = Ok req ->
    read_fields req = (rid, Raise e) -> raises line w rid e w
| raises_synthesis req rid rq w' e :
    json_loads (strip line) = Ok req ->
    read_fields req = (rid, Ok rq) ->
    str_empty (rq_text rq) = false ->
    synthesize rq w = (w', Raise e) -> raises line w rid e w'.

(** The layout of a canonical PCM WAVE file of one channel and 16 bits per
    sample: the 44 bytes before the frames. *)
Definition wav_header (rate datalength : Z) : bytes :=
  bstr "RIFF" ++ le32 (36 + datalength) ++ bstr "WAVE" ++ bstr "fmt "
  ++ le32 16 ++ le16 1 ++ le16 1 ++ le32 rate ++ le32 (rate * 2)
  ++ le16 2 ++ le16 16 ++ bstr "data" ++ le32 datalength.

(** The unsigned integer a little-endian byte string stands for. *)
Fixpoint le_decode (b : bytes) : Z :=
  match b with
  | [] => 0
  | x :: b' => x + 256 * le_decode b'
  end.

(** The field of [len] bytes at offset [off]. *)
Definition field (b : bytes) (off len : nat) : Z :=
  le_decode (take len (drop off b)).

(** Some float32 values: 0.25, 1.5, -2.0. *)
Definition f32_quarter : f32 := S754_finite false 8388608 (-25).
Definition f32_1_5 : f32 := S754_finite false 12582912 (-23).
Definition f32_minus_2 : f32 := S754_finite true 8388608 (-22).

(** The five fields of a request. *)
Definition request_fields : list pystr :=
  [str "id"; str "text"; str "voice"; str "lang_code"; str "speed"].

(** A speed inside the interval of the clamp: 0.7 <= s <= 1.2. No NaN is
    inside it. *)
Definition within_range (s : f64) : Prop :=
  SFleb F64.c0_7 s = true /\ SFleb s F64.c1_2 = true.

(** The integer a decimal numeral stands for: an optional minus sign and
    one or more digits, read from the left. *)
Definition digit_value (c : N) : option Z :=
  if ((48 <=? c) && (c <=? 57))%N then Some (Z.of_N c - 48) else None.

Fixpoint digits_value (s : pystr) (acc : Z) : option Z :=
  match s with
  | [] => Some acc
  | c :: s' =>
      match digit_value c with
      | Some v => digits_value s' (10 * acc + v)
      | None => None
      end
  end.

Definition decimal_value (s : pystr) : option Z :=
  match s with
  | [] => None
  | 45%N :: ds =>
      match ds with
      | [] => None
      | _ => option_map Z.opp (digits_value ds 0)
      end
  | _ => digits_value s 0
  end.

(** The form [str] gives a numeral: the single digit 0, or a digit from 1
    to 9 at the head, after the minus sign if there is one. *)
Definition decimal_canonical (s : pystr) : Prop :=
  s = [48%N]
  \/ exists c ds, (s = c :: ds \/ s = 45%N :: c :: ds) /\ (49 <= c <= 57)%N.

(** ** The credential bootstrap: [scripts/openclaw_bootstrap_from_codex.py]

    The part of [main] that computes what is written, as functions of the
    parsed files. Directory creation, permissions and the failures of file
    input and output are outside the model. *)

Module Bootstrap.

(** What the script takes from its library: [_jwt_exp_ms] on a token (it
    returns an integer and never raises, whatever the token) and [int(s)]
    for a string. *)
Class BootLib := {
  jwt_exp_ms : pystr -> Z;
  int_of_str : pystr -> result Z
}.

Abbreviation dict := (list (pystr * pyval)).

(** [d[k] = v]: the value is replaced where the key is, or the item added
    at the end. *)
Fixpoint dict_set (d : dict) (k : pystr) (v : pyval) : dict :=
  match d with
  | [] => [(k, v)]
  | (k', v') :: d' =>
      if pystr_eqb k' k then (k, v) :: d' else (k', v') :: dict_set d' k v
  end.

(** [v.get(k)], an [AttributeError] when [v] is not a dict; an absent key
    gives [None], the [None] of Python. *)
Definition py_get {L : PyLib} (v : pyval) (k : pystr) : result (option pyval) :=
  match v with
  | VDict d => Ok (dict_get d k)
  | _ => Raise (Exn AttributeError (builtin_msg AttributeError v))
  end.

(** [x or dflt] for the result of a [get]. *)
Definition or_else (x : option pyval) (dflt : pyval) : pyval :=
  match x with
  | Some v => if truthy v then v else dflt
  | None => dflt
  end.

(** [isinstance(x, str) and x.strip()] as a condition. *)
Definition nonblank (x : option pyval) : bool :=
  match x with
  | Some (VStr s) => negb (str_empty (strip s))
  | _ => false
  end.

(** [x.strip()] for an [x] that passed the test above. *)
Definition stripped (x : option pyval) : pystr :=
  match x with
  | Some (VStr s) => strip s
  | _ => []
  end.

(** [isinstance(x, dict)]: the items, or nothing. *)
Definition as_dict (x : option pyval) : option dict :=
  match x with
  | Some (VDict d) => Some d
  | _ => None
  end.

(** [isinstance(x, int)]; [bool] is a subclass of [int]. *)
Definition is_int (x : option pyval) : bool :=
  match x with
  | Some (VInt _) | Some (VBool _) => true
  | _ => false
  end.

(** [int(x or 0)] for an [x] that is an [int]. *)
Definition int_or_0 (x : option pyval) : Z :=
  match x with
  | Some (VInt z) => z
  | Some (VBool true) => 1
  | _ => 0
  end.

(** [int(v)] *)
Definition py_int {L : PyLib} {B : BootLib} (v : pyval) : result Z :=
  match v with
  | VInt z => Ok z
  | VBool b => Ok (if b then 1 else 0)
  | VFloat (S754_zero _) => Ok 0
  | VFloat (S754_finite s m e) => Ok (trunc_finite s m e)
  | VFloat S754_nan => Raise (Exn ValueError (builtin_msg ValueError v))
  | VFloat (S754_infinity _) => Raise (Exn OverflowError (builtin_msg OverflowError v))
  | VStr s => int_of_str s
  | _ => Raise (Exn TypeError (builtin_msg TypeError v))
  end.

Definition profile_key : pystr := str "openai-codex:default".
Definition model_id : pystr := str "openai-codex/gpt-5.3-codex".

(** Line 67. *)
Definition default_store : pyval :=
  VDict [(str "version", VInt 1); (str "profiles", VDict [])].

(** Lines 85-106 on the dict [existing]; [None] stands for the [return 0]
    of lines 88 and 100, which end the run before anything is written. *)
Definition merge_profile (existing : dict) (access : pystr)
    (refresh account_id : option pyval) (exp_ms : Z) (now : pystr)
  : option dict :=
  e1 ← (if nonblank (dict_get existing (str "refresh")) then Some existing
        else if nonblank refresh
             then Some (dict_set existing (str "refresh") (VStr (stripped refresh)))
             else None);
  let e2 := dict_set e1 (str "access") (VStr access) in
  let e3 :=
    if negb (exp_ms =? 0)
       && (negb (is_int (dict_get e2 (str "expires")))
           || (int_or_0 (dict_get e2 (str "expires")) <=? 0))
    then dict_set e2 (str "expires") (VInt exp_ms)
    else e2 in
  e4 ← (if nonblank (dict_get e3 (str "accountId")) then Some e3
        else if nonblank account_id
             then Some (dict_set e3 (str "accountId") (VStr (stripped account_id)))
             else None);
  let e5 := dict_set e4 (str "type") (VStr (str "oauth")) in
  let e6 := dict_set e5 (str "provider") (VStr (str "openai-codex")) in
  let e7 := dict_set e6 (str "syncedFrom") (VStr (str "codex")) in
  Some (dict_set e7 (str "syncedAt") (VStr now)).

(** Lines 44-110 after the Codex file has been read: the store handed to
    [_write_json], [None] when the run ends before the write, or the
    exception that ends it. [auth_file] is [None] when the file of the
    profiles does not exist, and else what [_read_json] gives. *)
Definition sync_store {L : PyLib} {B : BootLib} (codex : pyval)
    (auth_file : option (result pyval)) (now : pystr) : result (option pyval) :=
  tokens_v ← py_get codex (str "tokens");
  let tokens := or_else tokens_v (VDict []) in
  access ← py_get tokens (str "access_token");
  refresh ← py_get tokens (str "refresh_token");
  account_id ← py_get tokens (str "account_id");
  if negb (nonblank access) then Ok None
  else
    let exp_ms := jwt_exp_ms (stripped access) in
    let store :=
      match auth_file with
      | Some (Ok v) => v
      | _ => default_store
      end in
    profiles_v ← py_get store (str "profiles");
    match store with
    | VDict store_d =>
        let profiles :=
          match as_dict profiles_v with Some p => p | None => [] end in
        let store1 :=
          match as_dict profiles_v with
          | Some _ => store_d
          | None => dict_set store_d (str "profiles") (VDict [])
          end in
        let existing :=
          match as_dict (dict_get profiles profile_key) with
          | Some e => e
          | None => []
          end in
        match merge_profile existing (stripped access) refresh account_id exp_ms now with
        | None => Ok None
        | Some existing' =>
            let profiles' := dict_set profiles profile_key (VDict existing') in
            let store2 := dict_set store1 (str "profiles") (VDict profiles') in
            version ← py_int (or_else (dict_get store2 (str "version")) (VInt 1));
            Ok (Some (VDict (dict_set store2 (str "version") (VInt version))))
        end
    | _ => Raise (Exn AttributeError (builtin_msg AttributeError store))
    end.

(** [v.setdefault(k, {})]: the dict after the call and the value returned. *)
Definition py_setdefault {L : PyLib} (v : pyval) (k : pystr)
  : result (dict * pyval) :=
  match v with
  | VDict d =>
      match dict_get d k with
      | Some x => Ok (d, x)
      | None => Ok (d ++ [(k, VDict [])], VDict [])
      end
  | _ => Raise (Exn AttributeError (builtin_msg AttributeError v))
  end.

(** [v[k] = x]: a [TypeError] when [v] is not a dict (a list does not take
    a string as an index, the other values do not support assignment). *)
Definition py_setitem {L : PyLib} (v : pyval) (k : pystr) (x : pyval)
  : result dict :=
  match v with
  | VDict d => Ok (dict_set d k x)
  | _ => Raise (Exn TypeError (builtin_msg TypeError v))
  end.

(** Lines 114-127: the configuration handed to [_write_json]. The dicts
    reached through [cfg] are parts of it, so that each change is written
    back into its parent. *)
Definition update_cfg {L : PyLib} (cfg_file : option (result pyval))
  : result pyval :=
  let cfg :=
    match cfg_file with
    | Some (Ok v) => v
    | _ => VDict []
    end in
  '(cfg1, agents) ← py_setdefault cfg (str "agents");
  '(agents1, defaults) ← py_setdefault agents (str "defaults");
  '(defaults1, model_cfg) ← py_setdefault defaults (str "model");
  model_cfg1 ← py_setitem model_cfg (str "primary") (VStr model_id);
  let defaults2 := dict_set defaults1 (str "model") (VDict model_cfg1) in
  '(defaults3, models_cfg) ← py_setdefault (VDict defaults2) (str "models");
  let models1 :=
    match models_cfg with
    | VDict m =>
        match dict_get m model_id with
        | Some _ => VDict m
        | None => VDict (m ++ [(model_id, VDict [])])
        end
    | _ => models_cfg
    end in
  let defaults4 := dict_set defaults3 (str "models") models1 in
  let agents2 := dict_set agents1 (str "defaults") (VDict defaults4) in
  Ok (VDict (dict_set cfg1 (str "agents") (VDict agents2))).

(** What a run writes, in order. *)
Inductive effect :=
| WriteAuth (store : pyval)
| WriteCfg (cfg : pyval) (chmod_600 : bool).

(** [main] on the three files, each [None] when it does not exist and else
    what [_read_json] gives: the files written and the status returned or
    the exception that ends the run. *)
Definition main {L : PyLib} {B : BootLib}
    (codex_file auth_file cfg_file : option (result pyval)) (now : pystr)
  : list effect * result Z :=
  match codex_file with
  | None => ([], Ok 0)
  | Some (Raise e) => ([], Raise e)
  | Some (Ok codex) =>
      match sync_store codex auth_file now with
      | Raise e => ([], Raise e)
      | Ok None => ([], Ok 0)
      | Ok (Some store) =>
          match update_cfg cfg_file with
          | Raise e => ([WriteAuth store], Raise e)
          | Ok cfg =>
              ([WriteAuth store;
                WriteCfg cfg (match cfg_file with None => true | _ => false end)],
               Ok 0)
          end
      end
  end.

(** A library for the examples: the expiry is 1700000000000 for every
    token, and no string converts to an integer. *)
#[local] Instance stub : BootLib := {|
  jwt_exp_ms := fun _ => 1700000000000;
  int_of_str := fun _ => Raise (Exn ValueError (str "invalid literal for int()"))
|}.

(** Files for the examples: a Codex file with the three tokens, and a store
    that already holds a profile with a refresh token, a positive expiry
    and a field of its own, beside another profile. *)
Definition codex0 : pyval :=
  VDict [(str "tokens",
          VDict [(str "access_token", VStr (str " tokA "));
                 (str "refresh_token", VStr (str "refA"));
                 (str "account_id", VStr (str "acc1"))])].

Definition store0 : pyval :=
  VDict [(str "version", VInt 1);
         (str "note", VStr (str "mine"));
         (str "profiles",
          VDict [(str "other", VDict [(str "type", VStr (str "api_key"))]);
                 (profile_key,
                  VDict [(str "refresh", VStr (str "keepme"));
                         (str "expires", VInt 5);
                         (str "custom", VBool true)])])].

Definition now0 : pystr := str "2026-01-01T00:00:00Z".

(** Configurations for the examples: one with a model table of its own and
    settings the script does not know, and one whose [agents] is a list. *)
Definition cfg0 : pyval :=
  VDict [(str "gateway", VDict [(str "port", VInt 18789)]);
         (str "agents",
          VDict [(str "list", VList []);
                 (str "defaults",
                  VDict [(str "workspace", VStr (str "~/w"));
                         (str "model",
                          VDict [(str "primary", VStr (str "other/model"));
                                 (str "fallbacks", VList [])]);
                         (str "models",
                          VDict [(str "other/model", VDict [])])])])].

Definition cfg_bad : pyval :=
  VDict [(str "agents", VList [])].

End Bootstrap.

(** ** Vocabulary of the further properties *)

(** A string as the engine and the pool receive it: not empty and with
    nothing for [strip()] to remove. *)
Definition normalized (s : pystr) : Prop := s <> [] /\ strip s = s.

(** A speed within the interval of lines 106-109: neither below 0.7 nor
    above 1.2 (a NaN passes both tests). *)
Definition speed_in_range (s : f64) : Prop :=
  F64.ltb s F64.c0_7 = false /\ F64.ltb F64.c1_2 s = false.

(** What the loop may hand to the engine and its pool. *)
Definition event_ok {E : Engine} (ev : event) : Prop :=
  match ev with
  | EvAcquire k => normalized k
  | EvNew _ k _ => normalized k
  | EvCall _ text voice speed pat =>
      normalized text /\ normalized voice /\ speed_in_range speed
      /\ pat = str "\n+"
  end.

Definition is_call {E : Engine} (ev : event) : bool :=
  match ev with EvCall _ _ _ _ _ => true | _ => false end.

Definition is_new {E : Engine} (ev : event) : bool :=
  match ev with EvNew _ _ _ => true | _ => false end.

(** The number of calls of an engine instance, and of constructor calls. *)
Definition call_count {E : Engine} (log : list event) : nat :=
  length (List.filter is_call log).

Definition new_count {E : Engine} (log : list event) : nat :=
  length (List.filter is_new log).

(** The events of one iteration: at most one call, at most two constructor
    calls, all on normalized arguments. *)
Definition step_events {E : Engine} (new : list event) : Prop :=
  (call_count new <= 1)%nat /\ (new_count new <= 2)%nat /\ Forall event_ok new.

(** The responses of the loop to an input, in order. *)
Fixpoint responses {L : PyLib} {E : Engine} (stdin : list pystr) (w : worker)
  : list response :=
  match stdin with
  | [] => []
  | line :: rest =>
      match respond line w with
      | (w', Some r) => r :: responses rest w'
      | (w', None) => responses rest w'
      end
  end.

(** A line of printable ASCII closed by a newline. *)
Definition ascii_line (l : pystr) : Prop :=
  exists t, l = t ++ [10%N] /\ Forall printable t.

(** Two states of the worker that differ at most in what has been written
    to the output channel. *)
Definition same_engine {E : Engine} (w1 w2 : worker) : Prop :=
  pipelines w1 = pipelines w2 /\ world w1 = world w2 /\ calls w1 = calls w2.

(** Every key of the cache is a normalized language code. *)
Definition keys_ok {E : Engine} (w : worker) : Prop :=
  forall k p, pipelines w !! k = Some p -> normalized k.

(** The position of a character in the base64 alphabet. *)
Fixpoint index_of (c : N) (l : pystr) (i : Z) : option Z :=
  match l with
  | [] => None
  | x :: l' => if (x =? c)%N then Some i else index_of c l' (i + 1)
  end.

Definition b64_index (c : N) : option Z := index_of c b64_alphabet 0.

(** The decoding of base64 text (RFC 4648), the inverse the receiver of a
    response applies to [audio_base64]. *)
Fixpoint b64decode (s : pystr) : option bytes :=
  match s with
  | [] => Some []
  | c1 :: c2 :: c3 :: c4 :: r =>
      i1 ← b64_index c1;
      i2 ← b64_index c2;
      if (c4 =? 61)%N then
        match r with
        | [] =>
            if (c3 =? 61)%N then Some [i1 * 4 + i2 / 16]
            else
              i3 ← b64_index c3;
              Some [i1 * 4 + i2 / 16; i2 mod 16 * 16 + i3 / 4]
        | _ => None
        end
      else
        i3 ← b64_index c3;
        i4 ← b64_index c4;
        rest ← b64decode r;
        Some ([i1 * 4 + i2 / 16; i2 mod 16 * 16 + i3 / 4; i3 mod 4 * 64 + i4]
              ++ rest)
  | _ => None
  end.

(** A byte. *)
Definition is_byte (x : Z) : Prop := 0 <= x < 256.

(** A character that stands for itself in a JSON string. *)
Definition b64_plain (c : N) : Prop := escape_char c = [c].

(** The scaled sample is a number the conversion to int16 is defined on. *)
Definition scaled_finite (x : f32) : Prop :=
  match F32.mul (np_clip x) F32.c32767 with
  | S754_zero _ | S754_finite _ _ _ => True
  | _ => False
  end.

(** The keys of a profile the bootstrap script manages. *)
Definition managed_keys : list pystr :=
  [str "refresh"; str "access"; str "expires"; str "accountId"; str "type";
   str "provider"; str "syncedFrom"; str "syncedAt"].

(** The dict under a key of a dict, empty when the key is absent or holds
    something else. *)
Definition child (d : list (pystr * pyval)) (k : pystr) : list (pystr * pyval) :=
  match dict_get d k with
  | Some (VDict c) => c
  | _ => []
  end.

(** The store the bootstrap script starts from: what the file holds, or
    the default when the file is absent or unreadable (lines 67-72). *)
Definition store_read (auth_file : option (result pyval)) : pyval :=
  match auth_file with
  | Some (Ok v) => v
  | _ => Bootstrap.default_store
  end.

(** The configuration the bootstrap script starts from (lines 114-119). *)
Definition cfg_read (cfg_file : option (result pyval)) : pyval :=
  match cfg_file with
  | Some (Ok v) => v
  | _ => VDict []
  end.

(** A key that is absent or holds a dict. *)
Definition dict_or_absent (d : list (pystr * pyval)) (k : pystr) : Prop :=
  match dict_get d k with
  | None | Some (VDict _) => True
  | _ => False
  end.

(** A configuration the script can descend into: a dict whose [agents],
    [agents.defaults] and [agents.defaults.model], where present, are
    dicts. *)
Definition well_shaped (cfg : pyval) : Prop :=
  match cfg with
  | VDict c =>
      dict_or_absent c (str "agents")
      /\ dict_or_absent (child c (str "agents")) (str "defaults")
      /\ dict_or_absent (child (child c (str "agents")) (str "defaults")) (str "model")
  | _ => False
  end.

(** * Properties *)

(** ** Concrete values *)

Example strip_example :
  strip ([32; 9; 160]%N ++ str "hi there" ++ [13; 10]%N) = str "hi there".
Proof. reflexivity. Qed.

(** A quote, a newline, e acute and an emoji. *)
Example escape_example :
  encode_basestring_ascii [97; 34; 10; 233; 128512]%N
  = [34; 97; 92; 34]%N ++ str "\n\u00e9\ud83d\ude00" ++ [34%N].
Proof. reflexivity. Qed.

Example dumps_example :
  json_dumps (success_resp (str "1") empty_str)
  = str "{" ++ Stub.quoted "id" ++ str ": " ++ Stub.quoted "1"
    ++ str ", " ++ Stub.quoted "ok" ++ str ": true, "
    ++ Stub.quoted "format" ++ str ": " ++ Stub.quoted "wav_24000"
    ++ str ", " ++ Stub.quoted "sample_rate" ++ str ": 24000, "
    ++ Stub.quoted "audio_base64" ++ str ": " ++ [34; 34]%N ++ str "}".
Proof. reflexivity. Qed.

Example b64_example :
  b64encode (bstr "Man") = str "TWFu" /\ b64encode (bstr "Ma") = str "TWE="
  /\ b64encode (bstr "M") = str "TQ==".
Proof. repeat split. Qed.

Example header_example :
  wav_header 24000 0
  = [82; 73; 70; 70; 36; 0; 0; 0; 87; 65; 86; 69; 102; 109; 116; 32;
     16; 0; 0; 0; 1; 0; 1; 0; 192; 93; 0; 0; 128; 187; 0; 0; 2; 0; 16; 0;
     100; 97; 116; 97; 0; 0; 0; 0].
Proof. reflexivity. Qed.

Example of_int_example :
  F64.of_int 1 = Some F64.c1_0 /\ F64.of_int (2 ^ 1024) = None
  /\ F64.of_int (2 ^ 1024 - 2 ^ 970 - 1)
     = Some (S754_finite false 9007199254740991 971).
Proof. repeat split; vm_compute; reflexivity. Qed.

(** ** Trimming *)

Lemma lstrip_nil s : lstrip s = [] <-> forallb is_space s = true.
Proof.
  induction s as [|c s IH]; simpl; [tauto|].
  destruct (is_space c); simpl; [exact IH|].
  split; discriminate.
Qed.

Lemma lstrip_head s c t : lstrip s = c :: t -> is_space c = false.
Proof.
  induction s as [|a s IH]; simpl; [discriminate|].
  destruct (is_space a) eqn:Ha; [exact IH|].
  intros [= <- _]. exact Ha.
Qed.

Lemma lstrip_snoc l c : is_space c = false -> lstrip (l ++ [c]) <> [].
Proof.
  intros Hc. induction l as [|a l IH]; simpl.
  - rewrite Hc. discriminate.
  - destruct (is_space a); [exact IH | discriminate].
Qed.

(** A line is empty after [strip()] exactly when it consists of whitespace. *)
Lemma strip_blank s : str_empty (strip s) = forallb is_space s.
Proof.
  unfold strip, rstrip.
  destruct (forallb is_space s) eqn:Hs.
  - apply lstrip_nil in Hs. rewrite Hs. reflexivity.
  - destruct (lstrip s) as [|c t] eqn:Hl.
    + apply lstrip_nil in Hl. congruence.
    + apply lstrip_head in Hl. simpl rev.
      pose proof (lstrip_snoc (rev t) c Hl) as Hne.
      destruct (lstrip (rev t ++ [c])) as [|a r]; [congruence|].
      simpl. destruct (rev r ++ [a]) eqn:Hr; [|reflexivity].
      destruct (rev r); discriminate.
Qed.

Lemma lstrip_decomp s :
  exists l, s = l ++ lstrip s /\ forallb is_space l = true.
Proof.
  induction s as [|c s (l & Hs & Hl)]; [exists []; split; reflexivity|].
  simpl. destruct (is_space c) eqn:Hc.
  - exists (c :: l). simpl. rewrite Hc, Hl. split; [congruence | reflexivity].
  - exists []. split; reflexivity.
Qed.

Lemma forallb_rev {A} (f : A -> bool) l : forallb f (rev l) = forallb f l.
Proof.
  induction l as [|a l IH]; [reflexivity|].
  simpl. rewrite forallb_app, IH. simpl. destruct (f a), (forallb f l); reflexivity.
Qed.

Lemma rstrip_decomp s :
  exists r, s = rstrip s ++ r /\ forallb is_space r = true.
Proof.
  unfold rstrip. destruct (lstrip_decomp (rev s)) as (l & Hs & Hl).
  exists (rev l). rewrite forallb_rev. split; [|exact Hl].
  rewrite <- rev_app_distr, <- Hs, rev_involutive. reflexivity.
Qed.

Lemma lstrip_fix c t : is_space c = false -> lstrip (c :: t) = c :: t.
Proof. intros Hc. simpl. rewrite Hc. reflexivity. Qed.

Lemma strip_head s c t : strip s = c :: t -> is_space c = false.
Proof.
  unfold strip. intros Hs.
  destruct (rstrip_decomp (lstrip s)) as (r & Hr & _).
  rewrite Hs in Hr. simpl in Hr. exact (lstrip_head _ _ _ Hr).
Qed.

Lemma strip_last s t c : strip s = t ++ [c] -> is_space c = false.
Proof.
  unfold strip, rstrip. intros Hs.
  apply (f_equal (@rev N)) in Hs.
  rewrite rev_involutive, rev_app_distr in Hs. simpl in Hs.
  exact (lstrip_head _ _ _ Hs).
Qed.

Lemma strip_fix s :
  (forall c t, s = c :: t -> is_space c = false) ->
  (forall t c, s = t ++ [c] -> is_space c = false) ->
  strip s = s.
Proof.
  intros Hhead Hlast. unfold strip, rstrip.
  destruct s as [|c t]; [reflexivity|].
  rewrite (lstrip_fix c t (Hhead c t eq_refl)).
  destruct (rev (c :: t)) as [|a u] eqn:Hrev.
  { apply (f_equal (@rev N)) in Hrev. rewrite rev_involutive in Hrev.
    discriminate. }
  assert (Hs : c :: t = rev u ++ [a]).
  { rewrite <- (rev_involutive (c :: t)), Hrev. reflexivity. }
  rewrite (lstrip_fix a u (Hlast _ _ Hs)). simpl. symmetry. exact Hs.
Qed.

(** ** The encoder of strings produces JSON string bodies *)

Lemma hex_digit_spec n :
  (n < 16)%N -> is_hex (hex_digit n) /\ printable (hex_digit n).
Proof.
  intros Hn. unfold hex_digit, is_hex, printable.
  destruct (N.ltb_spec n 10); lia.
Qed.

Lemma mod16_lt n : (n mod 16 < 16)%N.
Proof. apply N.mod_lt. discriminate. Qed.

Lemma u_escape_chars n s : json_chars s -> json_chars (u_escape n ++ s).
Proof.
  intros Hs. unfold u_escape, hex4. simpl.
  apply jc_unicode; try exact Hs; apply hex_digit_spec, mod16_lt.
Qed.

Lemma u_escape_printable n : Forall printable (u_escape n).
Proof.
  unfold u_escape, hex4. simpl.
  repeat constructor; try (unfold printable; lia);
    apply hex_digit_spec, mod16_lt.
Qed.

Ltac case_char c :=
  repeat match goal with
         | |- context [N.eqb c ?k] => destruct (N.eqb_spec c k)
         end.

Lemma escape_char_chars c s : json_chars s -> json_chars (escape_char c ++ s).
Proof.
  intros Hs. unfold escape_char.
  destruct (N.eqb_spec c 92); [apply jc_escape; simpl; tauto|].
  destruct (N.eqb_spec c 34); [apply jc_escape; simpl; tauto|].
  destruct ((32 <=? c)%N && (c <=? 126)%N) eqn:Hp.
  { apply andb_true_iff in Hp as [Hlo _]. apply N.leb_le in Hlo.
    simpl. apply jc_plain; assumption. }
  case_char c; try (apply jc_escape; simpl; tauto).
  destruct (c <? 65536)%N.
  - apply u_escape_chars, Hs.
  - rewrite <- app_assoc. apply u_escape_chars, u_escape_chars, Hs.
Qed.

Lemma escape_char_printable c : Forall printable (escape_char c).
Proof.
  unfold escape_char.
  destruct (N.eqb_spec c 92); [repeat constructor; unfold printable; lia|].
  destruct (N.eqb_spec c 34); [repeat constructor; unfold printable; lia|].
  destruct ((32 <=? c)%N && (c <=? 126)%N) eqn:Hp.
  { apply andb_true_iff in Hp as [Hlo Hhi].
    apply N.leb_le in Hlo. apply N.leb_le in Hhi.
    repeat constructor; assumption. }
  case_char c; try (repeat constructor; unfold printable; lia).
  destruct (c <? 65536)%N.
  - apply u_escape_printable.
  - apply Forall_app; split; apply u_escape_printable.
Qed.

Lemma escape_chars s : json_chars (flat_map escape_char s).
Proof.
  induction s as [|c s IH]; simpl; [constructor|].
  apply escape_char_chars, IH.
Qed.

Lemma escape_printable s : Forall printable (flat_map escape_char s).
Proof.
  induction s as [|c s IH]; simpl; [constructor|].
  apply Forall_app; split; [apply escape_char_printable | exact IH].
Qed.

Lemma encode_string_value s : json_value (encode_basestring_ascii s).
Proof. apply jv_string, escape_chars. Qed.

Lemma encode_string_printable s : Forall printable (encode_basestring_ascii s).
Proof.
  unfold encode_basestring_ascii.
  apply Forall_app; split; [repeat constructor; unfold printable; lia|].
  apply Forall_app; split; [apply escape_printable|].
  repeat constructor; unfold printable; lia.
Qed.

(** ** A dumped response is one JSON object on one line *)

Lemma scalar_ok_str s : scalar_ok (SStr s).
Proof. split; [apply encode_string_value | apply encode_string_printable]. Qed.

Lemma scalar_ok_bool b : scalar_ok (SBool b).
Proof.
  split.
  - destruct b; [apply jv_true | apply jv_false].
  - destruct b; vm_compute; repeat constructor; discriminate.
Qed.

Lemma scalar_ok_24000 : scalar_ok (SInt 24000).
Proof.
  split.
  - apply jv_number.
    change (json_number ([] ++ [50; 52; 48; 48; 48] ++ [] ++ [])%N).
    constructor; [left; reflexivity | | constructor | constructor].
    apply ji_digits; [unfold is_digit; lia | discriminate |].
    right. repeat (first [apply jd_one | apply jd_cons]; [unfold is_digit; lia|]).
    apply jd_one. unfold is_digit; lia.
  - vm_compute. repeat constructor; discriminate.
Qed.

Lemma ws_space : json_ws [32%N].
Proof. repeat constructor. Qed.

Lemma item_members w kv rest :
  json_ws w -> json_value (dumps_scalar (snd kv)) ->
  (rest = [] \/ json_members rest) ->
  json_members
    (w ++ dumps_item kv ++ match rest with [] => [] | _ => [44%N] ++ rest end).
Proof.
  intros Hw Hv Hrest. unfold dumps_item, encode_basestring_ascii.
  change (str ": ") with ([] ++ str ":" ++ [32%N] : pystr).
  set (k := flat_map escape_char (fst kv)).
  set (v := dumps_scalar (snd kv)) in *.
  assert (He : json_element ([32%N] ++ v ++ [])).
  { constructor; [apply ws_space | exact Hv | constructor]. }
  destruct Hrest as [-> | Hms].
  - replace (w ++ (([34%N] ++ k ++ [34%N]) ++ ([] ++ str ":" ++ [32%N]) ++ v) ++ [])
      with (w ++ [34%N] ++ k ++ [34%N] ++ [] ++ str ":" ++ ([32%N] ++ v ++ [])).
    + apply jm_one; [exact Hw | apply escape_chars | constructor | exact He].
    + rewrite !app_nil_r. repeat rewrite <- app_assoc. reflexivity.
  - destruct rest as [|c rest]; [inversion Hms; destruct w1; discriminate|].
    replace (w ++ (([34%N] ++ k ++ [34%N]) ++ ([] ++ str ":" ++ [32%N]) ++ v)
               ++ [44%N] ++ c :: rest)
      with (w ++ [34%N] ++ k ++ [34%N] ++ [] ++ str ":" ++ ([32%N] ++ v ++ [])
              ++ str "," ++ c :: rest).
    + apply jm_more; [exact Hw | apply escape_chars | constructor | exact He | exact Hms].
    + rewrite !app_nil_r. repeat rewrite <- app_assoc. reflexivity.
Qed.

Lemma join_items_cons x rest :
  join_items (x :: rest)
  = x ++ match rest with [] => [] | _ => str ", " ++ join_items rest end.
Proof. destruct rest; simpl; [rewrite app_nil_r|]; reflexivity. Qed.

Lemma items_members (r : response) w :
  r <> [] -> json_ws w ->
  Forall (fun kv => scalar_ok (snd kv)) r ->
  json_members (w ++ join_items (map dumps_item r)).
Proof.
  revert w. induction r as [|kv r IH]; intros w Hne Hw Hall; [congruence|].
  inversion Hall as [|? ? [Hv _] Hr]; subst.
  simpl map. rewrite join_items_cons.
  destruct r as [|kv' r].
  - exact (item_members w kv [] Hw Hv (or_introl eq_refl)).
  - assert (Hms : json_members ([32%N] ++ join_items (map dumps_item (kv' :: r)))).
    { apply IH; [discriminate | apply ws_space | exact Hr]. }
    pose proof (item_members w kv _ Hw Hv (or_intror Hms)) as H.
    simpl in H. simpl. exact H.
Qed.

Lemma dumps_object (r : response) :
  r <> [] -> Forall (fun kv => scalar_ok (snd kv)) r ->
  json_object_text (json_dumps r).
Proof.
  intros Hne Hall. exists (join_items (map dumps_item r)). split; [reflexivity|].
  right. exact (items_members r [] Hne jw_nil Hall).
Qed.

Lemma join_printable items :
  Forall (Forall printable) items -> Forall printable (join_items items).
Proof.
  induction 1 as [|x rest Hx Hrest IH]; [constructor|].
  rewrite join_items_cons. apply Forall_app; split; [exact Hx|].
  destruct rest; [constructor|].
  apply Forall_app; split; [|exact IH].
  vm_compute. repeat constructor; discriminate.
Qed.

Lemma dumps_printable (r : response) :
  Forall (fun kv => scalar_ok (snd kv)) r -> Forall printable (json_dumps r).
Proof.
  intros Hall. unfold json_dumps.
  apply Forall_app; split; [vm_compute; repeat constructor; discriminate|].
  apply Forall_app; split; [|vm_compute; repeat constructor; discriminate].
  apply join_printable. induction Hall as [|kv r [_ Hv] _ IH]; [constructor|].
  simpl. constructor; [|exact IH].
  unfold dumps_item. apply Forall_app; split; [apply encode_string_printable|].
  apply Forall_app; split; [vm_compute; repeat constructor; discriminate | exact Hv].
Qed.

Lemma dumps_line (r : response) :
  r <> [] -> Forall (fun kv => scalar_ok (snd kv)) r ->
  protocol_line (json_dumps r ++ [10%N]).
Proof.
  intros Hne Hall. exists (json_dumps r). split; [reflexivity|].
  split; [apply dumps_object; assumption|].
  intros Hin. pose proof (dumps_printable r Hall) as Hp.
  rewrite Forall_forall in Hp. apply list_elem_of_In in Hin.
  specialize (Hp _ Hin). unfold printable in Hp. lia.
Qed.

Lemma success_line rid b64 : protocol_line (json_dumps (success_resp rid b64) ++ [10%N]).
Proof.
  apply dumps_line; [discriminate|].
  unfold success_resp.
  repeat (apply List.Forall_cons;
          [first [apply scalar_ok_str | apply scalar_ok_bool | apply scalar_ok_24000]|]).
  apply List.Forall_nil.
Qed.

Lemma failure_line rid msg : protocol_line (json_dumps (failure_resp rid msg) ++ [10%N]).
Proof.
  apply dumps_line; [discriminate|].
  unfold failure_resp.
  repeat (apply List.Forall_cons; [first [apply scalar_ok_str | apply scalar_ok_bool]|]).
  apply List.Forall_nil.
Qed.

(** ** The pool and the synthesis step leave the output channel alone *)

Section Loop.
Context {L : PyLib} {E : Engine}.

Lemma get_pipeline_acquired lang_code w :
  acquired (norm_lang lang_code) w
    (fst (get_pipeline lang_code w)) (snd (get_pipeline lang_code w)).
Proof.
  unfold get_pipeline.
  destruct (pipelines w !! norm_lang lang_code) as [p|] eqn:Hk.
  - apply acq_hit, Hk.
  - destruct (KPipeline_repo _ _ _) as [wd1 [p|e1]] eqn:H1; simpl.
    + eapply acq_made_repo; eassumption.
    + destruct (is_TypeError e1) eqn:Ht.
      * destruct (KPipeline_lang _ _) as [wd2 [p|e2]] eqn:H2; simpl.
        -- eapply acq_made_lang; eassumption.
        -- eapply acq_fail_lang; eassumption.
      * simpl. eapply acq_fail_repo; eassumption.
Qed.

Lemma get_pipeline_out lang_code w :
  json_out (fst (get_pipeline lang_code w)) = json_out w.
Proof. destruct (get_pipeline_acquired lang_code w); reflexivity. Qed.

Lemma synthesize_out rq w : json_out (fst (synthesize rq w)) = json_out w.
Proof.
  unfold synthesize.
  pose proof (get_pipeline_out (rq_lang_code rq) w) as Hg.
  destruct (get_pipeline _ w) as [w1 [p|e]]; simpl in *; [|exact Hg].
  destruct (run_pipeline _ _ _ _ _ _) as [wd [chunks|e]]; simpl; exact Hg.
Qed.

Lemma response_line r : is_response r -> protocol_line (json_dumps r ++ [10%N]).
Proof.
  intros [rid [[b ->] | [m ->]]]; [apply success_line | apply failure_line].
Qed.

Lemma respond_blank line w :
  forallb is_space line = true -> respond line w = (w, None).
Proof.
  intros Hb. unfold respond. rewrite strip_blank, Hb. reflexivity.
Qed.

Lemma respond_some line w :
  forallb is_space line = false ->
  exists w' r, respond line w = (w', Some r)
               /\ json_out w' = json_out w /\ is_response r.
Proof.
  intros Hb. unfold respond. rewrite strip_blank, Hb.
  destruct (json_loads (strip line)) as [req|exc].
  2: { eexists _, _. split; [reflexivity|]. split; [reflexivity|].
       eexists. right. eexists. reflexivity. }
  destruct (read_fields req) as [rid [rq|exc]].
  2: { eexists _, _. split; [reflexivity|]. split; [reflexivity|].
       eexists. right. eexists. reflexivity. }
  destruct (str_empty (rq_text rq)).
  { eexists _, _. split; [reflexivity|]. split; [reflexivity|].
    eexists. left. eexists. reflexivity. }
  pose proof (synthesize_out rq w) as Ho.
  destruct (synthesize rq w) as [w' [wav|exc]]; simpl in Ho.
  - eexists _, _. split; [reflexivity|]. split; [exact Ho|].
    eexists. left. eexists. reflexivity.
  - eexists _, _. split; [reflexivity|]. split; [exact Ho|].
    eexists. right. eexists. reflexivity.
Qed.

Lemma main_loop_cons line stdin w :
  main_loop (line :: stdin) w = main_loop stdin (handle_line line w).
Proof. reflexivity. Qed.

Lemma main_loop_app pre post w :
  main_loop (pre ++ post) w = main_loop post (main_loop pre w).
Proof. unfold main_loop. apply fold_left_app. Qed.

Lemma handle_line_output line w :
  (forallb is_space line = true ->
   json_out (handle_line line w) = json_out w)
  /\ (forallb is_space line = false ->
      exists l, json_out (handle_line line w) = json_out w ++ [l]
                /\ protocol_line l).
Proof.
  unfold handle_line. split; intros Hb.
  - rewrite (respond_blank _ _ Hb). reflexivity.
  - destruct (respond_some line w Hb) as (w' & r & -> & Ho & Hr).
    exists (json_dumps r ++ [10%N]). simpl. rewrite Ho.
    split; [reflexivity | apply response_line, Hr].
Qed.

Lemma main_loop_output stdin w :
  exists out, json_out (main_loop stdin w) = json_out w ++ out
              /\ Forall protocol_line out
              /\ length out = length (requests stdin).
Proof.
  revert w. induction stdin as [|line stdin IH]; intros w.
  - exists []. simpl. rewrite app_nil_r. repeat split. constructor.
  - rewrite main_loop_cons.
    destruct (IH (handle_line line w)) as (out & Ho & Hall & Hlen).
    destruct (handle_line_output line w) as [Hblank Hreq].
    unfold requests in *. simpl.
    destruct (forallb is_space line) eqn:Hb; simpl.
    + exists out. rewrite Ho, (Hblank eq_refl). auto.
    + destruct (Hreq eq_refl) as (l & Hl & Hp).
      exists (l :: out). rewrite Ho, Hl, <- app_assoc. simpl.
      repeat split; [constructor; assumption | congruence].
Qed.

End Loop.

(** C1. For every line of the input: a blank or whitespace-only line writes
    nothing; any other line writes exactly one line, which is one well-formed
    JSON object followed by the only newline of the line. Over a whole input,
    the output grows by one such line per non-blank input line. *)
Theorem C1_one_json_line_per_request (L : PyLib) (E : Engine) :
  (forall line w,
      (forallb is_space line = true ->
       json_out (handle_line line w) = json_out w)
      /\ (forallb is_space line = false ->
          exists l, json_out (handle_line line w) = json_out w ++ [l]
                    /\ protocol_line l))
  /\ (forall stdin w,
         exists out, json_out (main_loop stdin w) = json_out w ++ out
                     /\ Forall protocol_line out
                     /\ length out = length (requests stdin)).
Proof.
  split; [apply handle_line_output | apply main_loop_output].
Qed.

Lemma C1_witness :
  json_out (handle_line (L := Stub.lib) (str "  ") Stub.w0) = json_out Stub.w0
  /\ exists l,
      json_out (handle_line (L := Stub.lib) Stub.line_silence Stub.w0)
      = json_out Stub.w0 ++ [l] /\ protocol_line l.
Proof.
  split.
  - apply (proj1 (C1_one_json_line_per_request Stub.lib Stub.engine)).
    reflexivity.
  - apply (proj1 (C1_one_json_line_per_request Stub.lib Stub.engine)).
    reflexivity.
Defined.

(** ** The engine pool *)

Section Pool.
Context {L : PyLib} {E : Engine}.

Lemma built_count_snoc k log ev :
  built_count k (log ++ [ev])
  = (built_count k log + (if is_made k ev then 1 else 0))%nat.
Proof.
  unfold built_count. rewrite List.filter_app, length_app. simpl.
  destruct (is_made k ev); reflexivity.
Qed.

Lemma built_total_snoc log ev :
  built_total (log ++ [ev])
  = (built_total log + (if is_made_any ev then 1 else 0))%nat.
Proof.
  unfold built_total. rewrite List.filter_app, length_app. simpl.
  destruct (is_made_any ev); reflexivity.
Qed.

Lemma attempt_count_snoc k log ev :
  attempt_count k (log ++ [ev])
  = (attempt_count k log + (if is_attempt k ev then 1 else 0))%nat.
Proof.
  unfold attempt_count. rewrite List.filter_app, length_app. simpl.
  destruct (is_attempt k ev); reflexivity.
Qed.

Lemma pool_inv_init wd : pool_inv (init_worker wd).
Proof.
  split; [intros k; simpl; rewrite lookup_empty; reflexivity|].
  simpl. rewrite map_size_empty. reflexivity.
Qed.

Lemma pool_inv_insert w k p wd out log :
  pool_inv w -> pipelines w !! k = None ->
  (forall k', built_count k' log
              = (built_count k' (calls w) + (if pystr_eqb k k' then 1 else 0))%nat) ->
  built_total log = S (built_total (calls w)) ->
  pool_inv {| pipelines := <[k := p]> (pipelines w); world := wd;
              json_out := out; calls := log |}.
Proof.
  intros [Hc Ht] Hk Hlog Htot. split; simpl.
  - intros k'. rewrite Hlog, Hc. unfold pystr_eqb.
    case_bool_decide as Hkk.
    + subst k'. rewrite Hk, lookup_insert_eq. reflexivity.
    + rewrite lookup_insert_ne by exact Hkk.
      destruct (pipelines w !! k'); lia.
  - rewrite Htot, Ht. symmetry. apply map_size_insert_None, Hk.
Qed.

Lemma pool_inv_same w wd out log :
  pool_inv w ->
  (forall k', built_count k' log = built_count k' (calls w)) ->
  built_total log = built_total (calls w) ->
  pool_inv {| pipelines := pipelines w; world := wd; json_out := out; calls := log |}.
Proof.
  intros [Hc Ht] Hlog Htot. split; simpl.
  - intros k'. rewrite Hlog. apply Hc.
  - rewrite Htot. exact Ht.
Qed.

Ltac count_events :=
  repeat first [rewrite built_count_snoc | rewrite built_total_snoc];
  simpl; try lia.

Lemma acquired_inv k w w' r : acquired k w w' r -> pool_inv w -> pool_inv w'.
Proof.
  intros Ha Hinv.
  destruct Ha as [p Hk | wd p Hk _ | wd1 e1 wd2 p Hk _ _ _
                 | wd e Hk _ _ | wd1 e1 wd2 e Hk _ _ _].
  - apply pool_inv_same; [exact Hinv | intros k' | ]; count_events.
  - apply pool_inv_insert; [exact Hinv | exact Hk | intros k' | ]; count_events.
  - apply pool_inv_insert; [exact Hinv | exact Hk | intros k' | ]; count_events.
  - apply pool_inv_same; [exact Hinv | intros k' | ]; count_events.
  - apply pool_inv_same; [exact Hinv | intros k' | ]; count_events.
Qed.

(** Entries are only ever added. *)
Lemma acquired_mono k w w' r : acquired k w w' r -> pipelines w ⊆ pipelines w'.
Proof.
  intros Ha.
  destruct Ha as [p Hk | wd p Hk _ | wd1 e1 wd2 p Hk _ _ _
                 | wd e Hk _ _ | wd1 e1 wd2 e Hk _ _ _]; simpl;
    first [reflexivity | apply insert_subseteq, Hk].
Qed.

Lemma acquired_ok_cached k w w' p :
  acquired k w w' (Ok p) -> pipelines w' !! k = Some p.
Proof.
  intros Ha. inversion Ha; subst; simpl;
    first [assumption | apply lookup_insert_eq].
Qed.

(** A failed acquisition changes nothing in the cache and leaves the key
    without an entry. *)
Lemma acquired_raise k w w' e :
  acquired k w w' (Raise e) ->
  pipelines w' = pipelines w /\ pipelines w' !! k = None.
Proof. intros Ha. inversion Ha; subst; simpl; auto. Qed.

Lemma get_pipeline_eq lang_code w w' r :
  get_pipeline lang_code w = (w', r) -> acquired (norm_lang lang_code) w w' r.
Proof.
  intros Hg. pose proof (get_pipeline_acquired lang_code w) as Ha.
  rewrite Hg in Ha. exact Ha.
Qed.

Lemma synthesize_pool rq w :
  (pool_inv w -> pool_inv (fst (synthesize rq w)))
  /\ pipelines w ⊆ pipelines (fst (synthesize rq w)).
Proof.
  unfold synthesize.
  pose proof (get_pipeline_acquired (rq_lang_code rq) w) as Ha.
  pose proof (acquired_inv _ _ _ _ Ha) as Hinv.
  pose proof (acquired_mono _ _ _ _ Ha) as Hmono.
  destruct (get_pipeline _ w) as [w1 [p|e]]; simpl in *; [|auto].
  destruct (run_pipeline _ _ _ _ _ _) as [wd [chunks|e]]; simpl;
    (split; [|exact Hmono]); intros Hw;
    (apply pool_inv_same; [exact (Hinv Hw) | intros k' | ]); count_events.
Qed.

Lemma respond_pool line w :
  (pool_inv w -> pool_inv (fst (respond line w)))
  /\ pipelines w ⊆ pipelines (fst (respond line w)).
Proof.
  unfold respond.
  destruct (str_empty (strip line)); [simpl; auto|].
  destruct (json_loads (strip line)) as [req|exc]; [|simpl; auto].
  destruct (read_fields req) as [rid [rq|exc]]; [|simpl; auto].
  destruct (str_empty (rq_text rq)); [simpl; auto|].
  pose proof (synthesize_pool rq w) as Hs.
  destruct (synthesize rq w) as [w' [wav|exc]]; exact Hs.
Qed.

Lemma handle_line_pool line w :
  (pool_inv w -> pool_inv (handle_line line w))
  /\ pipelines w ⊆ pipelines (handle_line line w).
Proof.
  unfold handle_line. pose proof (respond_pool line w) as Hr.
  destruct (respond line w) as [w' [r|]]; exact Hr.
Qed.

Lemma main_loop_pool stdin w :
  (pool_inv w -> pool_inv (main_loop stdin w))
  /\ pipelines w ⊆ pipelines (main_loop stdin w).
Proof.
  revert w. induction stdin as [|line stdin IH]; intros w; [simpl; auto|].
  rewrite main_loop_cons.
  destruct (handle_line_pool line w) as [Hi Hm].
  destruct (IH (handle_line line w)) as [Hi' Hm'].
  split; [auto | etrans; eassumption].
Qed.

End Pool.

Section PoolFacts.
Context {L : PyLib} {E : Engine}.

Lemma acquired_ok_pipelines k w w' p :
  acquired k w w' (Ok p) -> pipelines w' = <[k := p]> (pipelines w).
Proof.
  intros Ha. inversion Ha; subst; simpl; try reflexivity.
  symmetry. apply insert_id. assumption.
Qed.

Lemma acquired_attempts k w w' r :
  acquired k w w' r -> pipelines w !! k = None ->
  (attempt_count k (calls w) < attempt_count k (calls w')
   <= attempt_count k (calls w) + 2)%nat.
Proof.
  intros Ha Hk. unfold pystr_eqb.
  inversion Ha; subst; simpl; try congruence;
    repeat rewrite attempt_count_snoc; simpl; unfold pystr_eqb;
    rewrite ?bool_decide_eq_true_2 by reflexivity; lia.
Qed.

Lemma acquired_raise_cause k w w' e :
  acquired k w w' (Raise e) ->
  (exists wd,
      KPipeline_repo k (str "hexgrad/Kokoro-82M") (world w) = (wd, Raise e)
      /\ is_TypeError e = false)
  \/ (exists wd1 e1 wd2,
         KPipeline_repo k (str "hexgrad/Kokoro-82M") (world w) = (wd1, Raise e1)
         /\ is_TypeError e1 = true
         /\ KPipeline_lang k wd1 = (wd2, Raise e)).
Proof.
  intros Ha. inversion Ha; subst.
  - left. eauto.
  - right. eauto 6.
Qed.

Lemma synthesize_raise_acquire rq w w' e :
  get_pipeline (rq_lang_code rq) w = (w', Raise e) ->
  synthesize rq w = (w', Raise e).
Proof. intros Hg. unfold synthesize. rewrite Hg. reflexivity. Qed.

End PoolFacts.

(** C7. Over any input read by one worker the pool has constructed exactly
    one engine instance for each language code in its cache and none for any
    other code, so as many instances as the cache has entries; entries are
    never removed; a successful acquisition leaves its (normalized) code
    cached, a second acquisition of the same code returns the cached handle
    and constructs nothing, and acquiring two different codes from a fresh
    pool constructs exactly two instances, one for each. *)
Theorem C7_one_engine_per_language (L : PyLib) (E : Engine) :
  (forall stdin wd,
      let w := main_loop stdin (init_worker wd) in
      (forall k, built_count k (calls w)
                 = match pipelines w !! k with Some _ => 1%nat | None => 0%nat end)
      /\ built_total (calls w) = size (pipelines w))
  /\ (forall pre post w,
         pipelines (main_loop pre w) ⊆ pipelines (main_loop (pre ++ post) w))
  /\ (forall lang_code w w1 p,
         get_pipeline lang_code w = (w1, Ok p) ->
         pipelines w1 !! norm_lang lang_code = Some p
         /\ exists w2, get_pipeline lang_code w1 = (w2, Ok p)
                       /\ pipelines w2 = pipelines w1
                       /\ built_total (calls w2) = built_total (calls w1))
  /\ (forall wd lang_code w1 p w2 r,
         get_pipeline lang_code (init_worker wd) = (w1, Ok p) ->
         get_pipeline lang_code w1 = (w2, r) ->
         r = Ok p /\ built_total (calls w2) = 1%nat)
  /\ (forall wd lang1 lang2 w1 p1 w2 p2,
         norm_lang lang1 <> norm_lang lang2 ->
         get_pipeline lang1 (init_worker wd) = (w1, Ok p1) ->
         get_pipeline lang2 w1 = (w2, Ok p2) ->
         built_total (calls w2) = 2%nat
         /\ built_count (norm_lang lang1) (calls w2) = 1%nat
         /\ built_count (norm_lang lang2) (calls w2) = 1%nat).
Proof.
  assert (Hsame : forall lang_code w w1 p,
             get_pipeline lang_code w = (w1, Ok p) ->
             pipelines w1 !! norm_lang lang_code = Some p
             /\ exists w2, get_pipeline lang_code w1 = (w2, Ok p)
                           /\ pipelines w2 = pipelines w1
                           /\ built_total (calls w2) = built_total (calls w1)).
  { intros lang_code w w1 p Hg.
    apply get_pipeline_eq, acquired_ok_cached in Hg.
    split; [exact Hg|].
    unfold get_pipeline. rewrite Hg. eexists. split; [reflexivity|].
    simpl. split; [reflexivity|]. rewrite built_total_snoc. simpl. lia. }
  split; [|split; [|split; [exact Hsame|split]]].
  - intros stdin wd w. apply main_loop_pool, pool_inv_init.
  - intros pre post w. rewrite main_loop_app. apply main_loop_pool.
  - intros wd lang_code w1 p w2 r Hg1 Hg2.
    destruct (Hsame _ _ _ _ Hg1) as (_ & w2' & Hg2' & _ & Htot).
    rewrite Hg2 in Hg2'. injection Hg2' as <- ->. split; [reflexivity|].
    rewrite Htot.
    apply get_pipeline_eq in Hg1.
    destruct (acquired_inv _ _ _ _ Hg1 (pool_inv_init wd)) as [_ ->].
    rewrite (acquired_ok_pipelines _ _ _ _ Hg1). simpl.
    rewrite map_size_insert_None by apply lookup_empty.
    rewrite map_size_empty. reflexivity.
  - intros wd lang1 lang2 w1 p1 w2 p2 Hne Hg1 Hg2.
    apply get_pipeline_eq in Hg1. apply get_pipeline_eq in Hg2.
    pose proof (acquired_inv _ _ _ _ Hg2
                  (acquired_inv _ _ _ _ Hg1 (pool_inv_init wd))) as [Hc Ht].
    pose proof (acquired_ok_pipelines _ _ _ _ Hg2) as Hp2.
    rewrite (acquired_ok_pipelines _ _ _ _ Hg1) in Hp2. simpl in Hp2.
    rewrite Ht, !Hc, Hp2.
    rewrite lookup_insert_ne by congruence.
    rewrite !lookup_insert_eq.
    split; [|split; reflexivity].
    rewrite map_size_insert_None.
    + rewrite map_size_insert_None by apply lookup_empty.
      rewrite map_size_empty. reflexivity.
    + rewrite lookup_insert_ne by exact Hne. apply lookup_empty.
Qed.

(** C8. When the construction for a language code raises (the preferred
    form with an error other than [TypeError], or the fallback form after
    the preferred one raised [TypeError]), the exception reaches the caller,
    the cache is unchanged and has no entry for the code, at most the two
    forms were tried, and an acquisition of the same code in any later state
    without such an entry constructs again. *)
Theorem C8_failed_construction_leaves_no_entry (L : PyLib) (E : Engine)
    (lang_code : pystr) (w w' : worker) (e : exn) :
  get_pipeline lang_code w = (w', Raise e) ->
  let k := norm_lang lang_code in
  ((exists wd,
       KPipeline_repo k (str "hexgrad/Kokoro-82M") (world w) = (wd, Raise e)
       /\ is_TypeError e = false)
   \/ (exists wd1 e1 wd2,
          KPipeline_repo k (str "hexgrad/Kokoro-82M") (world w) = (wd1, Raise e1)
          /\ is_TypeError e1 = true
          /\ KPipeline_lang k wd1 = (wd2, Raise e)))
  /\ pipelines w' = pipelines w
  /\ pipelines w' !! k = None
  /\ (attempt_count k (calls w') <= attempt_count k (calls w) + 2)%nat
  /\ (forall rq, rq_lang_code rq = lang_code -> synthesize rq w = (w', Raise e))
  /\ (forall w2, pipelines w2 !! k = None ->
                 (attempt_count k (calls w2)
                  < attempt_count k (calls (fst (get_pipeline lang_code w2))))%nat).
Proof.
  intros Hg k. pose proof (get_pipeline_eq _ _ _ _ Hg) as Ha.
  destruct (acquired_raise _ _ _ _ Ha) as [Hsame Hnone].
  split; [exact (acquired_raise_cause _ _ _ _ Ha)|].
  split; [exact Hsame|]. split; [exact Hnone|].
  split; [|split].
  - apply (acquired_attempts _ _ _ _ Ha). rewrite <- Hsame. exact Hnone.
  - intros rq <-. apply synthesize_raise_acquire, Hg.
  - intros w2 Hk.
    apply (acquired_attempts _ _ _ _ (get_pipeline_acquired lang_code w2) Hk).
Qed.

Lemma C7_witness :
  let w1 := fst (get_pipeline (str "a") Stub.w0) in
  let w2 := fst (get_pipeline (str " b ") w1) in
  (built_total (calls w2) = 2%nat
   /\ built_count (norm_lang (str "a")) (calls w2) = 1%nat
   /\ built_count (norm_lang (str " b ")) (calls w2) = 1%nat)
  /\ (pipelines w2 !! norm_lang (str " b ") = Some (str "b")
      /\ exists w, get_pipeline (str " b ") w2 = (w, Ok (str "b"))
                   /\ pipelines w = pipelines w2
                   /\ built_total (calls w) = built_total (calls w2))
  /\ (snd (get_pipeline (str "a") w1) = Ok (str "a")
      /\ built_total
           (calls (fst (get_pipeline (str "a") w1))) = 1%nat).
Proof.
  intros w1 w2.
  pose proof (C7_one_engine_per_language Stub.lib Stub.engine)
    as (_ & _ & Hsame & Hfresh & Htwo).
  split; [|split].
  - apply (Htwo 0%nat (str "a") (str " b ") w1 (str "a") w2 (str "b")).
    + vm_compute. discriminate.
    + reflexivity.
    + reflexivity.
  - apply (Hsame (str " b ") w1 w2 (str "b")). reflexivity.
  - apply (Hfresh 0%nat (str "a") w1 (str "a")); reflexivity.
Defined.

Lemma C8_witness :
  let r := get_pipeline (str "z") Stub.w0 in
  snd r = Raise (Exn OtherError (str "model not found"))
  /\ pipelines (fst r) = pipelines Stub.w0
  /\ pipelines (fst r) !! norm_lang (str "z") = None
  /\ (attempt_count (norm_lang (str "z")) (calls (fst r))
      < attempt_count (norm_lang (str "z"))
          (calls (fst (get_pipeline (str "z") (fst r)))))%nat.
Proof.
  intros r.
  pose proof (C8_failed_construction_leaves_no_entry Stub.lib Stub.engine
                (str "z") Stub.w0 (fst r)
                (Exn OtherError (str "model not found")) eq_refl)
    as (_ & Hsame & Hnone & _ & _ & Hretry).
  split; [reflexivity|]. split; [exact Hsame|]. split; [exact Hnone|].
  apply Hretry. exact Hnone.
Defined.

(** ** Failures inside one iteration *)

Section Failures.
Context {L : PyLib} {E : Engine}.

(** What is already on the output channel does not influence the pool, the
    synthesis or the response. *)
Lemma get_pipeline_write_line r lang_code w :
  get_pipeline lang_code (write_line r w)
  = (write_line r (fst (get_pipeline lang_code w)), snd (get_pipeline lang_code w)).
Proof.
  unfold get_pipeline, write_line. simpl.
  destruct (pipelines w !! norm_lang lang_code); [reflexivity|].
  destruct (KPipeline_repo _ _ _) as [wd1 [p|e1]]; simpl; [reflexivity|].
  destruct (is_TypeError e1); [|reflexivity].
  destruct (KPipeline_lang _ _) as [wd2 [p|e2]]; reflexivity.
Qed.

Lemma synthesize_write_line r rq w :
  synthesize rq (write_line r w)
  = (write_line r (fst (synthesize rq w)), snd (synthesize rq w)).
Proof.
  unfold synthesize. rewrite get_pipeline_write_line.
  destruct (get_pipeline (rq_lang_code rq) w) as [w1 [p|e]]; simpl; [|reflexivity].
  destruct (run_pipeline _ _ _ _ _ _) as [wd [chunks|e]]; reflexivity.
Qed.

Lemma respond_write_line r line w :
  respond line (write_line r w)
  = (write_line r (fst (respond line w)), snd (respond line w)).
Proof.
  unfold respond.
  destruct (str_empty (strip line)); [reflexivity|].
  destruct (json_loads (strip line)) as [req|exc]; [|reflexivity].
  destruct (read_fields req) as [rid [rq|exc]]; [|reflexivity].
  destruct (str_empty (rq_text rq)); [reflexivity|].
  rewrite synthesize_write_line.
  destruct (synthesize rq w) as [w' [wav|exc]]; reflexivity.
Qed.

Lemma raises_respond line w rid e w' :
  forallb is_space line = false ->
  raises line w rid e w' ->
  respond line w = (w', Some (failure_resp rid (exn_msg e))).
Proof.
  intros Hb Hr. unfold respond. rewrite strip_blank, Hb.
  destruct Hr as [e Hl | req rid e Hl Hf | req rid rq w' e Hl Hf Ht Hs];
    rewrite Hl; try rewrite Hf; try rewrite Ht; try rewrite Hs; reflexivity.
Qed.

Lemma raises_loads_rid line w rid e w' e0 :
  raises line w rid e w' -> json_loads (strip line) = Raise e0 ->
  rid = empty_str /\ e = e0 /\ w' = w.
Proof. intros Hr Hl. destruct Hr; repeat split; congruence. Qed.

Lemma raises_fields_rid line w rid e w' req e0 :
  raises line w rid e w' -> json_loads (strip line) = Ok req ->
  snd (read_fields req) = Raise e0 ->
  rid = fst (read_fields req) /\ e = e0 /\ w' = w.
Proof.
  intros Hr Hl Hf.
  destruct Hr as [e Hl' | req' rid e Hl' Hf' | req' rid rq w' e Hl' Hf' Ht Hs];
    rewrite Hl in Hl'; try discriminate; injection Hl' as <-;
    rewrite Hf' in Hf; simpl in Hf; [|discriminate].
  injection Hf as <-. rewrite Hf'. repeat split.
Qed.

(** A response that says [ok: false] was built by the handler of line 143,
    from an exception. *)
Lemma raises_rid line w rid e w' :
  raises line w rid e w' ->
  rid = match json_loads (strip line) with
        | Raise _ => empty_str
        | Ok req => fst (read_fields req)
        end.
Proof.
  intros Hr.
  destruct Hr as [e Hl | req rid e Hl Hf | req rid rq w' e Hl Hf Ht Hs];
    rewrite Hl; try rewrite Hf; reflexivity.
Qed.

Lemma respond_failure_inv line w w1 r :
  respond line w = (w1, Some r) ->
  resp_get r (str "ok") = Some (SBool false) ->
  exists rid e, raises line w rid e w1 /\ r = failure_resp rid (exn_msg e).
Proof.
  unfold respond. destruct (str_empty (strip line)); [discriminate|].
  destruct (json_loads (strip line)) as [req|exc] eqn:Hl.
  2: { intros [= <- <-] _. exists empty_str, exc.
       split; [apply raises_loads, Hl | reflexivity]. }
  destruct (read_fields req) as [rid [rq|exc]] eqn:Hf.
  2: { intros [= <- <-] _. exists rid, exc.
       split; [eapply raises_fields; eassumption | reflexivity]. }
  destruct (str_empty (rq_text rq)) eqn:Ht.
  { intros [= <- <-] Hok. discriminate Hok. }
  destruct (synthesize rq w) as [w' [wav|exc]] eqn:Hs.
  { intros [= <- <-] Hok. discriminate Hok. }
  intros [= <- <-] _. exists rid, exc.
  split; [eapply raises_synthesis; eassumption | reflexivity].
Qed.

(** The text [json.dumps] gives a failure response. *)
Lemma failure_dump rid msg :
  json_dumps (failure_resp rid msg)
  = str "{" ++ encode_basestring_ascii (str "id") ++ str ": "
    ++ encode_basestring_ascii rid ++ str ", "
    ++ encode_basestring_ascii (str "ok") ++ str ": false, "
    ++ encode_basestring_ascii (str "error") ++ str ": "
    ++ encode_basestring_ascii msg ++ str "}".
Proof.
  unfold json_dumps, failure_resp, dumps_item.
  cbn [map join_items fst snd dumps_scalar].
  change (str ": false, ") with (str ": " ++ str "false" ++ str ", ").
  repeat rewrite <- app_assoc. reflexivity.
Qed.

End Failures.

(** C2. When an exception is raised while a non-blank line is handled (in
    parsing, in the reading of the fields, or in the synthesis step, which
    covers acquisition, engine call and encoding), the iteration writes
    exactly one line: the failure response, a dict of the three keys [id],
    [ok] and [error] in which [ok] is false, [id] is the value [rid] had at
    that moment (the empty string when [json.loads] raised, else the
    identifier read from the request) and [error] is the text of the
    exception. A failure in parsing or in the reading of the
    fields leaves the state as it was. The loop goes on with the next line,
    the pool keeps its entries, the next line gets its one well-formed
    response, and this response is the one the state left by the failing
    step determines: the line written for the failure has no part in it.
    Conversely a response whose [ok] is false comes from an exception. *)
Theorem C2_exception_gives_failure_response (L : PyLib) (E : Engine)
    (line : pystr) (w w' : worker) (rid : pystr) (e : exn) :
  forallb is_space line = false ->
  raises line w rid e w' ->
  let failure := failure_resp rid (exn_msg e) in
  respond line w = (w', Some failure)
  /\ handle_line line w = write_line failure w'
  /\ json_out (handle_line line w) = json_out w ++ [json_dumps failure ++ [10%N]]
  /\ (map fst failure = [str "id"; str "ok"; str "error"]
      /\ resp_get failure (str "id") = Some (SStr rid)
      /\ resp_get failure (str "ok") = Some (SBool false)
      /\ resp_get failure (str "error") = Some (SStr (exn_msg e)))
  /\ json_dumps failure
     = str "{" ++ encode_basestring_ascii (str "id") ++ str ": "
       ++ encode_basestring_ascii rid ++ str ", "
       ++ encode_basestring_ascii (str "ok") ++ str ": false, "
       ++ encode_basestring_ascii (str "error") ++ str ": "
       ++ encode_basestring_ascii (exn_msg e) ++ str "}"
  /\ (forall e0, json_loads (strip line) = Raise e0 ->
                 rid = empty_str /\ e = e0 /\ w' = w)
  /\ (forall req e0, json_loads (strip line) = Ok req ->
                     snd (read_fields req) = Raise e0 ->
                     rid = fst (read_fields req) /\ e = e0 /\ w' = w)
  /\ (forall req, json_loads (strip line) = Ok req ->
                  rid = fst (read_fields req)
                  /\ (forall d s, req = VDict d ->
                                  dict_get d (str "id") = Some (VStr s) -> rid = s))
  /\ (json_out w' = json_out w
      /\ pipelines w ⊆ pipelines w'
      /\ pipelines w ⊆ pipelines (handle_line line w))
  /\ (forall rest,
         main_loop (line :: rest) w = main_loop rest (write_line failure w'))
  /\ (forall next,
         forallb is_space next = false ->
         exists l, json_out (main_loop [line; next] w)
                   = json_out w ++ [json_dumps failure ++ [10%N]; l]
                   /\ protocol_line l)
  /\ (forall next,
         respond next (handle_line line w)
         = (write_line failure (fst (respond next w')), snd (respond next w')))
  /\ (forall l0 w0 w1 r,
         respond l0 w0 = (w1, Some r) ->
         resp_get r (str "ok") = Some (SBool false) ->
         exists rid0 e0, raises l0 w0 rid0 e0 w1
                         /\ r = failure_resp rid0 (exn_msg e0)).
Proof.
  intros Hb Hr failure.
  pose proof (raises_respond line w rid e w' Hb Hr) as Hresp.
  assert (Hh : handle_line line w = write_line failure w').
  { unfold handle_line. rewrite Hresp. reflexivity. }
  assert (Ho : json_out w' = json_out w).
  { destruct (respond_some line w Hb) as (w1 & r1 & H1 & Hout & _).
    rewrite Hresp in H1. injection H1 as <- _. exact Hout. }
  assert (Hout : json_out (handle_line line w)
                 = json_out w ++ [json_dumps failure ++ [10%N]]).
  { rewrite Hh. simpl. rewrite Ho. reflexivity. }
  pose proof (proj2 (handle_line_pool line w)) as Hpool.
  split; [exact Hresp|]. split; [exact Hh|]. split; [exact Hout|].
  split; [repeat split|].
  split; [apply failure_dump|].
  split; [intros e0; apply (raises_loads_rid _ _ _ _ _ _ Hr)|].
  split; [intros req e0; apply (raises_fields_rid _ _ _ _ _ _ _ Hr)|].
  split.
  { intros req Hl. pose proof (raises_rid _ _ _ _ _ Hr) as Hrid.
    rewrite Hl in Hrid. split; [exact Hrid|].
    intros d s -> Hid. rewrite Hrid. simpl. unfold get_or. rewrite Hid.
    destruct s; reflexivity. }
  split.
  { split; [exact Ho|]. split; [|exact Hpool].
    rewrite Hh in Hpool. exact Hpool. }
  split; [intros rest; rewrite main_loop_cons, Hh; reflexivity|].
  split.
  - intros next Hn. simpl.
    destruct (proj2 (handle_line_output next (handle_line line w)) Hn)
      as (l & Hl & Hp).
    exists l. rewrite Hl, Hout, <- app_assoc. split; [reflexivity | exact Hp].
  - split; [intros next; rewrite Hh; apply respond_write_line|].
    intros l0 w0 w1 r. apply respond_failure_inv.
Qed.

Lemma C2_witness :
  let failure := failure_resp empty_str (str "Expecting value") in
  let failure5 := failure_resp (str "5") (str "unknown voice") in
  respond (L := Stub.lib) Stub.line_broken Stub.w0 = (Stub.w0, Some failure)
  /\ json_out (main_loop (L := Stub.lib) [Stub.line_broken; Stub.line_silence] Stub.w0)
     = [json_dumps failure ++ [10%N];
        json_dumps (success_resp (str "1") empty_str) ++ [10%N]]
  /\ snd (respond (L := Stub.lib) Stub.line_bad_voice Stub.w0) = Some failure5
  /\ resp_get failure5 (str "ok") = Some (SBool false)
  /\ json_out (main_loop (L := Stub.lib) [Stub.line_bad_voice; Stub.line_silence] Stub.w0)
     = [json_dumps failure5 ++ [10%N];
        json_dumps (success_resp (str "1") empty_str) ++ [10%N]].
Proof.
  intros failure failure5.
  assert (Hb : forallb is_space Stub.line_broken = false) by reflexivity.
  assert (Hr : raises (L := Stub.lib) Stub.line_broken Stub.w0 empty_str
                 (Exn ValueError (str "Expecting value")) Stub.w0).
  { apply raises_loads. reflexivity. }
  pose proof (C2_exception_gives_failure_response Stub.lib Stub.engine
                Stub.line_broken Stub.w0 Stub.w0 empty_str
                (Exn ValueError (str "Expecting value")) Hb Hr)
    as (Hresp & _ & _ & _ & _ & _ & _ & _ & _ & Hloop & _).
  split; [exact Hresp|].
  split; [rewrite Hloop; reflexivity|].
  assert (Hb5 : forallb is_space Stub.line_bad_voice = false) by reflexivity.
  assert (Hr5 : raises (L := Stub.lib) Stub.line_bad_voice Stub.w0 (str "5")
                  (Exn OtherError (str "unknown voice"))
                  (fst (respond (L := Stub.lib) Stub.line_bad_voice Stub.w0))).
  { eapply raises_synthesis; reflexivity. }
  pose proof (C2_exception_gives_failure_response Stub.lib Stub.engine
                Stub.line_bad_voice Stub.w0 _ (str "5")
                (Exn OtherError (str "unknown voice")) Hb5 Hr5)
    as (Hresp5 & _ & _ & (_ & _ & Hok5 & _) & _ & _ & _ & _ & _ & Hloop5 & _).
  split; [rewrite Hresp5; reflexivity|].
  split; [exact Hok5|].
  rewrite Hloop5. reflexivity.
Defined.

(** ** The decimal numeral of an integer *)

Lemma str_cons a s : str (String a s) = N_of_ascii a :: str s.
Proof. reflexivity. Qed.

Ltac digit_step :=
  match goal with
  | |- context [digit_value ?c] =>
      let v := eval vm_compute in (digit_value c) in
      change (digit_value c) with v; cbv iota beta
  end.

Lemma digits_value_acc d : forall acc,
  digits_value (str (NilEmpty.string_of_uint d)) (Zpos acc)
  = Some (Zpos (Pos.of_uint_acc d acc)).
Proof.
  induction d as [|d IH|d IH|d IH|d IH|d IH|d IH|d IH|d IH|d IH|d IH];
    intros acc; [reflexivity|..];
    cbn [NilEmpty.string_of_uint Pos.of_uint_acc]; rewrite str_cons;
    cbn [digits_value]; digit_step; rewrite <- IH; f_equal; lia.
Qed.

Lemma digits_value_uint d :
  digits_value (str (NilEmpty.string_of_uint d)) 0 = Some (Z.of_N (Pos.of_uint d)).
Proof.
  induction d as [|d IH|d IH|d IH|d IH|d IH|d IH|d IH|d IH|d IH|d IH];
    [reflexivity|exact IH|..];
    cbn [NilEmpty.string_of_uint Pos.of_uint]; rewrite str_cons;
    cbn [digits_value]; digit_step; apply (digits_value_acc d).
Qed.

Lemma unorm_head d d' : Decimal.unorm d = Decimal.D0 d' -> d' = Decimal.Nil.
Proof.
  induction d as [|d IH|d IH|d IH|d IH|d IH|d IH|d IH|d IH|d IH|d IH];
    simpl; try discriminate; [intros [= <-]; reflexivity | exact IH].
Qed.

(** The numeral of a positive number starts with a digit from 1 to 9. *)
Lemma to_uint_head p :
  exists c ds, str (NilZero.string_of_uint (Pos.to_uint p)) = c :: ds
               /\ (49 <= c <= 57)%N
               /\ NilZero.string_of_uint (Pos.to_uint p)
                  = NilEmpty.string_of_uint (Pos.to_uint p).
Proof.
  pose proof (DecimalPos.Unsigned.to_of (Pos.to_uint p)) as Hn.
  rewrite DecimalPos.Unsigned.of_to in Hn. simpl in Hn.
  pose proof (DecimalPos.Unsigned.to_uint_nonzero p) as Hz.
  destruct (Pos.to_uint p) as [|d|d|d|d|d|d|d|d|d|d] eqn:Hp;
    [destruct (DecimalPos.Unsigned.to_uint_nonnil p Hp)
    |symmetry in Hn; apply unorm_head in Hn; subst d; destruct (Hz eq_refl)
    |eexists _, _; split; [reflexivity|];
     split; [vm_compute; split; discriminate | reflexivity]..].
Qed.

Lemma digits_value_pos p :
  digits_value (str (NilZero.string_of_uint (Pos.to_uint p))) 0 = Some (Zpos p).
Proof.
  destruct (to_uint_head p) as (c & ds & _ & _ & ->).
  rewrite digits_value_uint, DecimalPos.Unsigned.of_to. reflexivity.
Qed.

Lemma decimal_value_digit c ds :
  c <> 45%N -> decimal_value (c :: ds) = digits_value (c :: ds) 0.
Proof.
  intros Hc. unfold decimal_value. destruct c as [|p]; [reflexivity|].
  do 6 (try (destruct p as [p|p|]; try reflexivity)).
  destruct (Hc eq_refl).
Qed.

(** [str] of an integer is a numeral of that integer. *)
Lemma str_of_int_value z : decimal_value (str_of_int z) = Some z.
Proof.
  unfold str_of_int. destruct z as [|p|p]; [reflexivity|..];
    cbn [Z.to_int NilZero.string_of_int];
    pose proof (digits_value_pos p) as Hv;
    destruct (to_uint_head p) as (c & ds & Hs & Hc & _).
  - rewrite Hs in *. rewrite decimal_value_digit by lia. exact Hv.
  - rewrite str_cons. change (N_of_ascii "-") with 45%N.
    rewrite Hs in *. unfold decimal_value. rewrite Hv. reflexivity.
Qed.

Lemma str_of_int_canonical z : decimal_canonical (str_of_int z).
Proof.
  unfold str_of_int. destruct z as [|p|p]; [left; reflexivity|..];
    cbn [Z.to_int NilZero.string_of_int];
    destruct (to_uint_head p) as (c & ds & Hs & Hc & _); right; exists c, ds.
  - split; [left; exact Hs | exact Hc].
  - split; [right; rewrite str_cons, Hs; reflexivity | exact Hc].
Qed.

Lemma uint_no_space d :
  Forall (fun c => is_space c = false) (str (NilEmpty.string_of_uint d)).
Proof.
  induction d as [|d IH|d IH|d IH|d IH|d IH|d IH|d IH|d IH|d IH|d IH];
    [apply List.Forall_nil|..];
    cbn [NilEmpty.string_of_uint]; rewrite str_cons;
    (apply List.Forall_cons; [reflexivity | exact IH]).
Qed.

Lemma str_of_int_no_space z :
  str_of_int z <> [] /\ Forall (fun c => is_space c = false) (str_of_int z).
Proof.
  unfold str_of_int. destruct z as [|p|p];
    [split; [discriminate | repeat constructor]|..];
    cbn [Z.to_int NilZero.string_of_int];
    destruct (to_uint_head p) as (c & ds & Hs & _ & Hnil).
  - rewrite Hs. split; [discriminate|]. rewrite <- Hs, Hnil. apply uint_no_space.
  - rewrite str_cons. split; [discriminate|].
    apply List.Forall_cons; [reflexivity|]. rewrite Hnil. apply uint_no_space.
Qed.

Lemma strip_no_space s : Forall (fun c => is_space c = false) s -> strip s = s.
Proof.
  intros Hs. apply strip_fix.
  - intros c t ->. apply List.Forall_cons_iff in Hs. apply Hs.
  - intros t c ->. apply List.Forall_app in Hs. destruct Hs as [_ Hc].
    apply List.Forall_cons_iff in Hc. apply Hc.
Qed.

(** An integer that is not zero reads, in each of the four string fields,
    as its numeral. *)
Lemma str_of_int_field z dflt :
  strip (str_of_int z) = str_of_int z
  /\ str_or (strip (str_of_int z)) dflt = str_of_int z.
Proof.
  destruct (str_of_int_no_space z) as [Hne Hsp].
  rewrite (strip_no_space _ Hsp). split; [reflexivity|].
  unfold str_or. destruct (str_of_int z); [congruence | reflexivity].
Qed.

(** ** Reading the fields of a request *)

Section Fields.
Context {L : PyLib}.

Lemma get_or_absent d k dflt : dict_get d k = None -> get_or d k dflt = dflt.
Proof. intros H. unfold get_or. rewrite H. reflexivity. Qed.

Lemma get_or_falsy d k v dflt :
  dict_get d k = Some v -> truthy v = false -> get_or d k dflt = dflt.
Proof. intros H Hv. unfold get_or. rewrite H, Hv. reflexivity. Qed.

Lemma get_or_truthy d k v dflt :
  dict_get d k = Some v -> truthy v = true -> get_or d k dflt = v.
Proof. intros H Hv. unfold get_or. rewrite H, Hv. reflexivity. Qed.

Lemma dict_get_remove_same d k : dict_get (dict_remove d k) k = None.
Proof.
  induction d as [|[k' v] d IH]; simpl; [reflexivity|].
  unfold pystr_eqb in *. case_bool_decide as Hk; simpl; [exact IH|].
  unfold pystr_eqb. rewrite bool_decide_eq_false_2 by exact Hk. exact IH.
Qed.

Lemma dict_get_remove_other d k k' :
  k' <> k -> dict_get (dict_remove d k) k' = dict_get d k'.
Proof.
  intros Hne. induction d as [|[k0 v] d IH]; simpl; [reflexivity|].
  unfold pystr_eqb in *. case_bool_decide as Hk; simpl.
  - subst k0. rewrite bool_decide_eq_false_2 by congruence. exact IH.
  - unfold pystr_eqb. case_bool_decide; [reflexivity | exact IH].
Qed.

(** Removing a field whose value is falsy changes no [d.get(k) or dflt]. *)
Lemma get_or_remove_falsy d k v :
  dict_get d k = Some v -> truthy v = false ->
  forall k' dflt, get_or (dict_remove d k) k' dflt = get_or d k' dflt.
Proof.
  intros Hk Hv k' dflt. destruct (decide (k' = k)) as [->|Hne].
  - rewrite (get_or_falsy _ _ _ _ Hk Hv).
    apply get_or_absent, dict_get_remove_same.
  - unfold get_or. rewrite dict_get_remove_other by exact Hne. reflexivity.
Qed.

Lemma read_fields_dict d :
  read_fields (VDict d)
  = (py_str (get_or d (str "id") (VStr empty_str)),
     speed ← py_float (get_or d (str "speed") (VFloat F64.c1_0));
     Ok (Request
           (strip (py_str (get_or d (str "text") (VStr empty_str))))
           (str_or (strip (py_str (get_or d (str "voice") (VStr (str "af_heart")))))
                   (str "af_heart"))
           (str_or (strip (py_str (get_or d (str "lang_code") (VStr (str "a")))))
                   (str "a"))
           (clamp_speed speed))).
Proof. reflexivity. Qed.

Lemma read_fields_not_dict req :
  (forall d, req <> VDict d) -> fst (read_fields req) = empty_str.
Proof. intros Hd. destruct req; try reflexivity. destruct (Hd d eq_refl). Qed.

Lemma read_fields_speed d speed :
  py_float (get_or d (str "speed") (VFloat F64.c1_0)) = Ok speed ->
  exists rq, read_fields (VDict d)
             = (py_str (get_or d (str "id") (VStr empty_str)), Ok rq)
             /\ rq_text rq = strip (py_str (get_or d (str "text") (VStr empty_str)))
             /\ rq_speed rq = clamp_speed speed.
Proof.
  intros Hs. rewrite read_fields_dict, Hs. eexists. split; [reflexivity|].
  split; reflexivity.
Qed.

End Fields.

(** The identifier a response carries is the value of [rid] when the
    iteration ends. *)
Lemma respond_rid {L : PyLib} {E : Engine} line w :
  forallb is_space line = false ->
  let rid := match json_loads (strip line) with
             | Raise _ => empty_str
             | Ok req => fst (read_fields req)
             end in
  exists w' resp,
    respond line w = (w', Some resp)
    /\ ((exists b64, resp = success_resp rid b64)
        \/ (exists msg, resp = failure_resp rid msg)).
Proof.
  intros Hb. unfold respond. rewrite strip_blank, Hb.
  destruct (json_loads (strip line)) as [req|exc]; simpl; [|eauto 6].
  destruct (read_fields req) as [rid [rq|exc]]; simpl; [|eauto 6].
  destruct (str_empty (rq_text rq)); [eauto 6|].
  destruct (synthesize rq w) as [w' [wav|exc]]; eauto 6.
Qed.

(** C9. The response to a non-blank line, success or failure, carries in
    its [id] field the identifier string of the request; it carries the
    empty string when the line is not valid JSON, when it is not a JSON
    object, and when the object has no [id]. *)
Theorem C9_response_echoes_request_id (L : PyLib) (E : Engine)
    (line : pystr) (w : worker) :
  forallb is_space line = false ->
  exists w' resp rid,
    respond line w = (w', Some resp)
    /\ ((exists b64, resp = success_resp rid b64)
        \/ (exists msg, resp = failure_resp rid msg))
    /\ resp_get resp (str "id") = Some (SStr rid)
    /\ json_out (handle_line line w) = json_out w ++ [json_dumps resp ++ [10%N]]
    /\ (forall e, json_loads (strip line) = Raise e -> rid = empty_str)
    /\ (forall req, json_loads (strip line) = Ok req ->
                    (forall d, req <> VDict d) -> rid = empty_str)
    /\ (forall d, json_loads (strip line) = Ok (VDict d) ->
                  dict_get d (str "id") = None -> rid = empty_str)
    /\ (forall d s, json_loads (strip line) = Ok (VDict d) ->
                    dict_get d (str "id") = Some (VStr s) -> rid = s).
Proof.
  intros Hb. destruct (respond_rid line w Hb) as (w' & resp & Hresp & Hshape).
  set (rid := match json_loads (strip line) with
              | Raise _ => empty_str
              | Ok req => fst (read_fields req)
              end) in *.
  exists w', resp, rid. split; [exact Hresp|]. split; [exact Hshape|].
  split; [destruct Hshape as [[b ->] | [m ->]]; reflexivity|].
  split.
  { unfold handle_line. rewrite Hresp. simpl.
    destruct (respond_some line w Hb) as (w1 & r1 & H1 & Hout & _).
    rewrite Hresp in H1. injection H1 as <- _. rewrite Hout. reflexivity. }
  subst rid. repeat split.
  - intros e ->. reflexivity.
  - intros req -> Hd. apply read_fields_not_dict, Hd.
  - intros d -> Hid. simpl. rewrite (get_or_absent _ _ _ Hid). reflexivity.
  - intros d s -> Hid. simpl. unfold get_or. rewrite Hid.
    destruct s; reflexivity.
Qed.

Lemma C9_witness :
  exists w' resp rid,
    respond (L := Stub.lib) Stub.line_bad_voice Stub.w0 = (w', Some resp)
    /\ resp = failure_resp rid (str "unknown voice")
    /\ rid = str "5".
Proof.
  destruct (C9_response_echoes_request_id Stub.lib Stub.engine
              Stub.line_bad_voice Stub.w0 eq_refl)
    as (w' & resp & rid & Hresp & _ & _ & _ & _ & _ & _ & Hid).
  exists w', resp, rid. split; [exact Hresp|].
  assert (Hrid : rid = str "5") by (eapply Hid; reflexivity).
  split; [|exact Hrid].
  subst rid. vm_compute in Hresp. injection Hresp as _ <-. reflexivity.
Defined.

(** C10. In a parsed request a field whose value is falsy ([null], [false],
    a zero, the empty string) is read exactly as if the field were absent:
    every [d.get(k) or default], and so the whole reading of the fields, is
    the same with the field removed. A speed of zero becomes the default
    1.0, which is not the lower bound 0.7; a falsy [id] is echoed as the
    empty string. Values of [id], [text], [voice] and [lang_code] that are
    not strings are converted by [str] and never rejected: only the
    conversion of the speed can make the reading raise. The conversion
    gives an integer its decimal numeral, in the one form [str] writes it,
    and [true] the word [True]; an integer that is not zero, and [true],
    appear so in each of the four fields. A float, a list or a dict that is
    truthy appears as the text the library's [str] gives it. *)
Theorem C10_falsy_fields_take_defaults (L : PyLib) :
  (truthy VNone = false /\ truthy (VBool false) = false
   /\ truthy (VInt 0) = false /\ truthy (VFloat (S754_zero false)) = false
   /\ truthy (VStr empty_str) = false)
  /\ (forall d k v,
         dict_get d k = Some v -> truthy v = false ->
         (forall k' dflt, get_or d k' dflt = get_or (dict_remove d k) k' dflt)
         /\ read_fields (VDict d) = read_fields (VDict (dict_remove d k)))
  /\ (forall d v,
         dict_get d (str "speed") = Some v -> truthy v = false ->
         exists rq, snd (read_fields (VDict d)) = Ok rq
                    /\ rq_speed rq = F64.c1_0 /\ rq_speed rq <> F64.c0_7)
  /\ (forall d v,
         dict_get d (str "id") = Some v -> truthy v = false ->
         fst (read_fields (VDict d)) = empty_str)
  /\ (forall d,
         fst (read_fields (VDict d)) = py_str (get_or d (str "id") (VStr empty_str))
         /\ (forall e, snd (read_fields (VDict d)) = Raise e ->
                       py_float (get_or d (str "speed") (VFloat F64.c1_0)) = Raise e)
         /\ (forall rq, snd (read_fields (VDict d)) = Ok rq ->
                rq_text rq = strip (py_str (get_or d (str "text") (VStr empty_str)))
                /\ rq_voice rq
                   = str_or (strip (py_str (get_or d (str "voice")
                                              (VStr (str "af_heart")))))
                            (str "af_heart")
                /\ rq_lang_code rq
                   = str_or (strip (py_str (get_or d (str "lang_code")
                                              (VStr (str "a")))))
                            (str "a")))
  /\ (py_str (VInt 7) = str "7" /\ py_str (VBool true) = str "True"
      /\ forall s, py_str (VStr s) = s)
  /\ (forall z, decimal_value (py_str (VInt z)) = Some z
                /\ decimal_canonical (py_str (VInt z)))
  /\ (forall b, py_str (VBool b) = if b then str "True" else str "False")
  /\ (forall d z,
         z <> 0 ->
         (dict_get d (str "id") = Some (VInt z) ->
          decimal_value (fst (read_fields (VDict d))) = Some z
          /\ decimal_canonical (fst (read_fields (VDict d))))
         /\ (forall rq,
                snd (read_fields (VDict d)) = Ok rq ->
                (dict_get d (str "text") = Some (VInt z) ->
                 decimal_value (rq_text rq) = Some z
                 /\ decimal_canonical (rq_text rq))
                /\ (dict_get d (str "voice") = Some (VInt z) ->
                    decimal_value (rq_voice rq) = Some z
                    /\ decimal_canonical (rq_voice rq))
                /\ (dict_get d (str "lang_code") = Some (VInt z) ->
                    decimal_value (rq_lang_code rq) = Some z
                    /\ decimal_canonical (rq_lang_code rq))))
  /\ (forall d,
         (dict_get d (str "id") = Some (VBool true) ->
          fst (read_fields (VDict d)) = str "True")
         /\ (forall rq,
                snd (read_fields (VDict d)) = Ok rq ->
                (dict_get d (str "text") = Some (VBool true) ->
                 rq_text rq = str "True")
                /\ (dict_get d (str "voice") = Some (VBool true) ->
                    rq_voice rq = str "True")
                /\ (dict_get d (str "lang_code") = Some (VBool true) ->
                    rq_lang_code rq = str "True")))
  /\ (forall d v,
         match v with VFloat _ | VList _ | VDict _ => True | _ => False end ->
         truthy v = true ->
         (dict_get d (str "id") = Some v ->
          fst (read_fields (VDict d)) = repr_other v)
         /\ (forall rq,
                snd (read_fields (VDict d)) = Ok rq ->
                (dict_get d (str "text") = Some v ->
                 rq_text rq = strip (repr_other v))
                /\ (dict_get d (str "voice") = Some v ->
                    rq_voice rq = str_or (strip (repr_other v)) (str "af_heart"))
                /\ (dict_get d (str "lang_code") = Some v ->
                    rq_lang_code rq = str_or (strip (repr_other v)) (str "a"))))
  /\ truthy (VFloat (S754_zero true)) = false.
Proof.
  split; [repeat split|].
  split.
  { intros d k v Hk Hv.
    pose proof (get_or_remove_falsy d k v Hk Hv) as Hrm.
    split; [intros k' dflt; symmetry; apply Hrm|].
    rewrite !read_fields_dict, !Hrm. reflexivity. }
  split.
  { intros d v Hk Hv. rewrite read_fields_dict. simpl.
    rewrite (get_or_falsy _ _ _ _ Hk Hv). simpl.
    eexists. split; [reflexivity|]. split; [reflexivity | discriminate]. }
  split.
  { intros d v Hk Hv. rewrite read_fields_dict. simpl.
    rewrite (get_or_falsy _ _ _ _ Hk Hv). reflexivity. }
  split.
  { intros d. rewrite read_fields_dict. simpl.
    split; [reflexivity|].
    destruct (py_float (get_or d (str "speed") (VFloat F64.c1_0))) as [f|e0]; simpl.
    - split; [discriminate|]. intros rq [= <-]. repeat split.
    - split; [intros e [= ->]; reflexivity | discriminate]. }
  split; [repeat split|].
  split; [intros z; split; [apply str_of_int_value | apply str_of_int_canonical]|].
  split; [intros [|]; reflexivity|].
  split.
  { intros d z Hz.
    assert (Ht : truthy (VInt z) = true).
    { simpl. destruct (Z.eqb_spec z 0); [contradiction | reflexivity]. }
    rewrite read_fields_dict. cbn [fst snd]. split.
    - intros Hk. rewrite (get_or_truthy _ _ _ _ Hk Ht). cbn [py_str].
      split; [apply str_of_int_value | apply str_of_int_canonical].
    - intros rq Hrq.
      destruct (py_float (get_or d (str "speed") (VFloat F64.c1_0))) as [f|e0];
        [|discriminate].
      cbn [mbind result_bind] in Hrq. injection Hrq as <-.
      cbn [rq_text rq_voice rq_lang_code].
      split; [|split]; intros Hk; rewrite (get_or_truthy _ _ _ _ Hk Ht);
        cbn [py_str].
      + rewrite (proj1 (str_of_int_field z [])).
        split; [apply str_of_int_value | apply str_of_int_canonical].
      + rewrite (proj2 (str_of_int_field z _)).
        split; [apply str_of_int_value | apply str_of_int_canonical].
      + rewrite (proj2 (str_of_int_field z _)).
        split; [apply str_of_int_value | apply str_of_int_canonical]. }
  split.
  { intros d. rewrite read_fields_dict. cbn [fst snd]. split.
    - intros Hk. rewrite (get_or_truthy _ _ (VBool true) _ Hk eq_refl). reflexivity.
    - intros rq Hrq.
      destruct (py_float (get_or d (str "speed") (VFloat F64.c1_0))) as [f|e0];
        [|discriminate].
      cbn [mbind result_bind] in Hrq. injection Hrq as <-.
      cbn [rq_text rq_voice rq_lang_code].
      split; [|split]; intros Hk;
        rewrite (get_or_truthy _ _ (VBool true) _ Hk eq_refl); reflexivity. }
  split; [|reflexivity].
  intros d v Hv Ht.
  assert (Hp : py_str v = repr_other v) by (destruct v; try contradiction; reflexivity).
  rewrite read_fields_dict. cbn [fst snd]. split.
  - intros Hk. rewrite (get_or_truthy _ _ _ _ Hk Ht). exact Hp.
  - intros rq Hrq.
    destruct (py_float (get_or d (str "speed") (VFloat F64.c1_0))) as [f|e0];
      [|discriminate].
    cbn [mbind result_bind] in Hrq. injection Hrq as <-.
    cbn [rq_text rq_voice rq_lang_code].
    split; [|split]; intros Hk; rewrite (get_or_truthy _ _ _ _ Hk Ht), Hp;
      reflexivity.
Qed.

Lemma C10_witness :
  let d := [(str "id", VInt 0); (str "text", VInt 7); (str "speed", VInt 0)] in
  read_fields (L := Stub.lib) (VDict d)
  = read_fields (L := Stub.lib) (VDict [(str "text", VInt 7)])
  /\ read_fields (L := Stub.lib) (VDict d)
     = (empty_str, Ok (Request (str "7") (str "af_heart") (str "a") F64.c1_0))
  /\ decimal_value
       (fst (read_fields (L := Stub.lib) (VDict [(str "id", VInt (-12))])))
     = Some (-12)
  /\ fst (read_fields (L := Stub.lib) (VDict [(str "id", VInt (-12))]))
     = str "-12".
Proof.
  intros d.
  pose proof (C10_falsy_fields_take_defaults Stub.lib)
    as (_ & Hrm & _ & _ & _ & _ & _ & _ & Hint & _).
  split; [|split; [reflexivity|split; [|reflexivity]]].
  - destruct (Hrm d (str "id") (VInt 0) eq_refl eq_refl) as [_ ->].
    destruct (Hrm (dict_remove d (str "id")) (str "speed") (VInt 0) eq_refl eq_refl)
      as [_ ->].
    reflexivity.
  - apply (Hint [(str "id", VInt (-12))] (-12)); [lia | reflexivity].
Defined.

(** ** The fast path for an empty text *)

Lemma respond_fields {L : PyLib} {E : Engine} line w d :
  forallb is_space line = false ->
  json_loads (strip line) = Ok (VDict d) ->
  strip (py_str (get_or d (str "text") (VStr empty_str))) = [] ->
  let rid := py_str (get_or d (str "id") (VStr empty_str)) in
  fst (respond line w) = w
  /\ (forall speed,
         py_float (get_or d (str "speed") (VFloat F64.c1_0)) = Ok speed ->
         snd (respond line w) = Some (success_resp rid empty_str))
  /\ (forall e,
         py_float (get_or d (str "speed") (VFloat F64.c1_0)) = Raise e ->
         snd (respond line w) = Some (failure_resp rid (exn_msg e))).
Proof.
  intros Hb Hl Ht rid. unfold respond.
  rewrite strip_blank, Hb, Hl, read_fields_dict, Ht.
  destruct (py_float _) as [f|e0]; simpl.
  - split; [reflexivity|]. split; [reflexivity | discriminate].
  - split; [reflexivity|]. split; [discriminate|]. intros e [= ->]. reflexivity.
Qed.

(** C3, as the code has it. A request whose text is absent, empty or
    whitespace-only after trimming, and whose speed is absent, falsy or
    converts to a float, gets the success response with an empty
    [audio_base64], format [wav_24000] and sample rate 24000. Whatever the
    speed, the pool is not consulted and no engine is constructed or called:
    the state of the worker is unchanged but for the line written. When the
    conversion of the speed raises, the response is the failure response. *)
Theorem C3_empty_text_skips_engine (L : PyLib) (E : Engine)
    (line : pystr) (w : worker) (d : list (pystr * pyval)) :
  forallb is_space line = false ->
  json_loads (strip line) = Ok (VDict d) ->
  strip (py_str (get_or d (str "text") (VStr empty_str))) = [] ->
  let rid := py_str (get_or d (str "id") (VStr empty_str)) in
  let silence := success_resp rid empty_str in
  (pipelines (handle_line line w) = pipelines w
   /\ world (handle_line line w) = world w
   /\ calls (handle_line line w) = calls w)
  /\ (forall speed,
         py_float (get_or d (str "speed") (VFloat F64.c1_0)) = Ok speed ->
         handle_line line w = write_line silence w
         /\ resp_get silence (str "ok") = Some (SBool true)
         /\ resp_get silence (str "format") = Some (SStr (str "wav_24000"))
         /\ resp_get silence (str "sample_rate") = Some (SInt 24000)
         /\ resp_get silence (str "audio_base64") = Some (SStr empty_str))
  /\ (forall e,
         py_float (get_or d (str "speed") (VFloat F64.c1_0)) = Raise e ->
         handle_line line w = write_line (failure_resp rid (exn_msg e)) w).
Proof.
  intros Hb Hl Ht rid silence.
  destruct (respond_fields line w d Hb Hl Ht) as (Hw & Hok & Hraise).
  unfold handle_line.
  destruct (respond line w) as [w' r] eqn:Hr. simpl in Hw, Hok, Hraise. subst w'.
  split.
  { destruct r; repeat split. }
  split.
  - intros speed Hs. rewrite (Hok speed Hs). repeat split.
  - intros e He. rewrite (Hraise e He). reflexivity.
Qed.

Lemma C3_witness :
  handle_line (L := Stub.lib) Stub.line_silence Stub.w0
  = write_line (success_resp (str "1") empty_str) Stub.w0
  /\ calls (handle_line (L := Stub.lib) Stub.line_int_id Stub.w0) = [].
Proof.
  split.
  - apply (C3_empty_text_skips_engine Stub.lib Stub.engine Stub.line_silence
             Stub.w0 _ eq_refl eq_refl eq_refl) with (speed := F64.c1_0).
    reflexivity.
  - apply (C3_empty_text_skips_engine Stub.lib Stub.engine Stub.line_int_id
             Stub.w0 _ eq_refl eq_refl eq_refl).
Defined.

(** The claim C3 without the condition on the speed fails: an empty text
    with a speed that does not convert gets the failure response. *)
Lemma C3_counterexample :
  (exists d,
      json_loads (PyLib := Stub.lib) (strip Stub.line_speed_huge) = Ok (VDict d)
      /\ dict_get d (str "speed") = Some (VInt (2 ^ 1024))
      /\ strip (py_str (L := Stub.lib) (get_or d (str "text") (VStr empty_str))) = [])
  /\ snd (respond (L := Stub.lib) Stub.line_speed_huge Stub.w0)
     = Some (failure_resp (str "4") (str "int too large to convert to float"))
  /\ (exists d,
         json_loads (PyLib := Stub.lib) (strip Stub.line_speed_word) = Ok (VDict d)
         /\ dict_get d (str "speed") = Some (VStr (str "fast"))
         /\ strip (py_str (L := Stub.lib) (get_or d (str "text") (VStr empty_str))) = [])
  /\ snd (respond (L := Stub.lib) Stub.line_speed_word Stub.w0)
     = Some (failure_resp (str "3") (str "could not convert string to float")).
Proof.
  split; [eexists; repeat split; reflexivity|].
  split; [vm_compute; reflexivity|].
  split; [eexists; repeat split; reflexivity|].
  vm_compute; reflexivity.
Qed.

(** ** The speed *)

(** No float is below a positive float and above a larger one. *)
Lemma ltb_both_absurd (s : spec_float) m1 e1 m2 e2 :
  e1 < e2 ->
  SFltb s (S754_finite false m1 e1) = true ->
  SFltb (S754_finite false m2 e2) s = true -> False.
Proof.
  intros He. unfold SFltb, SFcompare.
  destruct s as [[|]|[|]| |[|] m e]; try discriminate.
  destruct (Z.compare_spec e e1), (Z.compare_spec e2 e); try discriminate; lia.
Qed.

Lemma clamp_speed_cases (s : f64) :
  (F64.ltb s F64.c0_7 = true -> clamp_speed s = F64.c0_7)
  /\ (F64.ltb F64.c1_2 s = true -> clamp_speed s = F64.c1_2)
  /\ (F64.ltb s F64.c0_7 = false -> F64.ltb F64.c1_2 s = false ->
      clamp_speed s = s).
Proof.
  unfold clamp_speed. split; [|split].
  - intros ->. reflexivity.
  - intros Hhi. destruct (F64.ltb s F64.c0_7) eqn:Hlo; [|rewrite Hhi; reflexivity].
    (* below 0.7 and above 1.2 at once is impossible *)
    exfalso. revert Hlo Hhi. unfold F64.ltb, F64.c0_7, F64.c1_2.
    apply ltb_both_absurd. lia.
  - intros -> ->. reflexivity.
Qed.

(** *** The conversion of an integer: [float(n)] *)

Lemma digits2_pos_size p : digits2_pos p = Pos.size p.
Proof. induction p; simpl; congruence. Qed.

Lemma digits2_bounds p :
  2 ^ (Zpos (digits2_pos p) - 1) <= Zpos p < 2 ^ Zpos (digits2_pos p).
Proof.
  rewrite digits2_pos_size. split.
  - destruct p as [p|p|]; simpl Pos.size.
    + rewrite Pos2Z.inj_succ. replace (Z.succ (Zpos (Pos.size p)) - 1) with (Zpos (Pos.size p)) by lia.
      pose proof (Pos.size_le p) as H.
      assert (Zpos (2 ^ Pos.size p) <= Zpos p~0) by exact H.
      rewrite Pos2Z.inj_pow in H0. lia.
    + rewrite Pos2Z.inj_succ. replace (Z.succ (Zpos (Pos.size p)) - 1) with (Zpos (Pos.size p)) by lia.
      pose proof (Pos.size_le p) as H.
      assert (Zpos (2 ^ Pos.size p) <= Zpos p~0) by exact H.
      rewrite Pos2Z.inj_pow in H0. lia.
    + simpl. lia.
  - pose proof (Pos.size_gt p) as H.
    assert (Zpos p < Zpos (2 ^ Pos.size p)) by exact H.
    rewrite Pos2Z.inj_pow in H0. exact H0.
Qed.

Lemma digits2_le p k : 0 <= k -> Zpos p < 2 ^ k -> Zpos (digits2_pos p) <= k.
Proof.
  intros Hk Hp. destruct (Z.le_gt_cases (Zpos (digits2_pos p)) k) as [H|H]; [exact H|].
  pose proof (proj1 (digits2_bounds p)) as Hlo.
  assert (2 ^ k <= 2 ^ (Zpos (digits2_pos p) - 1)) by (apply Z.pow_le_mono_r; lia).
  lia.
Qed.

Lemma digits2_ge p k : 2 ^ (k - 1) <= Zpos p -> k <= Zpos (digits2_pos p).
Proof.
  intros Hp. destruct (Z.le_gt_cases k (Zpos (digits2_pos p))) as [H|H]; [exact H|].
  pose proof (proj2 (digits2_bounds p)) as Hhi.
  assert (2 ^ Zpos (digits2_pos p) <= 2 ^ (k - 1)) by (apply Z.pow_le_mono_r; lia).
  lia.
Qed.

Lemma iter_xO_value m d : Zpos (Pos.iter xO m d) = Zpos m * 2 ^ Zpos d.
Proof.
  induction d as [|d IH] using Pos.peano_ind.
  - simpl. lia.
  - rewrite Pos.iter_succ, Pos2Z.inj_succ, Z.pow_succ_r by lia.
    rewrite Pos2Z.inj_xO, IH. lia.
Qed.

Lemma shr_1_m mrs : 0 <= shr_m mrs -> shr_m (shr_1 mrs) = shr_m mrs / 2.
Proof.
  destruct mrs as [m r s]. cbn [shr_m]. intros Hm.
  destruct m as [|[p|p|]|p]; cbn [shr_1 shr_m]; try reflexivity; try lia.
  - apply Z.div_unique with 1; lia.
  - apply Z.div_unique with 0; lia.
Qed.

Lemma pow2_xI p : 2 ^ Zpos p~1 = 2 * 2 ^ Zpos p * 2 ^ Zpos p.
Proof.
  replace (Zpos p~1) with (1 + Zpos p + Zpos p) by lia.
  rewrite !Z.pow_add_r by lia. reflexivity.
Qed.

Lemma pow2_xO p : 2 ^ Zpos p~0 = 2 ^ Zpos p * 2 ^ Zpos p.
Proof.
  replace (Zpos p~0) with (Zpos p + Zpos p) by lia.
  rewrite Z.pow_add_r by lia. reflexivity.
Qed.

Lemma iter_shr_m p : forall mrs,
  0 <= shr_m mrs -> shr_m (SpecFloat.iter_pos shr_1 p mrs) = shr_m mrs / 2 ^ Zpos p.
Proof.
  induction p as [p IH|p IH|]; intros mrs Hm; simpl SpecFloat.iter_pos.
  - assert (Hp : 0 < 2 ^ Zpos p) by (apply Z.pow_pos_nonneg; lia).
    assert (H1 : 0 <= shr_m (shr_1 mrs)).
    { rewrite shr_1_m by exact Hm. apply Z.div_pos; lia. }
    assert (H2 : 0 <= shr_m (SpecFloat.iter_pos shr_1 p (shr_1 mrs))).
    { rewrite IH by exact H1. apply Z.div_pos; [exact H1 | exact Hp]. }
    rewrite IH by exact H2. rewrite IH by exact H1. rewrite shr_1_m by exact Hm.
    rewrite pow2_xI. rewrite !Z.div_div by lia. f_equal. lia.
  - assert (Hp : 0 < 2 ^ Zpos p) by (apply Z.pow_pos_nonneg; lia).
    assert (H2 : 0 <= shr_m (SpecFloat.iter_pos shr_1 p mrs)).
    { rewrite IH by exact Hm. apply Z.div_pos; [exact Hm | exact Hp]. }
    rewrite IH by exact H2. rewrite IH by exact Hm.
    rewrite pow2_xO. rewrite !Z.div_div by lia. f_equal.
  - rewrite shr_1_m by exact Hm. reflexivity.
Qed.

Lemma shr_record_of_loc_m m l : shr_m (shr_record_of_loc m l) = m.
Proof. destruct l as [|[| |]]; reflexivity. Qed.

(** One normalization step of binary64 on a positive mantissa. *)
Lemma shr_fexp_spec p e l :
  -1074 <= Zpos (digits2_pos p) + e - 53 ->
  let d := Zpos (digits2_pos p) in
  let r := shr_fexp 53 1024 (Zpos p) e l in
  snd r = Z.max e (d + e - 53)
  /\ 1 <= shr_m (fst r) < 2 ^ 53
  /\ (d <= 53 -> shr_m (fst r) = Zpos p).
Proof.
  intros Hd d r. subst r. unfold shr_fexp, fexp, emin, Zdigits2. fold d.
  replace (Z.max (d + e - 53) (3 - 1024 - 53) - e) with (d - 53) by lia.
  pose proof (digits2_bounds p) as [Hlo Hhi]. fold d in Hlo, Hhi.
  unfold shr. destruct (d - 53) as [|n|n] eqn:Hn; simpl fst; simpl snd.
  - rewrite shr_record_of_loc_m. replace d with 53 in * by lia.
    split; [lia|]. split; [lia|]. reflexivity.
  - rewrite iter_shr_m by (rewrite shr_record_of_loc_m; lia).
    rewrite shr_record_of_loc_m.
    split; [lia|]. split; [|lia].
    assert (Hpow : 2 ^ (d - 1) = 2 ^ 52 * 2 ^ Zpos n).
    { rewrite <- Z.pow_add_r by lia. f_equal. lia. }
    assert (Hpow' : 2 ^ d = 2 ^ 53 * 2 ^ Zpos n).
    { rewrite <- Z.pow_add_r by lia. f_equal. lia. }
    assert (H2n : 0 < 2 ^ Zpos n) by (apply Z.pow_pos_nonneg; lia).
    split.
    + apply Z.div_le_lower_bound; [exact H2n|]. 
      assert (1 <= 2 ^ 52) by (change (2^52) with 4503599627370496; lia). nia.
    + apply Z.div_lt_upper_bound; [exact H2n|]. lia.
  - rewrite shr_record_of_loc_m.
    assert (2 ^ d <= 2 ^ 53) by (apply Z.pow_le_mono_r; lia).
    split; [lia|]. split; [lia|]. reflexivity.
Qed.

Lemma round_nearest_even_bounds m l :
  m <= round_nearest_even m l <= m + 1.
Proof.
  unfold round_nearest_even. destruct l as [|[| |]]; try lia.
  destruct (Z.even m); lia.
Qed.

(** [binary_round_aux] on a mantissa of at least the smallest exponent. *)
Lemma binary_round_aux_spec sx p e :
  -1021 <= e ->
  let d := Zpos (digits2_pos p) in
  let e1 := Z.max e (d + e - 53) in
  exists m e2,
    e1 <= e2 <= e1 + 1
    /\ binary_round_aux 53 1024 sx (Zpos p) e loc_Exact
       = if e2 <=? 971 then S754_finite sx m e2 else S754_infinity sx.
Proof.
  intros He d e1. unfold binary_round_aux.
  assert (Hd : -1074 <= Zpos (digits2_pos p) + e - 53) by lia.
  pose proof (shr_fexp_spec p e loc_Exact Hd) as (He1 & Hm1 & _).
  destruct (shr_fexp 53 1024 (Zpos p) e loc_Exact) as [mrs1 e1'].
  cbn [fst snd] in He1, Hm1. fold d in He1. subst e1'. fold e1.
  pose proof (round_nearest_even_bounds (shr_m mrs1) (loc_of_shr_record mrs1)) as Hr.
  destruct (round_nearest_even (shr_m mrs1) (loc_of_shr_record mrs1))
    as [|p2|p2] eqn:Hp2; try lia.
  assert (Hd2 : Zpos (digits2_pos p2) <= 54).
  { apply digits2_le; [lia|].
    change (2 ^ 54) with 18014398509481984. change (2 ^ 53) with 9007199254740992 in Hm1. lia. }
  assert (Hd2' : 1 <= Zpos (digits2_pos p2)) by lia.
  assert (Hd2'' : -1074 <= Zpos (digits2_pos p2) + e1 - 53) by lia.
  pose proof (shr_fexp_spec p2 e1 loc_Exact Hd2'') as (He2 & Hm2 & _).
  destruct (shr_fexp 53 1024 (Zpos p2) e1 loc_Exact) as [mrs2 e2].
  cbn [fst snd] in He2, Hm2.
  destruct (shr_m mrs2) as [|m3|m3] eqn:Hm3; try lia.
  exists m3, e2. split; [lia|]. reflexivity.
Qed.

Lemma binary_round_int sx p :
  let d := Zpos (digits2_pos p) in
  exists m e2,
    d - 53 <= e2 <= d - 52
    /\ binary_round 53 1024 sx p 0
       = if e2 <=? 971 then S754_finite sx m e2 else S754_infinity sx.
Proof.
  intros d. unfold binary_round, shl_align, fexp, emin. fold d.
  assert (Hd1 : 1 <= d) by (subst d; lia).
  replace (Z.max (d + 0 - 53) (3 - 1024 - 53) - 0) with (d - 53) by lia.
  destruct (d - 53) as [|n|n] eqn:Hn.
  - destruct (binary_round_aux_spec sx p 0 ltac:(lia)) as (m & e2 & He & Hr).
    fold d in He. exists m, e2. split; [lia | exact Hr].
  - destruct (binary_round_aux_spec sx p 0 ltac:(lia)) as (m & e2 & He & Hr).
    fold d in He. exists m, e2. split; [lia | exact Hr].
  - replace (Z.max (d + 0 - 53) (3 - 1024 - 53)) with (d - 53) by lia.
    assert (Hdz : Zpos (digits2_pos (Pos.iter xO p n)) = 53).
    { apply Z.le_antisymm.
      - apply digits2_le; [lia|]. rewrite iter_xO_value.
        pose proof (proj2 (digits2_bounds p)) as Hhi. fold d in Hhi.
        assert (2 ^ 53 = 2 ^ d * 2 ^ Zpos n).
        { rewrite <- Z.pow_add_r by lia. f_equal. lia. }
        assert (0 < 2 ^ Zpos n) by (apply Z.pow_pos_nonneg; lia). nia.
      - apply digits2_ge. rewrite iter_xO_value.
        pose proof (proj1 (digits2_bounds p)) as Hlo. fold d in Hlo.
        assert (2 ^ (53 - 1) = 2 ^ (d - 1) * 2 ^ Zpos n).
        { rewrite <- Z.pow_add_r by lia. f_equal. lia. }
        assert (0 < 2 ^ Zpos n) by (apply Z.pow_pos_nonneg; lia). nia. }
    destruct (binary_round_aux_spec sx (Pos.iter xO p n) (d - 53)
                ltac:(lia)) as (m & e2 & He & Hr).
    rewrite Hdz in He. exists m, e2. split; [lia | exact Hr].
Qed.

(** *** The clamp of a converted integer, and the interval *)

Lemma of_int_pos p :
  Zpos p < 2 ^ 1023 ->
  exists m e, F64.of_int (Zpos p) = Some (S754_finite false m e)
              /\ Zpos (digits2_pos p) - 53 <= e.
Proof.
  intros Hp. unfold F64.of_int, F64.prec, F64.emax, binary_normalize.
  destruct (binary_round_int false p) as (m & e & He & ->).
  assert (Hd : Zpos (digits2_pos p) <= 1023) by (apply digits2_le; [lia | exact Hp]).
  destruct (Z.leb_spec e 971); [|lia].
  exists m, e. split; [reflexivity | lia].
Qed.

Lemma of_int_neg p :
  Zpos p < 2 ^ 1023 ->
  exists m e, F64.of_int (Zneg p) = Some (S754_finite true m e).
Proof.
  intros Hp. unfold F64.of_int, F64.prec, F64.emax, binary_normalize.
  destruct (binary_round_int true p) as (m & e & He & ->).
  assert (Hd : Zpos (digits2_pos p) <= 1023) by (apply digits2_le; [lia | exact Hp]).
  destruct (Z.leb_spec e 971); [|lia].
  exists m, e. reflexivity.
Qed.

Lemma of_int_huge z : 2 ^ 1024 <= Z.abs z -> F64.of_int z = None.
Proof.
  intros Hz. unfold F64.of_int, F64.prec, F64.emax, binary_normalize.
  assert (H0 : 0 < 2 ^ 1024) by (apply Z.pow_pos_nonneg; lia).
  destruct z as [|p|p]; [simpl in Hz; lia|..].
  - destruct (binary_round_int false p) as (m & e & He & ->).
    assert (Hd : 1025 <= Zpos (digits2_pos p)) by (apply digits2_ge; exact Hz).
    destruct (Z.leb_spec e 971); [lia | reflexivity].
  - destruct (binary_round_int true p) as (m & e & He & ->).
    assert (Hd : 1025 <= Zpos (digits2_pos p)) by (apply digits2_ge; exact Hz).
    destruct (Z.leb_spec e 971); [lia | reflexivity].
Qed.

Lemma ltb_above_1_2 m e : -52 < e -> F64.ltb F64.c1_2 (S754_finite false m e) = true.
Proof.
  intros He. unfold F64.ltb, F64.c1_2, SFltb, SFcompare.
  rewrite (proj2 (Z.compare_lt_iff (-52) e)) by lia. reflexivity.
Qed.

(** The clamp of the float of an integer that is not zero. *)
Lemma clamp_of_int z :
  z <> 0 -> Z.abs z < 2 ^ 1023 ->
  exists f, F64.of_int z = Some f /\ f <> S754_nan
            /\ clamp_speed f
               = if z <? 0 then F64.c0_7 else if z =? 1 then F64.c1_0 else F64.c1_2.
Proof.
  intros Hz Hs. destruct z as [|p|p]; [congruence|..].
  - destruct (Z.eqb_spec (Zpos p) 1) as [H1|H1].
    + injection H1 as ->. eexists. split; [vm_compute; reflexivity|].
      split; [discriminate | reflexivity].
    + destruct (of_int_pos p Hs) as (m & e & -> & He).
      assert (Hd : 2 <= Zpos (digits2_pos p)) by (apply digits2_ge; simpl; lia).
      eexists. split; [reflexivity|]. split; [discriminate|].
      change (Zpos p <? 0) with false. cbv iota.
      apply (proj1 (proj2 (clamp_speed_cases _))). apply ltb_above_1_2. lia.
  - destruct (of_int_neg p Hs) as (m & e & ->).
    eexists. split; [reflexivity|]. split; [discriminate|].
    change (Zneg p <? 0) with true. cbv iota.
    apply (proj1 (clamp_speed_cases _)). reflexivity.
Qed.

Lemma SFcompare_antisym a b :
  SFcompare b a = option_map CompOpp (SFcompare a b).
Proof.
  destruct a as [sa|sa| |sa ma ea], b as [sb|sb| |sb mb eb];
    try destruct sa; try destruct sb; try reflexivity;
    unfold SFcompare; rewrite (Z.compare_antisym ea eb);
    destruct (ea ?= eb); cbn [CompOpp option_map]; try reflexivity;
    repeat (rewrite Pos.compare_cont_antisym; cbn [CompOpp]); reflexivity.
Qed.

Lemma SFcompare_some a b :
  a <> S754_nan -> b <> S754_nan -> exists c, SFcompare a b = Some c.
Proof.
  intros Ha Hb.
  destruct a as [sa|sa| |sa ma ea], b as [sb|sb| |sb mb eb];
    try congruence; unfold SFcompare; eauto.
Qed.

Lemma not_ltb_leb a b :
  a <> S754_nan -> b <> S754_nan -> SFltb a b = false -> SFleb b a = true.
Proof.
  intros Ha Hb. unfold SFltb, SFleb. rewrite (SFcompare_antisym a b).
  destruct (SFcompare_some a b Ha Hb) as [c ->]. destruct c; simpl; congruence.
Qed.

Lemma leb_not_ltb a b : SFleb a b = true -> SFltb b a = false.
Proof.
  unfold SFltb, SFleb. rewrite (SFcompare_antisym a b).
  destruct (SFcompare a b) as [[| |]|]; simpl; congruence.
Qed.

Lemma clamp_inside s : within_range s -> clamp_speed s = s.
Proof.
  intros [Hlo Hhi]. apply clamp_speed_cases; apply leb_not_ltb; assumption.
Qed.

Lemma c0_7_within : within_range F64.c0_7.
Proof. split; reflexivity. Qed.

Lemma c1_2_within : within_range F64.c1_2.
Proof. split; reflexivity. Qed.

Lemma clamp_trichotomy s :
  s <> S754_nan ->
  (F64.ltb s F64.c0_7 = true \/ F64.ltb F64.c1_2 s = true \/ within_range s)
  /\ within_range (clamp_speed s).
Proof.
  intros Hs.
  destruct (F64.ltb s F64.c0_7) eqn:Hlo.
  { split; [left; reflexivity|].
    rewrite (proj1 (clamp_speed_cases s) Hlo). apply c0_7_within. }
  destruct (F64.ltb F64.c1_2 s) eqn:Hhi.
  { split; [right; left; reflexivity|].
    rewrite (proj1 (proj2 (clamp_speed_cases s)) Hhi). apply c1_2_within. }
  assert (Hw : within_range s).
  { split; apply not_ltb_leb; try assumption; discriminate. }
  split; [right; right; exact Hw|].
  rewrite (clamp_inside s Hw). exact Hw.
Qed.

Lemma synthesize_call {L : PyLib} {E : Engine} rq w w1 p :
  get_pipeline (rq_lang_code rq) w = (w1, Ok p) ->
  calls (fst (synthesize rq w))
  = calls w1 ++ [EvCall p (rq_text rq) (rq_voice rq) (rq_speed rq) (str "\n+")].
Proof.
  intros Hg. unfold synthesize. rewrite Hg.
  destruct (run_pipeline _ _ _ _ _ _) as [wd [chunks|e]]; reflexivity.
Qed.

Lemma handle_line_call {L : PyLib} {E : Engine} line w d v s w1 p :
  forallb is_space line = false ->
  json_loads (strip line) = Ok (VDict d) ->
  dict_get d (str "speed") = Some v -> truthy v = true -> py_float v = Ok s ->
  let text := strip (py_str (get_or d (str "text") (VStr empty_str))) in
  let voice :=
    str_or (strip (py_str (get_or d (str "voice") (VStr (str "af_heart")))))
           (str "af_heart") in
  let lang_code :=
    str_or (strip (py_str (get_or d (str "lang_code") (VStr (str "a")))))
           (str "a") in
  text <> [] ->
  get_pipeline lang_code w = (w1, Ok p) ->
  calls (handle_line line w)
  = calls w1 ++ [EvCall p text voice (clamp_speed s) (str "\n+")].
Proof.
  intros Hb Hl Hk Hv Hs text voice lang_code Ht Hg.
  unfold handle_line, respond.
  rewrite strip_blank, Hb, Hl, read_fields_dict.
  rewrite (get_or_truthy _ _ _ _ Hk Hv), Hs. cbn [mbind result_bind rq_text].
  fold text voice lang_code.
  destruct text as [|c t] eqn:Htext; [congruence|]. cbn [str_empty].
  pose proof (synthesize_call
                (Request (c :: t) voice lang_code (clamp_speed s)) w w1 p Hg) as Hc.
  destruct (synthesize _ w) as [w' [wav|exc]]; exact Hc.
Qed.

(** C4, as the code has it. A speed that is truthy (not zero) and converts
    to a float [s] is read as the clamp of [s]: 0.7 when [s < 0.7], 1.2 when
    [s > 1.2], [s] itself when [s] is inside the interval; unless [s] is a
    NaN one of the three holds and the speed read is inside the interval.
    Every float converts; an integer of magnitude below 2^1023 converts,
    and one of magnitude 2^1024 or more makes [float] raise
    [OverflowError]. Nothing that converts is rejected for being out of
    range: an integer from 2 on is read as 1.2, a negative one as 0.7. An
    absent speed is read as 1.0, and so is a zero. The speed read is the one
    the engine is called with. *)
Theorem C4_speed_is_clamped (L : PyLib) (E : Engine) :
  (forall s,
      (F64.ltb s F64.c0_7 = true -> clamp_speed s = F64.c0_7)
      /\ (F64.ltb F64.c1_2 s = true -> clamp_speed s = F64.c1_2)
      /\ (within_range s -> clamp_speed s = s)
      /\ (s <> S754_nan ->
          (F64.ltb s F64.c0_7 = true \/ F64.ltb F64.c1_2 s = true
           \/ within_range s)
          /\ within_range (clamp_speed s)))
  /\ (forall d v s,
         dict_get d (str "speed") = Some v -> truthy v = true ->
         py_float v = Ok s ->
         exists rq, snd (read_fields (VDict d)) = Ok rq
                    /\ rq_speed rq = clamp_speed s)
  /\ (forall d f,
         dict_get d (str "speed") = Some (VFloat f) ->
         truthy (VFloat f) = true -> f <> S754_nan ->
         exists rq, snd (read_fields (VDict d)) = Ok rq
                    /\ rq_speed rq = clamp_speed f
                    /\ within_range (rq_speed rq))
  /\ (forall z,
         z <> 0 -> Z.abs z < 2 ^ 1023 ->
         exists f, py_float (VInt z) = Ok f /\ f <> S754_nan
                   /\ clamp_speed f
                      = if z <? 0 then F64.c0_7
                        else if z =? 1 then F64.c1_0 else F64.c1_2)
  /\ (forall z,
         2 ^ 1024 <= Z.abs z ->
         exists e, py_float (VInt z) = Raise e /\ exn_cls e = OverflowError)
  /\ (forall d z,
         dict_get d (str "speed") = Some (VInt z) ->
         z <> 0 -> Z.abs z < 2 ^ 1023 ->
         exists rq, snd (read_fields (VDict d)) = Ok rq
                    /\ rq_speed rq
                       = (if z <? 0 then F64.c0_7
                          else if z =? 1 then F64.c1_0 else F64.c1_2)
                    /\ within_range (rq_speed rq))
  /\ (forall d,
         dict_get d (str "speed") = None ->
         exists rq, snd (read_fields (VDict d)) = Ok rq /\ rq_speed rq = F64.c1_0)
  /\ (forall d v,
         dict_get d (str "speed") = Some v -> truthy v = false ->
         exists rq, snd (read_fields (VDict d)) = Ok rq /\ rq_speed rq = F64.c1_0)
  /\ (forall line w d v s w1 p,
         forallb is_space line = false ->
         json_loads (strip line) = Ok (VDict d) ->
         dict_get d (str "speed") = Some v -> truthy v = true ->
         py_float v = Ok s ->
         let text := strip (py_str (get_or d (str "text") (VStr empty_str))) in
         let voice :=
           str_or (strip (py_str (get_or d (str "voice") (VStr (str "af_heart")))))
                  (str "af_heart") in
         let lang_code :=
           str_or (strip (py_str (get_or d (str "lang_code") (VStr (str "a")))))
                  (str "a") in
         text <> [] ->
         get_pipeline lang_code w = (w1, Ok p) ->
         calls (handle_line line w)
         = calls w1 ++ [EvCall p text voice (clamp_speed s) (str "\n+")])
  /\ (clamp_speed F64.c0_3 = F64.c0_7 /\ clamp_speed F64.c0_7 = F64.c0_7
      /\ clamp_speed F64.c1_0 = F64.c1_0 /\ clamp_speed F64.c1_2 = F64.c1_2
      /\ clamp_speed F64.c5_0 = F64.c1_2).
Proof.
  assert (Hread : forall d v s,
             dict_get d (str "speed") = Some v -> truthy v = true ->
             py_float v = Ok s ->
             exists rq, snd (read_fields (VDict d)) = Ok rq
                        /\ rq_speed rq = clamp_speed s).
  { intros d v s Hk Hv Hs. rewrite read_fields_dict. simpl.
    rewrite (get_or_truthy _ _ _ _ Hk Hv), Hs. simpl.
    eexists. split; reflexivity. }
  assert (Hint : forall z,
             z <> 0 -> Z.abs z < 2 ^ 1023 ->
             exists f, py_float (VInt z) = Ok f /\ f <> S754_nan
                       /\ clamp_speed f
                          = if z <? 0 then F64.c0_7
                            else if z =? 1 then F64.c1_0 else F64.c1_2).
  { intros z Hz Hs. destruct (clamp_of_int z Hz Hs) as (f & Hf & Hn & Hc).
    exists f. unfold py_float. rewrite Hf. auto. }
  split.
  { intros s. destruct (clamp_speed_cases s) as (Hlo & Hhi & _).
    split; [exact Hlo|]. split; [exact Hhi|].
    split; [apply clamp_inside | apply clamp_trichotomy]. }
  split; [exact Hread|].
  split.
  { intros d f Hk Hv Hn.
    destruct (Hread d (VFloat f) f Hk Hv eq_refl) as (rq & Hrq & Hsp).
    exists rq. split; [exact Hrq|]. split; [exact Hsp|].
    rewrite Hsp. apply clamp_trichotomy, Hn. }
  split; [exact Hint|].
  split.
  { intros z Hz. unfold py_float. rewrite (of_int_huge z Hz).
    eexists. split; reflexivity. }
  split.
  { intros d z Hk Hz Hs. destruct (Hint z Hz Hs) as (f & Hf & Hn & Hc).
    assert (Ht : truthy (VInt z) = true).
    { simpl. destruct (Z.eqb_spec z 0); [contradiction | reflexivity]. }
    destruct (Hread d (VInt z) f Hk Ht Hf) as (rq & Hrq & Hsp).
    exists rq. split; [exact Hrq|]. rewrite Hsp. split; [exact Hc|].
    apply clamp_trichotomy, Hn. }
  split.
  { intros d Hk. rewrite read_fields_dict. simpl.
    rewrite (get_or_absent _ _ _ Hk). simpl. eexists. split; reflexivity. }
  split.
  { intros d v Hk Hv. rewrite read_fields_dict. simpl.
    rewrite (get_or_falsy _ _ _ _ Hk Hv). simpl. eexists. split; reflexivity. }
  split; [intros line w d v s w1 p; apply handle_line_call|].
  repeat split.
Qed.

Lemma C4_witness :
  (exists rq,
      snd (read_fields (L := Stub.lib)
             (VDict [(str "text", VStr (str "hi")); (str "speed", VFloat F64.c5_0)]))
      = Ok rq
      /\ rq_speed rq = clamp_speed F64.c5_0)
  /\ clamp_speed F64.c5_0 = F64.c1_2
  /\ calls (handle_line (L := Stub.lib) Stub.line_fast Stub.w0)
     = [@EvAcquire Stub.engine (str "a");
        @EvNew Stub.engine true (str "a") (Some (str "a"));
        @EvCall Stub.engine (str "a") (str "hi") (str "af_heart") F64.c1_2
          (str "\n+")]
  /\ (exists rq,
         snd (read_fields (L := Stub.lib) (VDict [(str "speed", VInt (-3))])) = Ok rq
         /\ rq_speed rq = F64.c0_7 /\ within_range (rq_speed rq))
  /\ (exists e,
         py_float (L := Stub.lib) (VInt (2 ^ 1024)) = Raise e
         /\ exn_cls e = OverflowError).
Proof.
  pose proof (C4_speed_is_clamped Stub.lib Stub.engine)
    as (Hclamp & Hread & _ & _ & Hhuge & Hint & _).
  split; [|split; [|split; [|split]]].
  - apply (Hread _ (VFloat F64.c5_0) F64.c5_0); reflexivity.
  - apply (Hclamp F64.c5_0). reflexivity.
  - reflexivity.
  - apply (Hint [(str "speed", VInt (-3))] (-3)); [reflexivity | lia | reflexivity].
  - apply Hhuge. vm_compute. discriminate.
Defined.

(** The claim C4 for every numeric speed fails at zero: the engine is
    called with 1.0, the clamp of zero being 0.7. It fails at an integer too
    large for a float, which is rejected. It fails at a NaN, which
    [json.loads] reads from the literal [NaN]: both comparisons are false
    and the engine is called with the NaN, which is not in the interval. *)
Lemma C4_counterexample :
  json_loads (PyLib := Stub.lib) (strip Stub.line_speed0)
  = Ok (VDict [(str "id", VStr (str "2")); (str "text", VStr (str "hi"));
               (str "speed", VInt 0)])
  /\ calls (handle_line (L := Stub.lib) Stub.line_speed0 Stub.w0)
     = [@EvAcquire Stub.engine (str "a");
        @EvNew Stub.engine true (str "a") (Some (str "a"));
        @EvCall Stub.engine (str "a") (str "hi") (str "af_heart") F64.c1_0
          (str "\n+")]
  /\ py_float (L := Stub.lib) (VInt 0) = Ok (S754_zero false)
  /\ clamp_speed (S754_zero false) = F64.c0_7
  /\ F64.c1_0 <> F64.c0_7
  /\ snd (read_fields (L := Stub.lib) (VDict [(str "speed", VInt (2 ^ 1024))]))
     = Raise (Exn OverflowError (str "int too large to convert to float"))
  /\ json_loads (PyLib := Stub.lib) (strip Stub.line_speed_nan)
     = Ok (VDict [(str "id", VStr (str "8")); (str "text", VStr (str "hi"));
                  (str "speed", VFloat S754_nan)])
  /\ calls (handle_line (L := Stub.lib) Stub.line_speed_nan Stub.w0)
     = [@EvAcquire Stub.engine (str "a");
        @EvNew Stub.engine true (str "a") (Some (str "a"));
        @EvCall Stub.engine (str "a") (str "hi") (str "af_heart") S754_nan
          (str "\n+")]
  /\ ~ within_range S754_nan.
Proof.
  split; [reflexivity|]. split; [vm_compute; reflexivity|].
  split; [reflexivity|]. split; [reflexivity|].
  split; [discriminate|]. split; [vm_compute; reflexivity|].
  split; [reflexivity|]. split; [vm_compute; reflexivity|].
  intros [H _]. discriminate H.
Qed.

(** ** The audio encoder *)

Section Encoder.
Context {L : PyLib}.

Lemma pcm_bytes_map (a : list f32) :
  pcm_bytes a = flat_map (fun x => int16_le (pcm_sample x)) a.
Proof. destruct a; reflexivity. Qed.

Lemma pcm_bytes_length (a : list f32) :
  length (pcm_bytes a) = (2 * length a)%nat.
Proof.
  rewrite pcm_bytes_map. induction a as [|x a IH]; simpl; [reflexivity|].
  rewrite IH. lia.
Qed.

(** A float above a positive float is not below a negative one. *)
Lemma ltb_above_not_below (x : spec_float) m1 e1 m2 e2 :
  SFltb (S754_finite false m1 e1) x = true ->
  SFltb x (S754_finite true m2 e2) = false.
Proof.
  unfold SFltb, SFcompare.
  destruct x as [[|]|[|]| |[|] m e]; try discriminate; reflexivity.
Qed.

Lemma np_clip_cases (x : f32) :
  (F32.ltb x F32.minus_one = true -> np_clip x = F32.minus_one)
  /\ (F32.ltb F32.one x = true -> np_clip x = F32.one)
  /\ (F32.ltb x F32.minus_one = false -> F32.ltb F32.one x = false ->
      np_clip x = x).
Proof.
  unfold np_clip. split; [|split].
  - intros ->. reflexivity.
  - intros Hhi.
    rewrite (ltb_above_not_below x _ _ _ _ Hhi : F32.ltb x F32.minus_one = false).
    rewrite Hhi. reflexivity.
  - intros -> ->. reflexivity.
Qed.

(** The conversion to an integer drops the fractional part: the magnitude
    of the result is the largest integer not above the magnitude of the
    float, and the sign is kept. *)
Lemma trunc_finite_spec s m e :
  exists q, trunc_finite s m e = cond_Zopp s q
            /\ 0 <= q
            /\ (0 <= e -> q = Zpos m * 2 ^ e)
            /\ (e < 0 -> q * 2 ^ (- e) <= Zpos m < (q + 1) * 2 ^ (- e)).
Proof.
  unfold trunc_finite. destruct e as [|p|p].
  - exists (Zpos m). rewrite Z.shiftl_0_r.
    split; [reflexivity|]. split; [lia|]. split; [|lia].
    intros _. rewrite Z.pow_0_r. lia.
  - exists (Z.shiftl (Zpos m) (Zpos p)).
    rewrite Z.shiftl_mul_pow2 by lia.
    split; [reflexivity|]. split; [|split; [reflexivity | lia]].
    apply Z.mul_nonneg_nonneg; [lia|]. apply Z.pow_nonneg. lia.
  - exists (Z.shiftr (Zpos m) (Zpos p)).
    rewrite Z.shiftr_div_pow2 by lia.
    assert (Hpow : 0 < 2 ^ Zpos p) by (apply Z.pow_pos_nonneg; lia).
    split; [reflexivity|].
    split; [apply Z.div_pos; lia|].
    split; [lia|]. intros _.
    change (- Zneg p) with (Zpos p).
    pose proof (Z.div_mod (Zpos m) (2 ^ Zpos p) ltac:(lia)) as Hdm.
    pose proof (Z.mod_pos_bound (Zpos m) (2 ^ Zpos p) Hpow) as Hmod.
    nia.
Qed.

End Encoder.

(** C5, as the code has it. The payload is the concatenation, in order, of
    the two bytes of each sample, each computed from that sample alone. A
    sample below -1.0 is first replaced by -1.0 and one above 1.0 by 1.0
    (so 1.5 gives 32767 and -2.0 gives -32767), any other sample is kept;
    the float32 product with 32767 is then converted by dropping its
    fractional part, toward zero, whatever the fraction: 0.25 gives 8191,
    the product being 8191.75. *)
Theorem C5_samples_clipped_then_truncated (L : PyLib) :
  (forall a, pcm_bytes a = flat_map (fun x => int16_le (pcm_sample x)) a)
  /\ (forall x,
         (F32.ltb x F32.minus_one = true ->
          np_clip x = F32.minus_one /\ pcm_sample x = -32767)
         /\ (F32.ltb F32.one x = true ->
             np_clip x = F32.one /\ pcm_sample x = 32767)
         /\ (F32.ltb x F32.minus_one = false -> F32.ltb F32.one x = false ->
             np_clip x = x /\ pcm_sample x = astype_int16 (F32.mul x F32.c32767)))
  /\ (forall x s m e,
         F32.mul (np_clip x) F32.c32767 = S754_finite s m e ->
         exists q, pcm_sample x = cond_Zopp s q
                   /\ 0 <= q
                   /\ (0 <= e -> q = Zpos m * 2 ^ e)
                   /\ (e < 0 -> q * 2 ^ (- e) <= Zpos m < (q + 1) * 2 ^ (- e)))
  /\ (forall x s, F32.mul (np_clip x) F32.c32767 = S754_zero s -> pcm_sample x = 0)
  /\ (pcm_sample f32_1_5 = 32767 /\ pcm_sample f32_minus_2 = -32767
      /\ pcm_sample f32_quarter = 8191
      /\ int16_le 32767 = [255; 127] /\ int16_le (-32767) = [1; 128]).
Proof.
  split; [exact pcm_bytes_map|].
  split.
  { intros x. destruct (np_clip_cases x) as (Hlo & Hhi & Hin).
    split; [|split].
    - intros H. split; [exact (Hlo H)|].
      unfold pcm_sample. rewrite (Hlo H). vm_compute. reflexivity.
    - intros H. split; [exact (Hhi H)|].
      unfold pcm_sample. rewrite (Hhi H). vm_compute. reflexivity.
    - intros H1 H2. split; [exact (Hin H1 H2)|].
      unfold pcm_sample. rewrite (Hin H1 H2). reflexivity. }
  split.
  { intros x s m e Hx. unfold pcm_sample. rewrite Hx. simpl.
    apply trunc_finite_spec. }
  split.
  { intros x s Hx. unfold pcm_sample. rewrite Hx. reflexivity. }
  repeat split; vm_compute; reflexivity.
Qed.

Lemma C5_witness :
  (np_clip f32_1_5 = F32.one /\ pcm_sample (L := Stub.lib) f32_1_5 = 32767)
  /\ (np_clip f32_minus_2 = F32.minus_one
      /\ pcm_sample (L := Stub.lib) f32_minus_2 = -32767)
  /\ exists q, pcm_sample (L := Stub.lib) f32_quarter = cond_Zopp false q
               /\ 0 <= q
               /\ (0 <= -11 -> q = 16776704 * 2 ^ (-11))
               /\ (-11 < 0 -> q * 2 ^ 11 <= 16776704 < (q + 1) * 2 ^ 11).
Proof.
  pose proof (C5_samples_clipped_then_truncated Stub.lib)
    as (_ & Hclip & Htrunc & _).
  split; [|split].
  - apply (Hclip f32_1_5). reflexivity.
  - apply (Hclip f32_minus_2). reflexivity.
  - apply (Htrunc f32_quarter false 16776704%positive (-11)).
    vm_compute. reflexivity.
Defined.

(** The claim C5 fails where the fraction of the product is above one half:
    0.25 * 32767 is 8191.75, which the code converts to 8191 and which the
    rounding the specification names takes to 8192. *)
Lemma C5_counterexample :
  F32.mul (np_clip f32_quarter) F32.c32767 = S754_finite false 16776704 (-11)
  /\ pcm_sample (L := Stub.lib) f32_quarter = 8191
  /\ spec_quantize f32_quarter = 8192
  /\ pcm_sample (L := Stub.lib) f32_quarter <> spec_quantize f32_quarter.
Proof.
  split; [vm_compute; reflexivity|].
  split; [vm_compute; reflexivity|].
  split; [vm_compute; reflexivity|].
  vm_compute. discriminate.
Qed.

(** ** The container *)

Section Container.
Context {L : PyLib}.

Lemma pack_L_ok z : 0 <= z < 4294967296 -> pack_L z = Ok (le32 z).
Proof.
  intros Hz. unfold pack_L.
  destruct (Z.leb_spec 0 z); [|lia]. destruct (Z.ltb_spec z 4294967296); [|lia].
  reflexivity.
Qed.

Lemma pack_H_ok z : 0 <= z < 65536 -> pack_H z = Ok (le16 z).
Proof.
  intros Hz. unfold pack_H.
  destruct (Z.leb_spec 0 z); [|lia]. destruct (Z.ltb_spec z 65536); [|lia].
  reflexivity.
Qed.

Lemma pack_L_raise z :
  4294967296 <= z ->
  pack_L z = Raise (Exn StructError (builtin_msg StructError (VInt z))).
Proof.
  intros Hz. unfold pack_L.
  destruct (Z.ltb_spec z 4294967296); [lia|]. rewrite andb_false_r. reflexivity.
Qed.

Lemma le_decode_le16 z : 0 <= z < 65536 -> le_decode (le16 z) = z.
Proof.
  intros Hz. unfold le16, le_decode.
  pose proof (Z.div_mod z 256 ltac:(lia)).
  assert (0 <= z / 256 < 256)
    by (split; [apply Z.div_pos; lia | apply Z.div_lt_upper_bound; lia]).
  rewrite (Z.mod_small (z / 256) 256) by lia. lia.
Qed.

Lemma le_decode_le32 z : 0 <= z < 4294967296 -> le_decode (le32 z) = z.
Proof.
  intros Hz. unfold le32, le_decode.
  replace (z / 65536) with (z / 256 / 256)
    by (rewrite Z.div_div by lia; reflexivity).
  replace (z / 16777216) with (z / 256 / 256 / 256)
    by (rewrite !Z.div_div by lia; reflexivity).
  pose proof (Z.div_mod z 256 ltac:(lia)).
  pose proof (Z.div_mod (z / 256) 256 ltac:(lia)).
  pose proof (Z.div_mod (z / 256 / 256) 256 ltac:(lia)).
  assert (0 <= z / 256 / 256 / 256 < 256).
  { split; [repeat apply Z.div_pos; lia|].
    repeat (apply Z.div_lt_upper_bound; [lia|]). lia. }
  rewrite (Z.mod_small (z / 256 / 256 / 256) 256) by lia. lia.
Qed.

(** Within the 32-bit fields of the container the writer succeeds, with the
    canonical header before the frames. *)
Lemma wave_file_ok rate (frames : bytes) :
  0 <= rate < 2147483648 ->
  36 + Z.of_nat (length frames) < 4294967296 ->
  wave_file 1 2 rate frames
  = Ok (wav_header rate (Z.of_nat (length frames)) ++ frames).
Proof.
  intros Hr Hn. unfold wave_file.
  rewrite !pack_L_ok by lia. rewrite !pack_H_ok by lia.
  cbn [mbind result_bind]. unfold wav_header.
  replace (1 * rate * 2) with (rate * 2) by lia.
  change (1 * 2) with 2. change (2 * 8) with 16.
  repeat rewrite <- app_assoc. reflexivity.
Qed.

Lemma wave_file_rate_raise rate (frames : bytes) :
  2147483648 <= rate ->
  exists e, wave_file 1 2 rate frames = Raise e /\ exn_cls e = StructError.
Proof.
  intros Hr. unfold wave_file.
  destruct (pack_L (36 + Z.of_nat (length frames))) as [b1|e1] eqn:H1;
    [|exists e1; split; [reflexivity|]; revert H1; unfold pack_L;
      destruct (_ && _); [discriminate | intros [= <-]; reflexivity]].
  rewrite (pack_L_ok 16) by lia. rewrite (pack_H_ok 1) by lia.
  cbn [mbind result_bind].
  destruct (pack_L rate) as [b2|e2] eqn:H2;
    [|exists e2; split; [reflexivity|]; revert H2; unfold pack_L;
      destruct (_ && _); [discriminate | intros [= <-]; reflexivity]].
  rewrite (pack_L_raise (1 * rate * 2)) by lia.
  eexists. split; reflexivity.
Qed.

Lemma wave_file_len_raise rate (frames : bytes) :
  4294967296 <= 36 + Z.of_nat (length frames) ->
  exists e, wave_file 1 2 rate frames = Raise e /\ exn_cls e = StructError.
Proof.
  intros Hn. unfold wave_file.
  rewrite (pack_L_raise (36 + Z.of_nat (length frames)) Hn).
  eexists. split; reflexivity.
Qed.

Lemma header_length rate n : length (wav_header rate n) = 44%nat.
Proof. reflexivity. Qed.

Lemma header_fields rate n (rest : bytes) :
  0 <= rate < 4294967296 -> 0 <= n < 4294967296 ->
  let b := wav_header rate n ++ rest in
  take 4 b = bstr "RIFF"
  /\ take 4 (drop 8 b) = bstr "WAVE"
  /\ field b 20 2 = 1
  /\ field b 22 2 = 1
  /\ field b 24 4 = rate
  /\ field b 34 2 = 16
  /\ field b 40 4 = n.
Proof.
  intros Hr Hn b. subst b. unfold field, wav_header.
  split; [reflexivity|]. split; [reflexivity|].
  split; [reflexivity|]. split; [reflexivity|].
  split; [|split; [reflexivity|]].
  - change (le_decode (le32 rate) = rate). apply le_decode_le32, Hr.
  - change (le_decode (le32 n) = n). apply le_decode_le32, Hn.
Qed.

End Container.

(** C6, as the code has it. A sample rate that is not positive is replaced
    by 24000. For an effective rate below 2^31 and a buffer whose payload
    fits the 32-bit length fields, the encoder returns, without raising, a
    RIFF/WAVE file: the 44-byte header of one channel, 16 bits per sample,
    the sample rate and the payload length in their fields, then two bytes
    per sample. For a buffer of length zero this is the header alone, with a
    data length of zero. Beyond either bound the writer raises
    [struct.error]. *)
Theorem C6_encoder_total_within_container_fields (L : PyLib)
    (a : list f32) (sample_rate : Z) :
  let rate := if sample_rate <=? 0 then 24000 else sample_rate in
  (sample_rate <= 0 ->
   wav_bytes_from_float32_mono a sample_rate = wav_bytes_from_float32_mono a 24000)
  /\ (rate < 2147483648 -> 2 * Z.of_nat (length a) + 36 < 4294967296 ->
      let b := wav_header rate (2 * Z.of_nat (length a)) ++ pcm_bytes a in
      wav_bytes_from_float32_mono a sample_rate = Ok b
      /\ length b = (44 + 2 * length a)%nat
      /\ take 4 b = bstr "RIFF"
      /\ take 4 (drop 8 b) = bstr "WAVE"
      /\ field b 20 2 = 1
      /\ field b 22 2 = 1
      /\ field b 24 4 = rate
      /\ field b 34 2 = 16
      /\ field b 40 4 = 2 * Z.of_nat (length a))
  /\ (a = [] -> rate < 2147483648 ->
      wav_bytes_from_float32_mono a sample_rate = Ok (wav_header rate 0)
      /\ length (wav_header rate 0) = 44%nat
      /\ field (wav_header rate 0) 22 2 = 1
      /\ field (wav_header rate 0) 24 4 = rate
      /\ field (wav_header rate 0) 34 2 = 16
      /\ field (wav_header rate 0) 40 4 = 0)
  /\ (2147483648 <= rate \/ 4294967296 <= 2 * Z.of_nat (length a) + 36 ->
      exists e, wav_bytes_from_float32_mono a sample_rate = Raise e
                /\ exn_cls e = StructError).
Proof.
  intros rate.
  assert (Hpos : 0 < rate).
  { subst rate. destruct (Z.leb_spec sample_rate 0); lia. }
  assert (Hmain : rate < 2147483648 -> 2 * Z.of_nat (length a) + 36 < 4294967296 ->
                  wav_bytes_from_float32_mono a sample_rate
                  = Ok (wav_header rate (2 * Z.of_nat (length a)) ++ pcm_bytes a)).
  { intros Hr Hn. unfold wav_bytes_from_float32_mono. fold rate.
    rewrite wave_file_ok; rewrite ?pcm_bytes_length; try lia.
    replace (Z.of_nat (2 * length a)) with (2 * Z.of_nat (length a)) by lia.
    reflexivity. }
  split; [|split; [|split]].
  - intros Hle. unfold wav_bytes_from_float32_mono.
    destruct (Z.leb_spec sample_rate 0); [reflexivity | lia].
  - intros Hr Hn b. split; [exact (Hmain Hr Hn)|].
    split.
    { subst b. rewrite length_app, header_length, pcm_bytes_length. reflexivity. }
    apply header_fields; lia.
  - intros -> Hr. split; [apply (Hmain Hr); simpl; lia|].
    split; [reflexivity|].
    pose proof (header_fields rate 0 [] ltac:(lia) ltac:(lia))
      as (_ & _ & _ & H22 & H24 & H34 & H40).
    rewrite app_nil_r in *. auto.
  - unfold wav_bytes_from_float32_mono. fold rate. intros [Hr|Hn].
    + apply wave_file_rate_raise, Hr.
    + apply wave_file_len_raise. rewrite pcm_bytes_length. lia.
Qed.

Lemma C6_witness :
  (wav_bytes_from_float32_mono (L := Stub.lib) [] (-5)
   = wav_bytes_from_float32_mono (L := Stub.lib) [] 24000)
  /\ (wav_bytes_from_float32_mono (L := Stub.lib) [] 24000
      = Ok (wav_header 24000 0)
      /\ length (wav_header 24000 0) = 44%nat
      /\ field (wav_header 24000 0) 22 2 = 1
      /\ field (wav_header 24000 0) 24 4 = 24000
      /\ field (wav_header 24000 0) 34 2 = 16
      /\ field (wav_header 24000 0) 40 4 = 0)
  /\ wav_bytes_from_float32_mono (L := Stub.lib) [f32_1_5; f32_minus_2] 0
     = Ok (wav_header 24000 4 ++ [255; 127; 1; 128])
  /\ (exists e,
         wav_bytes_from_float32_mono (L := Stub.lib) [f32_quarter] 4294967296
         = Raise e /\ exn_cls e = StructError).
Proof.
  split; [|split; [|split]].
  - apply (proj1 (C6_encoder_total_within_container_fields Stub.lib [] (-5))).
    lia.
  - apply (proj1 (proj2 (proj2 (C6_encoder_total_within_container_fields
                                  Stub.lib [] 24000))));
      reflexivity.
  - apply (proj1 (proj2 (C6_encoder_total_within_container_fields Stub.lib
                           [f32_1_5; f32_minus_2] 0)));
      reflexivity.
  - apply (proj2 (proj2 (proj2 (C6_encoder_total_within_container_fields
                                  Stub.lib [f32_quarter] 4294967296)))).
    left. simpl. lia.
Defined.

(** The claim C6 of totality fails beyond the fields of the container: at a
    sample rate of 2^31 the byte rate does not fit its 32-bit field and the
    writer raises, also for an empty buffer. *)
Lemma C6_counterexample :
  wav_bytes_from_float32_mono (L := Stub.lib) [] 2147483648
  = Raise (Exn StructError (str "argument out of range")).
Proof. vm_compute. reflexivity. Qed.

(** * Further properties of the worker *)

(** ** [strip()] *)

(** X1. [strip()] removes a run of whitespace at each end and nothing else:
    what remains neither starts nor ends with whitespace, and stripping
    again changes nothing. *)
Theorem X1_strip_spec (s : pystr) :
  (exists l r, s = l ++ strip s ++ r
               /\ forallb is_space l = true /\ forallb is_space r = true)
  /\ (forall c t, strip s = c :: t -> is_space c = false)
  /\ (forall t c, strip s = t ++ [c] -> is_space c = false)
  /\ strip (strip s) = strip s.
Proof.
  split; [|split; [|split]].
  - destruct (lstrip_decomp s) as (l & Hl & Hsl).
    destruct (rstrip_decomp (lstrip s)) as (r & Hr & Hsr).
    exists l, r. split; [|split; assumption].
    unfold strip. rewrite <- Hr. exact Hl.
  - apply strip_head.
  - apply strip_last.
  - apply strip_fix; [apply strip_head | apply strip_last].
Qed.

Lemma X1_witness :
  is_space 104%N = false
  /\ strip (strip ([32; 9]%N ++ str "hi" ++ [10%N])) = strip ([32; 9]%N ++ str "hi" ++ [10%N]).
Proof.
  pose proof (X1_strip_spec ([32; 9]%N ++ str "hi" ++ [10%N]))
    as (_ & Hhead & _ & Hidem).
  split; [|exact Hidem].
  apply (Hhead 104%N [105%N]). reflexivity.
Defined.

(** ** What the loop reads is normalized *)

Lemma strip_idem s : strip (strip s) = strip s.
Proof. apply strip_fix; [apply strip_head | apply strip_last]. Qed.

Lemma str_or_strip_normalized v d :
  normalized d -> normalized (str_or (strip v) d).
Proof.
  intros Hd. unfold str_or. destruct (strip v) as [|c t] eqn:Hv; [exact Hd|].
  simpl. split; [discriminate|]. rewrite <- Hv. apply strip_idem.
Qed.

Lemma normalized_af_heart : normalized (str "af_heart").
Proof. split; [discriminate | reflexivity]. Qed.

Lemma normalized_a : normalized (str "a").
Proof. split; [discriminate | reflexivity]. Qed.

Lemma norm_lang_normalized lang_code : normalized (norm_lang lang_code).
Proof. apply str_or_strip_normalized, normalized_a. Qed.

Lemma norm_lang_fix k : normalized k -> norm_lang k = k.
Proof.
  intros [Hne Hk]. unfold norm_lang, str_or.
  destruct k as [|c t]; [congruence|]. simpl str_empty. cbv iota.
  rewrite Hk. reflexivity.
Qed.

Lemma c0_7_in_range : speed_in_range F64.c0_7.
Proof. split; vm_compute; reflexivity. Qed.

Lemma c1_2_in_range : speed_in_range F64.c1_2.
Proof. split; vm_compute; reflexivity. Qed.

Lemma clamp_in_range s : speed_in_range (clamp_speed s).
Proof.
  unfold clamp_speed.
  destruct (F64.ltb s F64.c0_7) eqn:Hlo.
  - change (F64.ltb F64.c1_2 F64.c0_7) with false. cbv iota.
    apply c0_7_in_range.
  - destruct (F64.ltb F64.c1_2 s) eqn:Hhi; [apply c1_2_in_range|].
    split; assumption.
Qed.

Lemma clamp_fix s : speed_in_range s -> clamp_speed s = s.
Proof. intros [Hlo Hhi]. unfold clamp_speed. rewrite Hlo, Hhi. reflexivity. Qed.

(** X2. Whatever the request, the fields the loop reads from it are
    normalized: the text has no whitespace at its ends, the voice and the
    language code are non-empty and have none either (a blank one is
    replaced by its default), the speed is neither below 0.7 nor above 1.2.
    The normalization the pool applies again to the language code, and a
    second clamp of the speed, change nothing. *)
Theorem X2_fields_are_normalized (L : PyLib) (req : pyval) (rid : pystr)
    (rq : request) :
  read_fields req = (rid, Ok rq) ->
  strip (rq_text rq) = rq_text rq
  /\ normalized (rq_voice rq)
  /\ normalized (rq_lang_code rq)
  /\ norm_lang (rq_lang_code rq) = rq_lang_code rq
  /\ speed_in_range (rq_speed rq)
  /\ clamp_speed (rq_speed rq) = rq_speed rq.
Proof.
  destruct req as [| | | | | |d]; try discriminate.
  rewrite read_fields_dict.
  destruct (py_float _) as [speed|e]; [|discriminate].
  cbn [mbind result_bind]. intros [= _ <-]. cbn [rq_text rq_voice rq_lang_code rq_speed].
  pose proof (str_or_strip_normalized
                (py_str (get_or d (str "lang_code") (VStr (str "a"))))
                (str "a") normalized_a) as Hlang.
  split; [apply strip_idem|].
  split; [apply str_or_strip_normalized, normalized_af_heart|].
  split; [exact Hlang|].
  split; [apply norm_lang_fix, Hlang|].
  split; [apply clamp_in_range | apply clamp_fix, clamp_in_range].
Qed.

Lemma X2_witness :
  normalized (str "af_heart") /\ speed_in_range F64.c1_2
  /\ snd (read_fields (L := Stub.lib)
            (VDict [(str "voice", VStr (str "  ")); (str "speed", VFloat F64.c5_0)]))
     = Ok (Request empty_str (str "af_heart") (str "a") F64.c1_2).
Proof.
  pose proof (X2_fields_are_normalized Stub.lib
                (VDict [(str "voice", VStr (str "  ")); (str "speed", VFloat F64.c5_0)])
                empty_str (Request empty_str (str "af_heart") (str "a") F64.c1_2)
                eq_refl) as (_ & Hv & _ & _ & Hs & _).
  split; [exact Hv|]. split; [exact Hs | reflexivity].
Defined.

(** ** What the loop does with the engine *)

Section Events.
Context {L : PyLib} {E : Engine}.

Lemma call_count_app (a b : list event) :
  call_count (a ++ b) = (call_count a + call_count b)%nat.
Proof. unfold call_count. rewrite List.filter_app, length_app. reflexivity. Qed.

Lemma new_count_app (a b : list event) :
  new_count (a ++ b) = (new_count a + new_count b)%nat.
Proof. unfold new_count. rewrite List.filter_app, length_app. reflexivity. Qed.

Lemma acquired_events k w w' r :
  acquired k w w' r -> normalized k ->
  exists new, calls w' = calls w ++ new
              /\ call_count new = 0%nat /\ (new_count new <= 2)%nat
              /\ Forall event_ok new.
Proof.
  intros Ha Hk.
  destruct Ha; simpl; repeat rewrite <- app_assoc; simpl;
    (eexists; split; [reflexivity|]);
    (split; [reflexivity|]); (split; [unfold new_count; simpl; lia|]);
    repeat (apply List.Forall_cons; [exact Hk|]); apply List.Forall_nil.
Qed.

Lemma synthesize_events rq w :
  normalized (rq_text rq) -> normalized (rq_voice rq) ->
  speed_in_range (rq_speed rq) ->
  exists new, calls (fst (synthesize rq w)) = calls w ++ new /\ step_events new.
Proof.
  intros Ht Hv Hs. unfold synthesize.
  pose proof (get_pipeline_acquired (rq_lang_code rq) w) as Ha.
  destruct (acquired_events _ _ _ _ Ha (norm_lang_normalized _))
    as (new & Hnew & Hc & Hn & Hok).
  destruct (get_pipeline _ w) as [w1 [p|e]]; simpl in *.
  2: { exists new. split; [exact Hnew|]. split; [lia|]. split; assumption. }
  destruct (run_pipeline _ _ _ _ _ _) as [wd [chunks|e]]; simpl;
    (exists (new ++ [EvCall p (rq_text rq) (rq_voice rq) (rq_speed rq) (str "\n+")]);
     split; [rewrite Hnew, <- app_assoc; reflexivity|];
     split; [rewrite call_count_app; unfold call_count in *; simpl; lia|];
     split; [rewrite new_count_app; unfold new_count in *; simpl; lia|];
     apply Forall_app; split; [exact Hok|];
     apply List.Forall_cons; [|apply List.Forall_nil];
     simpl; auto).
Qed.

Lemma step_events_nil : step_events [].
Proof.
  split; [unfold call_count; simpl; lia|].
  split; [unfold new_count; simpl; lia | apply List.Forall_nil].
Qed.

Lemma respond_events line w :
  exists new, calls (fst (respond line w)) = calls w ++ new
              /\ step_events new
              /\ (forallb is_space line = true -> new = []).
Proof.
  assert (Hnil : exists new : list event,
             calls w = calls w ++ new /\ step_events new
             /\ (forallb is_space line = true -> new = [])).
  { exists []. rewrite app_nil_r. split; [reflexivity|].
    split; [apply step_events_nil | reflexivity]. }
  unfold respond. rewrite strip_blank.
  destruct (forallb is_space line) eqn:Hb; [exact Hnil|].
  destruct (json_loads (strip line)) as [req|exc]; [|exact Hnil].
  destruct (read_fields req) as [rid [rq|exc]] eqn:Hf; [|exact Hnil].
  destruct (str_empty (rq_text rq)) eqn:Ht; [exact Hnil|].
  assert (Hnorm : strip (rq_text rq) = rq_text rq /\ normalized (rq_voice rq)
                  /\ speed_in_range (rq_speed rq)).
  { destruct req as [| | | | | |d]; try discriminate.
    rewrite read_fields_dict in Hf.
    destruct (py_float _) as [speed|e]; [|discriminate].
    cbn [mbind result_bind] in Hf. injection Hf as _ <-.
    cbn [rq_text rq_voice rq_speed].
    split; [apply strip_idem|].
    split; [apply str_or_strip_normalized, normalized_af_heart|].
    apply clamp_in_range. }
  destruct Hnorm as (Hst & Hv & Hs).
  assert (Htext : normalized (rq_text rq)).
  { split; [destruct (rq_text rq); [discriminate | discriminate] | exact Hst]. }
  destruct (synthesize_events rq w Htext Hv Hs) as (new & Hnew & Hstep).
  destruct (synthesize rq w) as [w' [wav|exc]]; simpl in *;
    (exists new; split; [exact Hnew|]; split; [exact Hstep | discriminate]).
Qed.

Lemma handle_line_events line w :
  exists new, calls (handle_line line w) = calls w ++ new
              /\ step_events new
              /\ (forallb is_space line = true -> new = []).
Proof.
  unfold handle_line. pose proof (respond_events line w) as Hr.
  destruct (respond line w) as [w' [r|]]; exact Hr.
Qed.

Lemma main_loop_events stdin w :
  exists new, calls (main_loop stdin w) = calls w ++ new
              /\ Forall event_ok new
              /\ (call_count new <= length (requests stdin))%nat
              /\ (new_count new <= 2 * length (requests stdin))%nat.
Proof.
  revert w. induction stdin as [|line stdin IH]; intros w.
  - exists []. rewrite app_nil_r. simpl.
    split; [reflexivity|]. split; [apply List.Forall_nil|].
    unfold call_count, new_count. simpl. split; lia.
  - rewrite main_loop_cons.
    destruct (handle_line_events line w) as (n1 & H1 & (Hc1 & Hn1 & Hok1) & Hblank).
    destruct (IH (handle_line line w)) as (n2 & H2 & Hok2 & Hc2 & Hn2).
    exists (n1 ++ n2). rewrite H2, H1, <- app_assoc.
    split; [reflexivity|]. split; [apply Forall_app; split; assumption|].
    rewrite call_count_app, new_count_app. unfold requests in *. simpl.
    destruct (forallb is_space line) eqn:Hb; simpl.
    + rewrite (Hblank eq_refl) in *.
      unfold call_count, new_count in *. simpl in *. split; lia.
    + split; lia.
Qed.

End Events.

(** A speed that is neither below 0.7 nor above 1.2 is inside the
    interval, unless it is a NaN. *)
Lemma in_range_within s : speed_in_range s -> s = S754_nan \/ within_range s.
Proof.
  intros [Hlo Hhi].
  destruct s as [sg|sg| |sg m e]; [right|right|left; reflexivity|right];
    (split; apply not_ltb_leb; try discriminate; assumption).
Qed.

(** X3. Over any input the loop hands to the engine and to its pool only
    normalized arguments: every language code looked up or constructed is
    non-empty and stripped, and every call of an instance has a text and a
    voice that are non-empty and stripped, a speed neither below 0.7 nor
    above 1.2, and the split pattern of line 120. Such a speed is inside
    the interval from 0.7 to 1.2 or is a NaN, which the two comparisons of
    the clamp let through. *)
Theorem X3_engine_gets_normalized_arguments (L : PyLib) (E : Engine)
    (stdin : list pystr) (w : worker) :
  exists new,
    calls (main_loop stdin w) = calls w ++ new
    /\ Forall event_ok new
    /\ (forall p text voice s pat,
           In (EvCall p text voice s pat) new ->
           s = S754_nan \/ within_range s).
Proof.
  destruct (main_loop_events stdin w) as (new & Hnew & Hok & _).
  exists new. split; [exact Hnew|]. split; [exact Hok|].
  intros p text voice s pat Hin.
  apply (proj1 (List.Forall_forall _ _) Hok) in Hin.
  apply in_range_within, Hin.
Qed.

(** X4. The loop calls an engine instance at most once, and an engine
    constructor at most twice, per non-blank input line; blank lines cause
    no call at all. *)
Theorem X4_engine_calls_bounded (L : PyLib) (E : Engine)
    (stdin : list pystr) (w : worker) :
  (call_count (calls (main_loop stdin w))
   <= call_count (calls w) + length (requests stdin))%nat
  /\ (new_count (calls (main_loop stdin w))
      <= new_count (calls w) + 2 * length (requests stdin))%nat.
Proof.
  destruct (main_loop_events stdin w) as (new & -> & _ & Hc & Hn).
  rewrite call_count_app, new_count_app. split; lia.
Qed.

(** ** Blank lines and the order of the output *)

Section Stream.
Context {L : PyLib} {E : Engine}.

Lemma handle_line_blank line w :
  forallb is_space line = true -> handle_line line w = w.
Proof. intros Hb. unfold handle_line. rewrite respond_blank by exact Hb. reflexivity. Qed.

Lemma responses_write_line r stdin w :
  responses stdin (write_line r w) = responses stdin w.
Proof.
  revert w. induction stdin as [|line rest IH]; intros w; [reflexivity|].
  simpl. rewrite respond_write_line.
  destruct (respond line w) as [w' [r'|]]; simpl; rewrite IH; reflexivity.
Qed.

Lemma main_loop_responses stdin w :
  json_out (main_loop stdin w)
  = json_out w ++ map (fun r => json_dumps r ++ [10%N]) (responses stdin w).
Proof.
  revert w. induction stdin as [|line rest IH]; intros w.
  - simpl. rewrite app_nil_r. reflexivity.
  - rewrite main_loop_cons, IH. unfold handle_line. simpl responses.
    pose proof (respond_blank line w) as Hblank.
    pose proof (respond_some line w) as Hsome.
    destruct (respond line w) as [w' [r|]].
    + rewrite responses_write_line. simpl. rewrite <- app_assoc. simpl.
      destruct (forallb is_space line); [specialize (Hblank eq_refl); discriminate|].
      destruct (Hsome eq_refl) as (w1 & r1 & [= <- <-] & Ho & _).
      rewrite Ho. reflexivity.
    + destruct (forallb is_space line);
        [specialize (Hblank eq_refl) as [= <-]; reflexivity|].
      destruct (Hsome eq_refl) as (w1 & r1 & [=] & _).
Qed.

Lemma responses_shape stdin w : Forall is_response (responses stdin w).
Proof.
  revert w. induction stdin as [|line rest IH]; intros w; [apply List.Forall_nil|].
  simpl. pose proof (respond_blank line w) as Hblank.
  pose proof (respond_some line w) as Hsome.
  destruct (respond line w) as [w' [r|]]; [|apply IH].
  apply List.Forall_cons; [|apply IH].
  destruct (forallb is_space line); [specialize (Hblank eq_refl); discriminate|].
  destruct (Hsome eq_refl) as (w1 & r1 & [= <- <-] & _ & Hr). exact Hr.
Qed.

Lemma response_scalars r :
  is_response r -> Forall (fun kv => scalar_ok (snd kv)) r.
Proof.
  intros [rid [[b ->] | [m ->]]]; unfold success_resp, failure_resp;
    repeat (apply List.Forall_cons;
            [first [apply scalar_ok_str | apply scalar_ok_bool | apply scalar_ok_24000]|]);
    apply List.Forall_nil.
Qed.

Lemma get_pipeline_ext lang_code w1 w2 :
  same_engine w1 w2 ->
  same_engine (fst (get_pipeline lang_code w1)) (fst (get_pipeline lang_code w2))
  /\ snd (get_pipeline lang_code w1) = snd (get_pipeline lang_code w2).
Proof.
  destruct w1 as [p1 wd1 o1 c1], w2 as [p2 wd2 o2 c2].
  intros (Hp & Hw & Hc). simpl in Hp, Hw, Hc. subst p2 wd2 c2.
  unfold get_pipeline, same_engine. simpl.
  destruct (p1 !! norm_lang lang_code); [simpl; auto|].
  destruct (KPipeline_repo _ _ _) as [wd [p|e1]]; simpl; [auto|].
  destruct (is_TypeError e1); [|simpl; auto].
  destruct (KPipeline_lang _ _) as [wd' [p|e2]]; simpl; auto.
Qed.

Lemma synthesize_ext rq w1 w2 :
  same_engine w1 w2 ->
  same_engine (fst (synthesize rq w1)) (fst (synthesize rq w2))
  /\ snd (synthesize rq w1) = snd (synthesize rq w2).
Proof.
  intros Hs. unfold synthesize.
  destruct (get_pipeline_ext (rq_lang_code rq) w1 w2 Hs) as [Hg Hr].
  destruct (get_pipeline _ w1) as [u1 r1], (get_pipeline _ w2) as [u2 r2].
  simpl in Hg, Hr. subst r2.
  destruct r1 as [p|e]; [|simpl; auto].
  destruct Hg as (Hp & Hw & Hc). rewrite Hw, Hc.
  destruct (run_pipeline _ _ _ _ _ _) as [wd [chunks|e]];
    simpl; unfold same_engine; simpl; auto.
Qed.

Lemma respond_ext line w1 w2 :
  same_engine w1 w2 ->
  same_engine (fst (respond line w1)) (fst (respond line w2))
  /\ snd (respond line w1) = snd (respond line w2).
Proof.
  intros Hs. unfold respond.
  destruct (str_empty (strip line)); [simpl; auto|].
  destruct (json_loads (strip line)) as [req|exc]; [|simpl; auto].
  destruct (read_fields req) as [rid [rq|exc]]; [|simpl; auto].
  destruct (str_empty (rq_text rq)); [simpl; auto|].
  destruct (synthesize_ext rq w1 w2 Hs) as [Hg Hr].
  destruct (synthesize rq w1) as [u1 r1], (synthesize rq w2) as [u2 r2].
  simpl in Hg, Hr. subst r2. destruct r1; simpl; auto.
Qed.

Lemma handle_line_ext line w1 w2 :
  same_engine w1 w2 -> same_engine (handle_line line w1) (handle_line line w2).
Proof.
  intros Hs. unfold handle_line.
  destruct (respond_ext line w1 w2 Hs) as [Hg Hr].
  destruct (respond line w1) as [u1 r1], (respond line w2) as [u2 r2].
  simpl in Hg, Hr. subst r2. destruct r1; [|exact Hg].
  unfold same_engine, write_line in *. simpl. exact Hg.
Qed.

Lemma main_loop_ext stdin w1 w2 :
  same_engine w1 w2 -> same_engine (main_loop stdin w1) (main_loop stdin w2).
Proof.
  revert w1 w2. induction stdin as [|line rest IH]; intros w1 w2 Hs; [exact Hs|].
  rewrite !main_loop_cons. apply IH, handle_line_ext, Hs.
Qed.

Lemma responses_ext stdin w1 w2 :
  same_engine w1 w2 -> responses stdin w1 = responses stdin w2.
Proof.
  revert w1 w2. induction stdin as [|line rest IH]; intros w1 w2 Hs; [reflexivity|].
  simpl. destruct (respond_ext line w1 w2 Hs) as [Hg Hr].
  destruct (respond line w1) as [u1 r1], (respond line w2) as [u2 r2].
  simpl in Hg, Hr. subst r2. rewrite (IH u1 u2 Hg). reflexivity.
Qed.

Lemma same_engine_handle_line line w :
  same_engine (handle_line line w) (fst (respond line w)).
Proof.
  unfold handle_line. destruct (respond line w) as [w' [r|]];
    unfold same_engine; simpl; auto.
Qed.

Lemma responses_app stdin post w :
  responses (stdin ++ post) w
  = responses stdin w ++ responses post (main_loop stdin w).
Proof.
  revert w. induction stdin as [|line rest IH]; intros w; [reflexivity|].
  rewrite main_loop_cons. simpl.
  pose proof (same_engine_handle_line line w) as Hs.
  destruct (respond line w) as [w' r]. simpl in Hs.
  rewrite (responses_ext post _ _ (main_loop_ext rest _ _ Hs)).
  destruct r; rewrite IH; reflexivity.
Qed.

End Stream.

(** X5. Blank and whitespace-only lines are ignored altogether: handling
    one leaves the whole state of the worker as it was, so an input and the
    same input without its blank lines lead to the same state and output. *)
Theorem X5_blank_lines_are_ignored (L : PyLib) (E : Engine)
    (stdin : list pystr) (w : worker) :
  main_loop stdin w = main_loop (requests stdin) w.
Proof.
  revert w. induction stdin as [|line rest IH]; intros w; [reflexivity|].
  rewrite main_loop_cons. unfold requests. simpl.
  destruct (forallb is_space line) eqn:Hb; simpl.
  - rewrite (handle_line_blank line w Hb). apply IH.
  - rewrite IH. reflexivity.
Qed.

(** X6. The output of the loop is the list of its responses in the order of
    the input lines, one line [json.dumps(resp) + newline] each, after what
    was on the channel before; and what has been written does not influence
    the responses that follow. *)
Theorem X6_output_is_responses_in_order (L : PyLib) (E : Engine)
    (stdin : list pystr) (w : worker) :
  json_out (main_loop stdin w)
  = json_out w ++ map (fun r => json_dumps r ++ [10%N]) (responses stdin w)
  /\ length (responses stdin w) = length (requests stdin)
  /\ (forall r, responses stdin (write_line r w) = responses stdin w)
  /\ (forall post,
         responses (stdin ++ post) w
         = responses stdin w ++ responses post (main_loop stdin w)).
Proof.
  split; [apply main_loop_responses|].
  split.
  { destruct (main_loop_output stdin w) as (out & Ho & _ & Hlen).
    rewrite main_loop_responses in Ho. apply app_inv_head in Ho.
    rewrite <- Hlen, <- Ho, length_map. reflexivity. }
  split; [intros r; apply responses_write_line|].
  intros post. apply responses_app.
Qed.

(** X7. Every line the loop writes consists of printable ASCII characters
    (codes 32 to 126) followed by one newline, whatever characters the
    request, its identifier or the error message contain: [json.dumps]
    escapes everything else. *)
Theorem X7_output_is_ascii (L : PyLib) (E : Engine)
    (stdin : list pystr) (w : worker) :
  exists out, json_out (main_loop stdin w) = json_out w ++ out
              /\ Forall ascii_line out.
Proof.
  exists (map (fun r => json_dumps r ++ [10%N]) (responses stdin w)).
  split; [apply main_loop_responses|].
  pose proof (responses_shape stdin w) as Hall.
  induction Hall as [|r rs Hr _ IH]; [apply List.Forall_nil|].
  simpl. apply List.Forall_cons; [|exact IH].
  exists (json_dumps r). split; [reflexivity|].
  apply dumps_printable, response_scalars, Hr.
Qed.

(** ** The success path *)

Lemma audio_parts_silent chunks :
  Forall (fun c => c = None \/ c = Some []) chunks ->
  concat (audio_parts chunks) = [].
Proof.
  induction 1 as [|c chunks [-> | ->] _ IH]; simpl; try exact IH. reflexivity.
Qed.

Lemma wav_bytes_24000 {L : PyLib} (a : list f32) :
  2 * Z.of_nat (length a) + 36 < 4294967296 ->
  wav_bytes_from_float32_mono a 24000
  = Ok (wav_header 24000 (2 * Z.of_nat (length a)) ++ pcm_bytes a).
Proof.
  intros Hn. unfold wav_bytes_from_float32_mono.
  change (24000 <=? 0) with false. cbv iota.
  rewrite wave_file_ok; rewrite ?pcm_bytes_length; try lia.
  replace (Z.of_nat (2 * length a)) with (2 * Z.of_nat (length a)) by lia.
  reflexivity.
Qed.

(** X8. When the engine is acquired and its call returns, the request gets
    the success response whose [audio_base64] is the base64 text of the WAV
    file of the chunks that carry audio, concatenated in the order they
    were yielded, provided the payload fits the 32-bit length fields of the
    container. Chunks without audio are skipped; if no chunk carries
    samples the file is the bare 44-byte header, still a success. *)
Theorem X8_synthesis_success_response (L : PyLib) (E : Engine)
    (line : pystr) (w w1 : worker) (req : pyval) (rid : pystr) (rq : request)
    (p : Handle) (wd : World) (chunks : list (option (list f32))) :
  forallb is_space line = false ->
  json_loads (strip line) = Ok req ->
  read_fields req = (rid, Ok rq) ->
  rq_text rq <> [] ->
  get_pipeline (rq_lang_code rq) w = (w1, Ok p) ->
  run_pipeline p (rq_text rq) (rq_voice rq) (rq_speed rq) (str "\n+") (world w1)
  = (wd, Ok chunks) ->
  let audio := concat (audio_parts chunks) in
  2 * Z.of_nat (length audio) + 36 < 4294967296 ->
  snd (respond line w)
  = Some (success_resp rid
            (b64encode (wav_header 24000 (2 * Z.of_nat (length audio))
                        ++ pcm_bytes audio)))
  /\ (Forall (fun c => c = None \/ c = Some []) chunks ->
      snd (respond line w)
      = Some (success_resp rid (b64encode (wav_header 24000 0)))).
Proof.
  intros Hb Hl Hf Ht Hg Hrun audio Hlen.
  assert (Hresp : snd (respond line w)
                  = Some (success_resp rid
                            (b64encode (wav_header 24000 (2 * Z.of_nat (length audio))
                                        ++ pcm_bytes audio)))).
  { unfold respond. rewrite strip_blank, Hb, Hl, Hf.
    destruct (rq_text rq) as [|c t] eqn:Htext; [congruence|]. cbn [str_empty].
    unfold synthesize. rewrite Hg, Htext, Hrun. fold audio.
    rewrite (wav_bytes_24000 audio Hlen). reflexivity. }
  split; [exact Hresp|].
  intros Hsilent. rewrite Hresp.
  subst audio. rewrite (audio_parts_silent chunks Hsilent). reflexivity.
Qed.

Lemma X8_witness :
  snd (respond (L := Stub.lib) Stub.line_fast Stub.w0)
  = Some (success_resp (str "6")
            (b64encode (wav_header 24000 6 ++ [255; 31; 255; 127; 1; 128]))).
Proof.
  refine (proj1 (X8_synthesis_success_response Stub.lib Stub.engine
                   Stub.line_fast Stub.w0 _ _ (str "6")
                   (Request (str "hi") (str "af_heart") (str "a") F64.c1_2)
                   (str "a") 1%nat
                   [Some [f32_quarter]; None; Some [f32_1_5; f32_minus_2]]
                   eq_refl eq_refl eq_refl _ eq_refl eq_refl _)).
  - discriminate.
  - reflexivity.
Defined.

(** ** The keys of the cache *)

Section Keys.
Context {L : PyLib} {E : Engine}.

Lemma get_pipeline_keys lang_code w :
  keys_ok w -> keys_ok (fst (get_pipeline lang_code w)).
Proof.
  intros Hw. pose proof (get_pipeline_acquired lang_code w) as Ha.
  pose proof (norm_lang_normalized lang_code) as Hk.
  destruct Ha; unfold keys_ok; simpl; try exact Hw;
    (intros k' p'; destruct (decide (norm_lang lang_code = k')) as [<-|Hne];
     [intros _; exact Hk | rewrite lookup_insert_ne by exact Hne; apply Hw]).
Qed.

Lemma pipelines_step line w :
  pipelines (handle_line line w) = pipelines w
  \/ exists lang_code,
      pipelines (handle_line line w) = pipelines (fst (get_pipeline lang_code w)).
Proof.
  unfold handle_line, respond.
  destruct (str_empty (strip line)); [left; reflexivity|].
  destruct (json_loads (strip line)) as [req|exc]; [|left; reflexivity].
  destruct (read_fields req) as [rid [rq|exc]]; [|left; reflexivity].
  destruct (str_empty (rq_text rq)); [left; reflexivity|].
  right. exists (rq_lang_code rq). unfold synthesize.
  destruct (get_pipeline (rq_lang_code rq) w) as [w1 [p|e]]; [|reflexivity].
  destruct (run_pipeline _ _ _ _ _ _) as [wd [chunks|e]]; simpl;
    [destruct (wav_bytes_from_float32_mono _ _)|]; reflexivity.
Qed.

Lemma handle_line_keys line w : keys_ok w -> keys_ok (handle_line line w).
Proof.
  intros Hw. unfold keys_ok.
  destruct (pipelines_step line w) as [-> | [lang_code ->]];
    [exact Hw | apply get_pipeline_keys, Hw].
Qed.

End Keys.

(** X9. From the start of the process on, every key of the engine cache is
    a normalized language code, non-empty and without whitespace at its
    ends: two spellings of a language that differ only in such whitespace
    share one entry, and a blank code shares the entry of the default. *)
Theorem X9_cache_keys_are_normalized (L : PyLib) (E : Engine)
    (stdin : list pystr) (wd : World) (k : pystr) (p : Handle) :
  pipelines (main_loop stdin (init_worker wd)) !! k = Some p ->
  k <> [] /\ strip k = k /\ norm_lang k = k.
Proof.
  assert (Hloop : forall w, keys_ok w -> keys_ok (main_loop stdin w)).
  { induction stdin as [|line rest IH]; intros w Hw; [exact Hw|].
    rewrite main_loop_cons. apply IH, handle_line_keys, Hw. }
  intros Hk.
  assert (Hn : normalized k).
  { apply (Hloop (init_worker wd)) with (p := p); [|exact Hk].
    intros k' p'. simpl. rewrite lookup_empty. discriminate. }
  destruct Hn as [Hne Hs]. split; [exact Hne|]. split; [exact Hs|].
  apply norm_lang_fix. split; assumption.
Qed.

Lemma X9_witness :
  strip (str "b") = str "b"
  /\ pipelines (main_loop (L := Stub.lib) [Stub.line_bad_voice] Stub.w0)
     !! str "b" = Some (str "b").
Proof.
  assert (Hk : pipelines (main_loop (L := Stub.lib) [Stub.line_bad_voice] Stub.w0)
               !! str "b" = Some (str "b")) by reflexivity.
  split; [|exact Hk].
  apply (X9_cache_keys_are_normalized Stub.lib Stub.engine
           [Stub.line_bad_voice] 0%nat (str "b") (str "b") Hk).
Defined.

(** ** Base64 *)

Lemma bytes_ind3 (P : bytes -> Prop) :
  P [] -> (forall a, P [a]) -> (forall a b, P [a; b]) ->
  (forall a b c r, P r -> P (a :: b :: c :: r)) ->
  forall l, P l.
Proof.
  intros H0 H1 H2 H3 l.
  assert (H : P l /\ (forall a, P (a :: l)) /\ (forall a b, P (a :: b :: l))).
  { induction l as [|x l (IH0 & IH1 & IH2)]; [auto|].
    split; [apply IH1|]. split; [intros a; apply IH2|].
    intros a b. apply H3, IH0. }
  apply H.
Qed.

Lemma b64encode_length l :
  length (b64encode l) = (4 * ((length l + 2) / 3))%nat.
Proof.
  induction l as [| | |a b c r IH] using bytes_ind3;
    [reflexivity | reflexivity | reflexivity |].
  change (b64encode (a :: b :: c :: r))
    with ([b64_char (a / 4); b64_char (a mod 4 * 16 + b / 16);
           b64_char (b mod 16 * 4 + c / 64); b64_char (c mod 64)] ++ b64encode r).
  rewrite length_app, IH. cbn [length].
  replace (S (S (S (length r))) + 2)%nat with (1 * 3 + (length r + 2))%nat by lia.
  rewrite Nat.div_add_l by lia. lia.
Qed.

Lemma b64_char_plain i : b64_plain (b64_char i).
Proof.
  unfold b64_char.
  destruct (nth_in_or_default (Z.to_nat i) b64_alphabet 61%N) as [Hin | ->];
    [|reflexivity].
  revert Hin. generalize (nth (Z.to_nat i) b64_alphabet 61%N). intros c Hin.
  assert (Hall : Forall b64_plain b64_alphabet).
  { let l := eval vm_compute in b64_alphabet in change b64_alphabet with l.
    repeat (apply List.Forall_cons; [reflexivity|]). apply List.Forall_nil. }
  rewrite Forall_forall in Hall. apply Hall, list_elem_of_In, Hin.
Qed.

Lemma b64encode_plain l : Forall b64_plain (b64encode l).
Proof.
  induction l as [| | |a b c r IH] using bytes_ind3.
  - apply List.Forall_nil.
  - simpl. repeat (apply List.Forall_cons; [first [apply b64_char_plain | reflexivity]|]).
    apply List.Forall_nil.
  - simpl. repeat (apply List.Forall_cons; [first [apply b64_char_plain | reflexivity]|]).
    apply List.Forall_nil.
  - change (b64encode (a :: b :: c :: r))
      with ([b64_char (a / 4); b64_char (a mod 4 * 16 + b / 16);
             b64_char (b mod 16 * 4 + c / 64); b64_char (c mod 64)] ++ b64encode r).
    apply Forall_app. split; [|exact IH].
    repeat (apply List.Forall_cons; [apply b64_char_plain|]). apply List.Forall_nil.
Qed.

Lemma flat_map_plain s : Forall b64_plain s -> flat_map escape_char s = s.
Proof.
  induction 1 as [|c s Hc _ IH]; [reflexivity|].
  simpl. rewrite Hc, IH. reflexivity.
Qed.

(** X10. The base64 text of [n] bytes has 4 * ceil(n / 3) characters, and
    [json.dumps] writes it between the quotes as it is: none of its
    characters needs an escape. *)
Theorem X10_base64_text_shape (l : bytes) :
  length (b64encode l) = (4 * ((length l + 2) / 3))%nat
  /\ encode_basestring_ascii (b64encode l) = [34%N] ++ b64encode l ++ [34%N]
  /\ dumps_scalar (SStr (b64encode l)) = [34%N] ++ b64encode l ++ [34%N].
Proof.
  assert (H : encode_basestring_ascii (b64encode l) = [34%N] ++ b64encode l ++ [34%N]).
  { unfold encode_basestring_ascii.
    rewrite (flat_map_plain _ (b64encode_plain l)). reflexivity. }
  split; [apply b64encode_length|]. split; exact H.
Qed.


Lemma b64_index_char i :
  0 <= i < 64 ->
  b64_index (b64_char i) = Some i /\ (b64_char i =? 61)%N = false.
Proof.
  intros Hi.
  assert (H : forall n, (n < 64)%nat ->
                        b64_index (b64_char (Z.of_nat n)) = Some (Z.of_nat n)
                        /\ (b64_char (Z.of_nat n) =? 61)%N = false).
  { intros n Hn.
    do 64 (destruct n as [|n]; [split; vm_compute; reflexivity|]). lia. }
  specialize (H (Z.to_nat i) ltac:(lia)).
  rewrite Z2Nat.id in H by lia. exact H.
Qed.

Ltac b64_index_step :=
  match goal with
  | |- context [b64_index (b64_char ?i)] =>
      let H := fresh in
      assert (H : 0 <= i < 64) by (Z.div_mod_to_equations; lia);
      rewrite (proj1 (b64_index_char i H)); clear H
  | |- context [(b64_char ?i =? 61)%N] =>
      let H := fresh in
      assert (H : 0 <= i < 64) by (Z.div_mod_to_equations; lia);
      rewrite (proj2 (b64_index_char i H)); clear H
  end.

Lemma b64decode_encode l :
  Forall is_byte l -> b64decode (b64encode l) = Some l.
Proof.
  induction l as [|a|a b|a b c r IH] using bytes_ind3; intros Hl.
  - reflexivity.
  - inversion Hl as [|? ? Ha _]; subst. unfold is_byte in Ha.
    cbn [b64encode b64decode]. repeat b64_index_step.
    cbn [mbind option_bind]. change (61 =? 61)%N with true. cbv iota.
    do 2 f_equal. Z.div_mod_to_equations; lia.
  - inversion Hl as [|? ? Ha Hl']; subst. inversion Hl' as [|? ? Hb _]; subst.
    unfold is_byte in Ha, Hb.
    cbn [b64encode b64decode]. repeat b64_index_step.
    cbn [mbind option_bind]. change (61 =? 61)%N with true. cbv iota.
    repeat b64_index_step. cbn [mbind option_bind].
    f_equal. f_equal; [|f_equal]; Z.div_mod_to_equations; lia.
  - inversion Hl as [|? ? Ha Hl1]; subst. inversion Hl1 as [|? ? Hb Hl2]; subst.
    inversion Hl2 as [|? ? Hc Hr]; subst.
    unfold is_byte in Ha, Hb, Hc.
    change (b64encode (a :: b :: c :: r))
      with ([b64_char (a / 4); b64_char (a mod 4 * 16 + b / 16);
             b64_char (b mod 16 * 4 + c / 64); b64_char (c mod 64)] ++ b64encode r).
    cbn [app b64decode]. repeat b64_index_step.
    cbn [mbind option_bind]. rewrite (IH Hr). cbn [mbind option_bind app].
    f_equal. f_equal; [|f_equal; [|f_equal]]; Z.div_mod_to_equations; lia.
Qed.

Section Bytes.
Context {L : PyLib}.

Lemma le16_bytes z : Forall is_byte (le16 z).
Proof.
  unfold le16, is_byte.
  repeat (apply List.Forall_cons; [apply Z.mod_pos_bound; lia|]). apply List.Forall_nil.
Qed.

Lemma le32_bytes z : Forall is_byte (le32 z).
Proof.
  unfold le32, is_byte.
  repeat (apply List.Forall_cons; [apply Z.mod_pos_bound; lia|]). apply List.Forall_nil.
Qed.

Lemma bstr_bytes s : Forall is_byte (bstr s).
Proof.
  unfold bstr. induction (list_ascii_of_string s) as [|a l IH]; [apply List.Forall_nil|].
  simpl. apply List.Forall_cons; [|exact IH].
  unfold is_byte. pose proof (N_ascii_bounded a). lia.
Qed.

Lemma pack_L_bytes z b : pack_L z = Ok b -> Forall is_byte b.
Proof.
  unfold pack_L. destruct (_ && _); [|discriminate].
  intros [= <-]. apply le32_bytes.
Qed.

Lemma pack_H_bytes z b : pack_H z = Ok b -> Forall is_byte b.
Proof.
  unfold pack_H. destruct (_ && _); [|discriminate].
  intros [= <-]. apply le16_bytes.
Qed.

Lemma pcm_bytes_bytes a : Forall is_byte (pcm_bytes a).
Proof.
  rewrite pcm_bytes_map. induction a as [|x a IH]; [apply List.Forall_nil|].
  cbn [flat_map]. apply Forall_app. split; [apply le16_bytes | exact IH].
Qed.

Lemma Ok_inj {A} (x y : A) : Ok x = Ok y -> x = y.
Proof. intros [= ->]. reflexivity. Qed.

Ltac pack_step :=
  match goal with
  | |- context [pack_L ?z] =>
      let H := fresh "Hp" in
      destruct (pack_L z) eqn:H; [apply pack_L_bytes in H | discriminate]
  | |- context [pack_H ?z] =>
      let H := fresh "Hp" in
      destruct (pack_H z) eqn:H; [apply pack_H_bytes in H | discriminate]
  end; cbn [mbind result_bind].

Lemma wave_file_bytes nch sw rate frames b :
  Forall is_byte frames -> wave_file nch sw rate frames = Ok b -> Forall is_byte b.
Proof.
  intros Hf. unfold wave_file. repeat pack_step.
  intros Hb. apply Ok_inj in Hb. subst b.
  repeat (apply Forall_app; split; [first [assumption | apply bstr_bytes]|]).
  exact Hf.
Qed.

End Bytes.

(** X11. Base64 loses nothing: the standard decoding of the text gives back
    the bytes, so different byte strings have different texts. In
    particular the file the encoder returns consists of bytes and is
    recovered from the [audio_base64] of the response. *)
Theorem X11_base64_round_trip (L : PyLib) :
  (forall l, Forall is_byte l -> b64decode (b64encode l) = Some l)
  /\ (forall l1 l2, Forall is_byte l1 -> Forall is_byte l2 ->
                    b64encode l1 = b64encode l2 -> l1 = l2)
  /\ (forall a sample_rate b,
         wav_bytes_from_float32_mono a sample_rate = Ok b ->
         Forall is_byte b /\ b64decode (b64encode b) = Some b).
Proof.
  split; [exact b64decode_encode|]. split.
  - intros l1 l2 H1 H2 Heq.
    pose proof (b64decode_encode l1 H1) as Hd. rewrite Heq in Hd.
    rewrite (b64decode_encode l2 H2) in Hd. congruence.
  - intros a sample_rate b Hb.
    assert (Hbytes : Forall is_byte b).
    { unfold wav_bytes_from_float32_mono in Hb.
      exact (wave_file_bytes _ _ _ _ _ (pcm_bytes_bytes a) Hb). }
    split; [exact Hbytes | apply b64decode_encode, Hbytes].
Qed.

Lemma X11_witness :
  b64decode (b64encode (bstr "Ma")) = Some (bstr "Ma")
  /\ b64decode (b64encode (wav_header 24000 0)) = Some (wav_header 24000 0).
Proof.
  pose proof (X11_base64_round_trip Stub.lib) as (Hrt & _ & Hwav).
  split.
  - apply Hrt. apply bstr_bytes.
  - apply (Hwav [] 24000 (wav_header 24000 0)). reflexivity.
Defined.

(** ** The file the encoder returns *)

Section File.
Context {L : PyLib}.

Lemma pack_L_inv z b : pack_L z = Ok b -> b = le32 z /\ 0 <= z < 4294967296.
Proof.
  unfold pack_L. destruct (Z.leb_spec 0 z), (Z.ltb_spec z 4294967296);
    simpl; try discriminate.
  intros Hb. apply Ok_inj in Hb. split; [congruence | lia].
Qed.

Lemma pack_H_inv z b : pack_H z = Ok b -> b = le16 z /\ 0 <= z < 65536.
Proof.
  unfold pack_H. destruct (Z.leb_spec 0 z), (Z.ltb_spec z 65536);
    simpl; try discriminate.
  intros Hb. apply Ok_inj in Hb. split; [congruence | lia].
Qed.

Ltac pack_inv :=
  match goal with
  | |- context [pack_L ?z] =>
      let H := fresh "Hp" in
      destruct (pack_L z) eqn:H; [apply pack_L_inv in H as [-> H] | discriminate]
  | |- context [pack_H ?z] =>
      let H := fresh "Hp" in
      destruct (pack_H z) eqn:H; [apply pack_H_inv in H as [-> H] | discriminate]
  end; cbn [mbind result_bind].

Lemma wave_file_inv rate frames b :
  wave_file 1 2 rate frames = Ok b ->
  b = wav_header rate (Z.of_nat (length frames)) ++ frames
  /\ 0 <= rate /\ rate * 2 < 4294967296
  /\ 36 + Z.of_nat (length frames) < 4294967296.
Proof.
  unfold wave_file. repeat pack_inv.
  intros Hb. apply Ok_inj in Hb. subst b.
  split; [|lia]. unfold wav_header.
  replace (1 * rate * 2) with (rate * 2) by lia.
  change (1 * 2) with 2. change (2 * 8) with 16.
  repeat rewrite <- app_assoc. reflexivity.
Qed.

Lemma header_fields_sizes rate n (rest : bytes) :
  0 <= rate * 2 < 4294967296 -> 0 <= 36 + n < 4294967296 ->
  let b := wav_header rate n ++ rest in
  field b 4 4 = 36 + n /\ field b 28 4 = rate * 2 /\ field b 32 2 = 2.
Proof.
  intros Hr Hn b. subst b. unfold field, wav_header.
  split; [|split; [|reflexivity]].
  - change (le_decode (le32 (36 + n)) = 36 + n). apply le_decode_le32, Hn.
  - change (le_decode (le32 (rate * 2)) = rate * 2). apply le_decode_le32, Hr.
Qed.

Lemma le_decode_le16_mod z : le_decode (le16 z) = z mod 65536.
Proof. unfold le16, le_decode. Z.div_mod_to_equations. lia. Qed.

Lemma payload_sample (a : list f32) (i : nat) x :
  a !! i = Some x ->
  le_decode (take 2 (drop (2 * i) (pcm_bytes a))) = pcm_sample x mod 65536.
Proof.
  rewrite pcm_bytes_map. revert i. induction a as [|y a IH]; intros i Hi.
  - rewrite lookup_nil in Hi. discriminate.
  - destruct i as [|i].
    + simpl in Hi. injection Hi as ->. cbn [flat_map].
      change (take 2 (drop (2 * 0) (int16_le (pcm_sample x) ++ ?r)))
        with (le16 (pcm_sample x)).
      apply le_decode_le16_mod.
    + simpl in Hi. cbn [flat_map].
      replace (2 * S i)%nat with (S (S (2 * i))) by lia.
      change (drop (S (S (2 * i))) (int16_le (pcm_sample y) ++ ?r))
        with (drop (2 * i) r).
      apply IH, Hi.
Qed.

End File.

(** X12. Whenever the encoder returns a file, the file is consistent with
    itself: 44 bytes of header and two bytes per sample; the RIFF size
    field is the length of the file less 8 and the data size field the
    length less 44; the byte rate is twice the sample rate and the block
    alignment is 2; after the header comes the payload, in which the two
    bytes at offset 44 + 2i are the 16-bit two's complement, little endian,
    of the value computed for sample i. *)
Theorem X12_wav_file_is_consistent (L : PyLib) (a : list f32)
    (sample_rate : Z) (b : bytes) :
  wav_bytes_from_float32_mono a sample_rate = Ok b ->
  let rate := if sample_rate <=? 0 then 24000 else sample_rate in
  length b = (44 + 2 * length a)%nat
  /\ field b 4 4 = Z.of_nat (length b) - 8
  /\ field b 24 4 = rate
  /\ field b 28 4 = 2 * rate
  /\ field b 32 2 = 2
  /\ field b 40 4 = Z.of_nat (length b) - 44
  /\ drop 44 b = pcm_bytes a
  /\ (forall (i : nat) x,
         a !! i = Some x ->
         field b (44 + 2 * i) 2 = pcm_sample x mod 65536).
Proof.
  intros Hb rate. unfold wav_bytes_from_float32_mono in Hb. fold rate in Hb.
  apply wave_file_inv in Hb as (-> & Hr0 & Hr & Hn).
  rewrite pcm_bytes_length in *.
  set (n := Z.of_nat (2 * length a)) in *.
  assert (Hlen : length (wav_header rate n ++ pcm_bytes a) = (44 + 2 * length a)%nat).
  { rewrite length_app, header_length, pcm_bytes_length. reflexivity. }
  destruct (header_fields rate n (pcm_bytes a) ltac:(lia) ltac:(lia))
    as (_ & _ & _ & _ & H24 & _ & H40).
  destruct (header_fields_sizes rate n (pcm_bytes a) ltac:(lia) ltac:(lia))
    as (H4 & H28 & H32).
  rewrite Hlen.
  split; [reflexivity|]. split; [rewrite H4; lia|]. split; [exact H24|].
  split; [rewrite H28; lia|]. split; [exact H32|].
  split; [rewrite H40; lia|].
  split; [apply (drop_app_length' (wav_header rate n)); reflexivity|].
  intros i x Hi. unfold field.
  rewrite (drop_app_add' (wav_header rate n) (pcm_bytes a) 44 (2 * i)) by reflexivity.
  apply payload_sample, Hi.
Qed.

Lemma X12_witness :
  let b := wav_header 24000 4 ++ [255; 127; 1; 128] in
  length b = 48%nat /\ field b 4 4 = 40 /\ field b 40 4 = 4
  /\ field b 46 2 = (-32767) mod 65536.
Proof.
  intros b.
  pose proof (X12_wav_file_is_consistent Stub.lib [f32_1_5; f32_minus_2] 0 b
                eq_refl) as (Hlen & H4 & _ & _ & _ & H40 & _ & Hs).
  split; [exact Hlen|]. split; [exact H4|]. split; [exact H40|].
  exact (Hs 1%nat f32_minus_2 eq_refl).
Defined.

(** X13. For a buffer whose payload fits the length fields, the encoder
    returns a file exactly when the sample rate in effect (24000 for a
    rate that is not positive) is below 2^31; from 2^31 on it raises
    [struct.error], whatever the buffer. *)
Theorem X13_encoder_raises_from_rate_2_31 (L : PyLib) (a : list f32)
    (sample_rate : Z) :
  let rate := if sample_rate <=? 0 then 24000 else sample_rate in
  (2147483648 <= rate ->
   exists e, wav_bytes_from_float32_mono a sample_rate = Raise e
             /\ exn_cls e = StructError)
  /\ (2 * Z.of_nat (length a) + 36 < 4294967296 ->
      ((exists b, wav_bytes_from_float32_mono a sample_rate = Ok b)
       <-> rate < 2147483648)).
Proof.
  intros rate.
  assert (Hpos : 0 < rate).
  { subst rate. destruct (Z.leb_spec sample_rate 0); lia. }
  assert (Hraise : 2147483648 <= rate ->
                   exists e, wav_bytes_from_float32_mono a sample_rate = Raise e
                             /\ exn_cls e = StructError).
  { intros Hr. unfold wav_bytes_from_float32_mono. fold rate.
    apply wave_file_rate_raise, Hr. }
  split; [exact Hraise|].
  intros Hn. split.
  - intros [b Hb]. destruct (Z.lt_ge_cases rate 2147483648) as [Hlt|Hge]; [exact Hlt|].
    destruct (Hraise Hge) as (e & He & _). congruence.
  - intros Hr. eexists. unfold wav_bytes_from_float32_mono. fold rate.
    apply wave_file_ok; rewrite ?pcm_bytes_length; lia.
Qed.

Lemma X13_witness :
  (exists e, wav_bytes_from_float32_mono (L := Stub.lib) [f32_quarter] 4294967296
             = Raise e /\ exn_cls e = StructError)
  /\ ((exists b, wav_bytes_from_float32_mono (L := Stub.lib) [f32_quarter] 2147483647
                 = Ok b) <-> 2147483647 < 2147483648).
Proof.
  split.
  - apply (proj1 (X13_encoder_raises_from_rate_2_31 Stub.lib [f32_quarter] 4294967296)).
    simpl. lia.
  - apply (proj2 (X13_encoder_raises_from_rate_2_31 Stub.lib [f32_quarter] 2147483647)).
    simpl. lia.
Defined.

(** ** Clipping and symmetry of the quantization *)

Lemma np_clip_in_range (x : f32) :
  F32.ltb (np_clip x) F32.minus_one = false
  /\ F32.ltb F32.one (np_clip x) = false.
Proof.
  unfold np_clip.
  destruct (F32.ltb x F32.minus_one) eqn:Hlo.
  - change (F32.ltb F32.one F32.minus_one) with false. cbv iota.
    split; vm_compute; reflexivity.
  - destruct (F32.ltb F32.one x) eqn:Hhi; [split; vm_compute; reflexivity|].
    split; assumption.
Qed.

(** X14. Clipping brings every sample into the interval: the clipped value
    is neither below -1.0 nor above 1.0, and clipping it again changes
    nothing. A NaN is passed through. *)
Theorem X14_clip_is_in_range_and_idempotent (x : f32) :
  F32.ltb (np_clip x) F32.minus_one = false
  /\ F32.ltb F32.one (np_clip x) = false
  /\ np_clip (np_clip x) = np_clip x
  /\ np_clip S754_nan = S754_nan.
Proof.
  destruct (np_clip_in_range x) as [Hlo Hhi].
  split; [exact Hlo|]. split; [exact Hhi|]. split; [|reflexivity].
  unfold np_clip at 1. rewrite Hlo, Hhi. reflexivity.
Qed.

Lemma SFcompare_opp x y : SFcompare (SFopp x) (SFopp y) = SFcompare y x.
Proof.
  destruct x as [[|]|[|]| |[|] mx ex], y as [[|]|[|]| |[|] my ey];
    simpl; try reflexivity;
    rewrite (Z.compare_antisym ex ey); destruct (ex ?= ey); simpl;
    try reflexivity;
    rewrite ?Pos.compare_cont_antisym; reflexivity.
Qed.

Lemma SFltb_opp x y : SFltb (SFopp x) (SFopp y) = SFltb y x.
Proof. unfold SFltb. rewrite SFcompare_opp. reflexivity. Qed.

Lemma ltb_opp_minus_one x : SFltb (SFopp x) F32.minus_one = SFltb F32.one x.
Proof. exact (SFltb_opp x F32.one). Qed.

Lemma ltb_one_opp x : SFltb F32.one (SFopp x) = SFltb x F32.minus_one.
Proof. exact (SFltb_opp F32.minus_one x). Qed.

Lemma np_clip_opp x : np_clip (SFopp x) = SFopp (np_clip x).
Proof.
  unfold np_clip, F32.ltb. rewrite ltb_opp_minus_one.
  destruct (SFltb F32.one x) eqn:Hhi.
  - rewrite (ltb_above_not_below x _ _ _ _ Hhi : SFltb x F32.minus_one = false).
    rewrite Hhi. reflexivity.
  - rewrite ltb_one_opp.
    destruct (SFltb x F32.minus_one) eqn:Hlo; [reflexivity|].
    rewrite Hhi. reflexivity.
Qed.

Lemma binary_round_aux_opp prec emax s m e l :
  binary_round_aux prec emax (negb s) m e l
  = SFopp (binary_round_aux prec emax s m e l).
Proof.
  unfold binary_round_aux.
  destruct (shr_fexp prec emax m e l) as [mrs e1].
  destruct (shr_fexp prec emax _ e1 loc_Exact) as [mrs2 e2].
  destruct (shr_m mrs2); [reflexivity | | reflexivity].
  destruct (e2 <=? emax - prec); reflexivity.
Qed.

Lemma SFmul_opp_l prec emax x mc ec :
  SFmul prec emax (SFopp x) (S754_finite false mc ec)
  = SFopp (SFmul prec emax x (S754_finite false mc ec)).
Proof.
  destruct x as [[|]|[|]| |s m e]; try reflexivity.
  cbn [SFopp SFmul]. rewrite !xorb_false_r. apply binary_round_aux_opp.
Qed.

Lemma cond_Zopp_negb s z : cond_Zopp (negb s) z = - cond_Zopp s z.
Proof. destruct s; simpl; lia. Qed.

(** X15. The quantization is symmetric about zero: for a sample whose
    scaled value is finite, the value computed for the opposite sample is
    the opposite value. *)
Theorem X15_quantization_is_odd (L : PyLib) (x : f32) :
  scaled_finite x -> pcm_sample (SFopp x) = - pcm_sample x.
Proof.
  unfold scaled_finite, pcm_sample, F32.mul, F32.c32767.
  rewrite np_clip_opp, SFmul_opp_l.
  destruct (SFmul F32.prec F32.emax (np_clip x) _) as [s|s| |s m e];
    try contradiction; intros _.
  - reflexivity.
  - cbn [SFopp astype_int16]. unfold trunc_finite. apply cond_Zopp_negb.
Qed.

Lemma X15_witness :
  pcm_sample (L := Stub.lib) (SFopp f32_quarter) = - 8191.
Proof.
  apply (X15_quantization_is_odd Stub.lib f32_quarter). vm_compute. exact I.
Defined.

(** * The credential bootstrap *)

(** ** Assignment to a key *)

Section Dicts.
Import Bootstrap.

Lemma dict_get_set_same (d : dict) k v : dict_get (dict_set d k v) k = Some v.
Proof.
  induction d as [|[k' v'] d IH]; simpl; unfold pystr_eqb.
  - rewrite bool_decide_eq_true_2 by reflexivity. reflexivity.
  - case_bool_decide as Hk; simpl; unfold pystr_eqb.
    + rewrite bool_decide_eq_true_2 by reflexivity. reflexivity.
    + rewrite bool_decide_eq_false_2 by exact Hk. exact IH.
Qed.

Lemma dict_get_set_other (d : dict) k v k' :
  k' <> k -> dict_get (dict_set d k v) k' = dict_get d k'.
Proof.
  intros Hne. induction d as [|[k0 v0] d IH]; simpl; unfold pystr_eqb.
  - rewrite bool_decide_eq_false_2 by congruence. reflexivity.
  - case_bool_decide as Hk; simpl; unfold pystr_eqb.
    + subst k0. rewrite !bool_decide_eq_false_2 by congruence. reflexivity.
    + case_bool_decide; [reflexivity | exact IH].
Qed.

Lemma dict_set_same (d : dict) k v : dict_get d k = Some v -> dict_set d k v = d.
Proof.
  induction d as [|[k0 v0] d IH]; simpl; unfold pystr_eqb; [discriminate|].
  case_bool_decide as Hk; [intros [= ->]; subst; reflexivity|].
  intros Hg. rewrite (IH Hg). reflexivity.
Qed.

Lemma dict_set_twice (d : dict) k v v' :
  dict_set (dict_set d k v) k v' = dict_set d k v'.
Proof.
  induction d as [|[k0 v0] d IH]; simpl; unfold pystr_eqb.
  - rewrite bool_decide_eq_true_2 by reflexivity. reflexivity.
  - case_bool_decide as Hk; simpl; unfold pystr_eqb.
    + rewrite bool_decide_eq_true_2 by reflexivity. reflexivity.
    + rewrite bool_decide_eq_false_2 by exact Hk. rewrite IH. reflexivity.
Qed.

Lemma dict_get_snoc (d : dict) k v k' :
  dict_get d k = None ->
  dict_get (d ++ [(k, v)]) k' = if pystr_eqb k k' then Some v else dict_get d k'.
Proof.
  intros Hk. induction d as [|[k0 v0] d IH]; simpl; [reflexivity|].
  simpl in Hk. unfold pystr_eqb in *.
  destruct (bool_decide (k0 = k)) eqn:H0; [discriminate|].
  apply bool_decide_eq_false in H0.
  destruct (decide (k0 = k')) as [->|H1].
  - rewrite bool_decide_eq_true_2 by reflexivity.
    rewrite bool_decide_eq_false_2 by congruence. reflexivity.
  - rewrite (bool_decide_eq_false_2 (k0 = k')) by exact H1. apply IH, Hk.
Qed.

End Dicts.

(** ** The profile written *)

Ltac key_ne := first [assumption | congruence | (vm_compute; discriminate)].

Ltac getset :=
  repeat first
    [ rewrite dict_get_set_same
    | rewrite dict_get_set_other by key_ne ].

Section Merge.
Import Bootstrap.

Lemma nonblank_stripped x : nonblank x = true -> nonblank (Some (VStr (stripped x))) = true.
Proof.
  destruct x as [[| | | |s| |]|]; try discriminate.
  simpl. rewrite strip_idem. auto.
Qed.

(** A token is kept when the profile has one, seeded when it has none. *)
Lemma seed_spec (existing : dict) key new e1 :
  (if nonblank (dict_get existing key) then Some existing
   else if nonblank new
        then Some (dict_set existing key (VStr (stripped new)))
        else None) = Some e1 ->
  dict_get e1 key
  = (if nonblank (dict_get existing key) then dict_get existing key
     else Some (VStr (stripped new)))
  /\ nonblank (dict_get e1 key) = true
  /\ (forall k', k' <> key -> dict_get e1 k' = dict_get existing k').
Proof.
  destruct (nonblank (dict_get existing key)) eqn:Hold.
  - intros [= <-]. auto.
  - destruct (nonblank new) eqn:Hnew; [|discriminate].
    intros [= <-]. rewrite dict_get_set_same.
    split; [reflexivity|]. split; [apply nonblank_stripped, Hnew|].
    intros k' Hk. apply dict_get_set_other, Hk.
Qed.

Lemma merge_profile_spec (existing : dict) access refresh account_id exp_ms now e' :
  merge_profile existing access refresh account_id exp_ms now = Some e' ->
  dict_get e' (str "access") = Some (VStr access)
  /\ dict_get e' (str "refresh")
     = (if nonblank (dict_get existing (str "refresh"))
        then dict_get existing (str "refresh")
        else Some (VStr (stripped refresh)))
  /\ nonblank (dict_get e' (str "refresh")) = true
  /\ dict_get e' (str "accountId")
     = (if nonblank (dict_get existing (str "accountId"))
        then dict_get existing (str "accountId")
        else Some (VStr (stripped account_id)))
  /\ nonblank (dict_get e' (str "accountId")) = true
  /\ dict_get e' (str "expires")
     = (if negb (exp_ms =? 0)
           && (negb (is_int (dict_get existing (str "expires")))
               || (int_or_0 (dict_get existing (str "expires")) <=? 0))
        then Some (VInt exp_ms)
        else dict_get existing (str "expires"))
  /\ dict_get e' (str "type") = Some (VStr (str "oauth"))
  /\ dict_get e' (str "provider") = Some (VStr (str "openai-codex"))
  /\ dict_get e' (str "syncedFrom") = Some (VStr (str "codex"))
  /\ dict_get e' (str "syncedAt") = Some (VStr now)
  /\ (forall k, ~ In k managed_keys -> dict_get e' k = dict_get existing k).
Proof.
  unfold merge_profile.
  destruct (if nonblank (dict_get existing (str "refresh")) then _ else _)
    as [e1|] eqn:H1; [|discriminate].
  apply seed_spec in H1 as (Hr & Hrn & Hro). cbn [mbind option_bind].
  set (e2 := dict_set e1 (str "access") (VStr access)).
  assert (He2x : dict_get e2 (str "expires") = dict_get existing (str "expires")).
  { subst e2. getset. apply Hro. key_ne. }
  rewrite He2x.
  set (c := negb (exp_ms =? 0) && _).
  set (e3 := if c then dict_set e2 (str "expires") (VInt exp_ms) else e2).
  assert (He3a : dict_get e3 (str "accountId") = dict_get existing (str "accountId")).
  { subst e3 e2. destruct c; getset; apply Hro; key_ne. }
  destruct (if nonblank (dict_get e3 (str "accountId")) then _ else _)
    as [e4|] eqn:H4; [|discriminate].
  apply seed_spec in H4 as (Ha & Han & Hao). rewrite He3a in Ha.
  cbn [mbind option_bind]. intros [= <-].
  assert (He3 : forall k, k <> str "expires" -> k <> str "access" ->
                          k <> str "refresh" ->
                          dict_get e3 k = dict_get existing k).
  { intros k Hx Hac Hre. subst e3 e2. destruct c; getset; apply Hro; key_ne. }
  split; [getset; rewrite Hao by key_ne; subst e3 e2; destruct c; getset; reflexivity|].
  split.
  { getset. rewrite Hao by key_ne. subst e3 e2. destruct c; getset; exact Hr. }
  split.
  { getset. rewrite Hao by key_ne. subst e3 e2. destruct c; getset; exact Hrn. }
  split; [getset; exact Ha|]. split; [getset; exact Han|].
  split.
  { getset. rewrite Hao by key_ne. subst e3. destruct c; getset; [reflexivity|].
    exact He2x. }
  split; [getset; reflexivity|]. split; [getset; reflexivity|].
  split; [getset; reflexivity|]. split; [getset; reflexivity|].
  intros k Hk. unfold managed_keys in Hk. simpl in Hk.
  assert (Hne : k <> str "refresh" /\ k <> str "access" /\ k <> str "expires"
                /\ k <> str "accountId" /\ k <> str "type" /\ k <> str "provider"
                /\ k <> str "syncedFrom" /\ k <> str "syncedAt").
  { repeat split; intros ->; apply Hk; tauto. }
  destruct Hne as (? & ? & ? & ? & ? & ? & ? & ?).
  rewrite !dict_get_set_other by assumption.
  rewrite Hao by assumption. apply He3; assumption.
Qed.

End Merge.

(** ** The store written *)

Section Store.
Import Bootstrap.
Context {L : PyLib} {B : BootLib}.

Lemma py_get_inv v k x : py_get v k = Ok x -> exists d, v = VDict d /\ x = dict_get d k.
Proof.
  destruct v; try discriminate. intros Hx. apply Ok_inj in Hx. eauto.
Qed.

(** A successful run, step by step. *)
Lemma sync_store_inv codex auth_file now st :
  sync_store codex auth_file now = Ok (Some st) ->
  exists c tokens store_d e' version,
    codex = VDict c
    /\ or_else (dict_get c (str "tokens")) (VDict []) = VDict tokens
    /\ nonblank (dict_get tokens (str "access_token")) = true
    /\ store_read auth_file = VDict store_d
    /\ merge_profile
         (child (child store_d (str "profiles")) profile_key)
         (stripped (dict_get tokens (str "access_token")))
         (dict_get tokens (str "refresh_token"))
         (dict_get tokens (str "account_id"))
         (jwt_exp_ms (stripped (dict_get tokens (str "access_token")))) now
       = Some e'
    /\ py_int (or_else (dict_get store_d (str "version")) (VInt 1)) = Ok version
    /\ st = VDict
              (dict_set
                 (dict_set store_d (str "profiles")
                    (VDict (dict_set (child store_d (str "profiles")) profile_key
                              (VDict e'))))
                 (str "version") (VInt version)).
Proof.
  unfold sync_store. fold (store_read auth_file).
  destruct (py_get codex (str "tokens")) as [tv|] eqn:Ht; [|discriminate].
  apply py_get_inv in Ht as (c & -> & ->). cbn [mbind result_bind].
  destruct (py_get _ (str "access_token")) as [access|] eqn:Ha; [|discriminate].
  apply py_get_inv in Ha as (tokens & Htok & ->). rewrite Htok.
  cbn [mbind result_bind py_get].
  destruct (nonblank (dict_get tokens (str "access_token"))) eqn:Hnb;
    [|discriminate]. cbn [negb].
  destruct (py_get (store_read auth_file) (str "profiles")) as [pv|] eqn:Hp;
    [|discriminate].
  apply py_get_inv in Hp as (store_d & Hs & ->). rewrite Hs.
  cbn [mbind result_bind].
  assert (Hprof : match as_dict (dict_get store_d (str "profiles")) with
                  | Some p => p
                  | None => []
                  end = child store_d (str "profiles")).
  { unfold child, as_dict. destruct (dict_get store_d (str "profiles")) as [[]|];
      reflexivity. }
  rewrite Hprof.
  assert (Hex : match as_dict (dict_get (child store_d (str "profiles")) profile_key) with
                | Some e => e
                | None => []
                end = child (child store_d (str "profiles")) profile_key).
  { generalize (child store_d (str "profiles")). intros p.
    unfold child, as_dict. destruct (dict_get p profile_key) as [[]|];
      reflexivity. }
  rewrite Hex.
  destruct (merge_profile _ _ _ _ _ _) as [e'|] eqn:Hm; [|discriminate].
  set (P := VDict (dict_set (child store_d (str "profiles")) profile_key (VDict e'))).
  assert (Hst2 : dict_set
                   match as_dict (dict_get store_d (str "profiles")) with
                   | Some _ => store_d
                   | None => dict_set store_d (str "profiles") (VDict [])
                   end (str "profiles") P
                 = dict_set store_d (str "profiles") P).
  { destruct (as_dict _); [reflexivity | apply dict_set_twice]. }
  rewrite Hst2. rewrite dict_get_set_other by key_ne.
  destruct (py_int _) as [version|] eqn:Hv; [|discriminate].
  cbn [mbind result_bind]. intros Hst. apply Ok_inj in Hst. injection Hst as <-.
  exists c, tokens, store_d, e', version. repeat split; assumption.
Qed.

End Store.

(** X16. Whenever the bootstrap hands a store to [_write_json], the profile
    [openai-codex:default] in it is complete: its access token is the
    stripped access token of the Codex file, its refresh token and account
    id are non-blank strings, it is marked as an OAuth profile of the
    provider synced from Codex at the given time, and the version of the
    store is an integer. *)
Theorem X16_written_profile_is_complete (L : PyLib) (B : Bootstrap.BootLib)
    (codex : pyval) (auth_file : option (result pyval)) (now : pystr)
    (st : pyval) :
  Bootstrap.sync_store codex auth_file now = Ok (Some st) ->
  exists c tokens s ps e version,
    codex = VDict c
    /\ Bootstrap.or_else (dict_get c (str "tokens")) (VDict []) = VDict tokens
    /\ st = VDict s
    /\ dict_get s (str "profiles") = Some (VDict ps)
    /\ dict_get ps Bootstrap.profile_key = Some (VDict e)
    /\ dict_get s (str "version") = Some (VInt version)
    /\ dict_get e (str "access")
       = Some (VStr (Bootstrap.stripped (dict_get tokens (str "access_token"))))
    /\ Bootstrap.nonblank (dict_get e (str "access")) = true
    /\ Bootstrap.nonblank (dict_get e (str "refresh")) = true
    /\ Bootstrap.nonblank (dict_get e (str "accountId")) = true
    /\ dict_get e (str "type") = Some (VStr (str "oauth"))
    /\ dict_get e (str "provider") = Some (VStr (str "openai-codex"))
    /\ dict_get e (str "syncedFrom") = Some (VStr (str "codex"))
    /\ dict_get e (str "syncedAt") = Some (VStr now).
Proof.
  intros Hs.
  apply sync_store_inv in Hs
    as (c & tokens & store_d & e' & version & -> & Htok & Hnb & _ & Hm & _ & ->).
  apply merge_profile_spec in Hm
    as (Ha & _ & Hr & _ & Hacc & _ & Hty & Hpr & Hsf & Hsa & _).
  eexists c, tokens, _, _, e', version.
  split; [reflexivity|]. split; [exact Htok|]. split; [reflexivity|].
  split; [getset; reflexivity|]. split; [getset; reflexivity|].
  split; [getset; reflexivity|]. split; [exact Ha|].
  split; [rewrite Ha; apply nonblank_stripped, Hnb|].
  repeat split; assumption.
Qed.

(** X17. The bootstrap keeps what it does not manage: every key of the
    store other than [profiles] and [version], every profile other than
    [openai-codex:default], and every field of that profile outside the
    managed ones are written back as they were read. Inside the profile a
    non-blank refresh token, a non-blank account id and a positive integer
    expiry are never replaced. *)
Theorem X17_existing_data_is_kept (L : PyLib) (B : Bootstrap.BootLib)
    (codex : pyval) (auth_file : option (result pyval)) (now : pystr)
    (st : pyval) :
  Bootstrap.sync_store codex auth_file now = Ok (Some st) ->
  exists store_d s,
    store_read auth_file = VDict store_d /\ st = VDict s
    /\ (forall k, k <> str "profiles" -> k <> str "version" ->
                  dict_get s k = dict_get store_d k)
    /\ (forall k, k <> Bootstrap.profile_key ->
                  dict_get (child s (str "profiles")) k
                  = dict_get (child store_d (str "profiles")) k)
    /\ (let old := child (child store_d (str "profiles")) Bootstrap.profile_key in
        let new := child (child s (str "profiles")) Bootstrap.profile_key in
        (Bootstrap.nonblank (dict_get old (str "refresh")) = true ->
         dict_get new (str "refresh") = dict_get old (str "refresh"))
        /\ (Bootstrap.nonblank (dict_get old (str "accountId")) = true ->
            dict_get new (str "accountId") = dict_get old (str "accountId"))
        /\ (Bootstrap.is_int (dict_get old (str "expires")) = true ->
            0 < Bootstrap.int_or_0 (dict_get old (str "expires")) ->
            dict_get new (str "expires") = dict_get old (str "expires"))
        /\ (forall k, ~ In k managed_keys -> dict_get new k = dict_get old k)).
Proof.
  intros Hs.
  apply sync_store_inv in Hs
    as (c & tokens & store_d & e' & version & -> & Htok & Hnb & Hrd & Hm & _ & ->).
  apply merge_profile_spec in Hm
    as (_ & Hr & _ & Hacc & _ & Hx & _ & _ & _ & _ & Hother).
  eexists store_d, _. split; [exact Hrd|]. split; [reflexivity|].
  split; [intros k H1 H2; getset; reflexivity|].
  assert (Hch : child (Bootstrap.dict_set
                         (Bootstrap.dict_set store_d (str "profiles")
                            (VDict (Bootstrap.dict_set (child store_d (str "profiles"))
                                      Bootstrap.profile_key (VDict e'))))
                         (str "version") (VInt version)) (str "profiles")
                = Bootstrap.dict_set (child store_d (str "profiles"))
                    Bootstrap.profile_key (VDict e')).
  { unfold child at 1. getset. reflexivity. }
  rewrite Hch.
  split; [intros k Hk; getset; reflexivity|].
  assert (Hnew : child (Bootstrap.dict_set (child store_d (str "profiles"))
                          Bootstrap.profile_key (VDict e')) Bootstrap.profile_key = e').
  { unfold child at 1. getset. reflexivity. }
  rewrite Hnew. cbv zeta.
  split; [intros Hnbr; rewrite Hr, Hnbr; reflexivity|].
  split; [intros Hnba; rewrite Hacc, Hnba; reflexivity|].
  split; [|exact Hother].
  intros Hint Hpos. rewrite Hx, Hint.
  destruct (Z.leb_spec (Bootstrap.int_or_0
                          (dict_get (child (child store_d (str "profiles"))
                                       Bootstrap.profile_key) (str "expires"))) 0);
    [lia|]. simpl. rewrite andb_false_r. reflexivity.
Qed.

Lemma X16_witness :
  exists s ps e,
    Bootstrap.sync_store (L := Stub.lib) (B := Bootstrap.stub)
      Bootstrap.codex0 (Some (Ok Bootstrap.store0)) Bootstrap.now0 = Ok (Some (VDict s))
    /\ dict_get s (str "profiles") = Some (VDict ps)
    /\ dict_get ps Bootstrap.profile_key = Some (VDict e)
    /\ dict_get e (str "access") = Some (VStr (str "tokA"))
    /\ Bootstrap.nonblank (dict_get e (str "refresh")) = true.
Proof.
  destruct (X16_written_profile_is_complete Stub.lib Bootstrap.stub
              Bootstrap.codex0 (Some (Ok Bootstrap.store0)) Bootstrap.now0 _ eq_refl)
    as (c & tokens & s & ps & e & version & Hc & Htok & Hst & Hps & He & _
        & Ha & _ & Hr & _).
  exists s, ps, e. injection Hst as <-.
  split; [reflexivity|]. split; [exact Hps|]. split; [exact He|].
  split; [|exact Hr].
  rewrite Ha. injection Hc as <-. injection Htok as <-. reflexivity.
Defined.

Lemma X17_witness :
  exists s,
    Bootstrap.sync_store (L := Stub.lib) (B := Bootstrap.stub)
      Bootstrap.codex0 (Some (Ok Bootstrap.store0)) Bootstrap.now0 = Ok (Some (VDict s))
    /\ dict_get s (str "note") = Some (VStr (str "mine"))
    /\ dict_get (child (child s (str "profiles")) Bootstrap.profile_key) (str "refresh")
       = Some (VStr (str "keepme"))
    /\ dict_get (child (child s (str "profiles")) Bootstrap.profile_key) (str "expires")
       = Some (VInt 5).
Proof.
  destruct (X17_existing_data_is_kept Stub.lib Bootstrap.stub
              Bootstrap.codex0 (Some (Ok Bootstrap.store0)) Bootstrap.now0 _ eq_refl)
    as (store_d & s & Hrd & Hst & Htop & _ & Hr & _ & Hx & _).
  exists s. injection Hrd as <-. injection Hst as <-.
  split; [reflexivity|].
  split; [apply Htop; vm_compute; discriminate|].
  split; [apply Hr; reflexivity | apply Hx; reflexivity].
Defined.

(** ** When nothing is written, and running twice *)

Section Again.
Import Bootstrap.
Context {L : PyLib} {B : BootLib}.

Lemma seed_none (existing : dict) key new :
  (if nonblank (dict_get existing key) then Some existing
   else if nonblank new
        then Some (dict_set existing key (VStr (stripped new)))
        else None) = None
  <-> nonblank (dict_get existing key) = false /\ nonblank new = false.
Proof.
  destruct (nonblank (dict_get existing key)), (nonblank new);
    split; try discriminate; try tauto; intros [? ?]; discriminate.
Qed.

Lemma merge_profile_none (existing : dict) access refresh account_id exp_ms now :
  merge_profile existing access refresh account_id exp_ms now = None
  <-> (nonblank (dict_get existing (str "refresh")) = false
       /\ nonblank refresh = false)
      \/ (nonblank (dict_get existing (str "accountId")) = false
          /\ nonblank account_id = false).
Proof.
  unfold merge_profile.
  destruct (if nonblank (dict_get existing (str "refresh")) then _ else _)
    as [e1|] eqn:H1.
  - pose proof H1 as H1'. apply seed_spec in H1' as (_ & Hrn & Hro).
    cbn [mbind option_bind].
    set (e2 := dict_set e1 (str "access") (VStr access)).
    set (c := negb (exp_ms =? 0) && _).
    set (e3 := if c then dict_set e2 (str "expires") (VInt exp_ms) else e2).
    assert (He3a : dict_get e3 (str "accountId") = dict_get existing (str "accountId")).
    { subst e3 e2. destruct c; getset; apply Hro; key_ne. }
    destruct (if nonblank (dict_get e3 (str "accountId")) then _ else _)
      as [e4|] eqn:H4.
    + cbn [mbind option_bind]. split; [discriminate|].
      intros [[Hr Hn] | [Ha Hn]].
      * assert (Hnone : (if nonblank (dict_get existing (str "refresh"))
                         then Some existing
                         else if nonblank refresh
                              then Some (dict_set existing (str "refresh")
                                           (VStr (stripped refresh)))
                              else None) = None)
          by (apply seed_none; auto).
        congruence.
      * rewrite He3a, Ha, Hn in H4. discriminate.
    + cbn [mbind option_bind]. split; [|reflexivity]. intros _. right.
      apply seed_none in H4. rewrite He3a in H4. exact H4.
  - cbn [mbind option_bind]. split; [|reflexivity]. intros _. left.
    apply seed_none in H1. exact H1.
Qed.

Lemma merge_profile_again (existing : dict) access refresh account_id exp_ms now e' :
  merge_profile existing access refresh account_id exp_ms now = Some e' ->
  merge_profile e' access refresh account_id exp_ms now = Some e'.
Proof.
  intros Hm. apply merge_profile_spec in Hm
    as (Ha & _ & Hrn & _ & Han & Hx & Hty & Hpr & Hsf & Hsa & _).
  unfold merge_profile. rewrite Hrn. cbn [mbind option_bind].
  rewrite (dict_set_same e' _ _ Ha).
  assert (He3 : (if negb (exp_ms =? 0)
                    && (negb (is_int (dict_get e' (str "expires")))
                        || (int_or_0 (dict_get e' (str "expires")) <=? 0))
                 then dict_set e' (str "expires") (VInt exp_ms)
                 else e') = e').
  { destruct (negb (exp_ms =? 0)
              && (negb (is_int (dict_get e' (str "expires")))
                  || (int_or_0 (dict_get e' (str "expires")) <=? 0))) eqn:Hc';
      [|reflexivity].
    apply dict_set_same. rewrite Hx.
    destruct (negb (exp_ms =? 0)
              && (negb (is_int (dict_get existing (str "expires")))
                  || (int_or_0 (dict_get existing (str "expires")) <=? 0))) eqn:Hc;
      [reflexivity|].
    rewrite Hx, Hc in Hc'. rewrite Hc' in Hc. discriminate. }
  rewrite He3, Han. cbn [mbind option_bind].
  rewrite (dict_set_same e' _ _ Hty), (dict_set_same e' _ _ Hpr),
    (dict_set_same e' _ _ Hsf), (dict_set_same e' _ _ Hsa).
  reflexivity.
Qed.

End Again.

(** X18. The bootstrap gives up on the profile, and writes nothing, exactly
    when a refresh token is missing (the profile has none that is a
    non-blank string and the Codex file has none either) or an account id
    is missing in the same way. *)
Theorem X18_profile_needs_refresh_and_account
    (existing : list (pystr * pyval)) (access : pystr)
    (refresh account_id : option pyval) (exp_ms : Z) (now : pystr) :
  Bootstrap.merge_profile existing access refresh account_id exp_ms now = None
  <-> (Bootstrap.nonblank (dict_get existing (str "refresh")) = false
       /\ Bootstrap.nonblank refresh = false)
      \/ (Bootstrap.nonblank (dict_get existing (str "accountId")) = false
          /\ Bootstrap.nonblank account_id = false).
Proof. apply merge_profile_none. Qed.

Section Rerun.
Import Bootstrap.
Context {L : PyLib} {B : BootLib}.

(** The converse of [sync_store_inv]. *)
Lemma sync_store_run c tokens store_d e' version auth_file now :
  or_else (dict_get c (str "tokens")) (VDict []) = VDict tokens ->
  nonblank (dict_get tokens (str "access_token")) = true ->
  store_read auth_file = VDict store_d ->
  merge_profile
    (child (child store_d (str "profiles")) profile_key)
    (stripped (dict_get tokens (str "access_token")))
    (dict_get tokens (str "refresh_token"))
    (dict_get tokens (str "account_id"))
    (jwt_exp_ms (stripped (dict_get tokens (str "access_token")))) now
  = Some e' ->
  py_int (or_else (dict_get store_d (str "version")) (VInt 1)) = Ok version ->
  sync_store (VDict c) auth_file now
  = Ok (Some (VDict
                (dict_set
                   (dict_set store_d (str "profiles")
                      (VDict (dict_set (child store_d (str "profiles")) profile_key
                                (VDict e'))))
                   (str "version") (VInt version)))).
Proof.
  intros Htok Hnb Hrd Hm Hv.
  unfold sync_store. fold (store_read auth_file).
  cbn [py_get mbind result_bind]. rewrite Htok. cbn [py_get mbind result_bind].
  rewrite Hnb. cbn [negb]. rewrite Hrd. cbn [py_get mbind result_bind].
  assert (Hprof : match as_dict (dict_get store_d (str "profiles")) with
                  | Some p => p
                  | None => []
                  end = child store_d (str "profiles")).
  { unfold child, as_dict. destruct (dict_get store_d (str "profiles")) as [[]|];
      reflexivity. }
  rewrite Hprof.
  assert (Hex : match as_dict (dict_get (child store_d (str "profiles")) profile_key) with
                | Some e => e
                | None => []
                end = child (child store_d (str "profiles")) profile_key).
  { generalize (child store_d (str "profiles")). intros p.
    unfold child, as_dict. destruct (dict_get p profile_key) as [[]|];
      reflexivity. }
  rewrite Hex, Hm.
  set (P := VDict (dict_set (child store_d (str "profiles")) profile_key (VDict e'))).
  assert (Hst2 : dict_set
                   match as_dict (dict_get store_d (str "profiles")) with
                   | Some _ => store_d
                   | None => dict_set store_d (str "profiles") (VDict [])
                   end (str "profiles") P
                 = dict_set store_d (str "profiles") P).
  { destruct (as_dict _); [reflexivity | apply dict_set_twice]. }
  rewrite Hst2. rewrite dict_get_set_other by key_ne.
  rewrite Hv. reflexivity.
Qed.

End Rerun.

(** X19. Running the bootstrap again on the store it has just written, with
    the same Codex file and the same clock reading, writes the same store
    again, provided the version written is not zero (a version of zero is
    read back as missing and replaced by 1). *)
Theorem X19_second_run_writes_the_same (L : PyLib) (B : Bootstrap.BootLib)
    (codex : pyval) (auth_file : option (result pyval)) (now : pystr)
    (s : list (pystr * pyval)) :
  Bootstrap.sync_store codex auth_file now = Ok (Some (VDict s)) ->
  dict_get s (str "version") <> Some (VInt 0) ->
  Bootstrap.sync_store codex (Some (Ok (VDict s))) now = Ok (Some (VDict s)).
Proof.
  intros Hs Hv0.
  apply sync_store_inv in Hs
    as (c & tokens & store_d & e' & version & -> & Htok & Hnb & _ & Hm & _ & Hst).
  injection Hst as ->.
  set (P := Bootstrap.dict_set (child store_d (str "profiles"))
              Bootstrap.profile_key (VDict e')) in *.
  set (s := Bootstrap.dict_set (Bootstrap.dict_set store_d (str "profiles") (VDict P))
              (str "version") (VInt version)) in *.
  assert (Hprof : dict_get s (str "profiles") = Some (VDict P))
    by (subst s; getset; reflexivity).
  assert (Hver : dict_get s (str "version") = Some (VInt version))
    by (subst s; getset; reflexivity).
  assert (Hch : child s (str "profiles") = P) by (unfold child; rewrite Hprof; reflexivity).
  assert (Hex : child P Bootstrap.profile_key = e')
    by (unfold child; subst P; getset; reflexivity).
  assert (Hnz : version <> 0) by (intros ->; apply Hv0, Hver).
  rewrite (sync_store_run c tokens s e' version (Some (Ok (VDict s))) now
             Htok Hnb eq_refl).
  - rewrite Hch.
    rewrite (dict_set_same P Bootstrap.profile_key (VDict e')).
    + rewrite (dict_set_same s (str "profiles") (VDict P) Hprof).
      rewrite (dict_set_same s (str "version") (VInt version) Hver). reflexivity.
    + subst P. getset. reflexivity.
  - rewrite Hch, Hex. apply merge_profile_again with (existing := child (child store_d (str "profiles")) Bootstrap.profile_key).
    exact Hm.
  - rewrite Hver. unfold Bootstrap.or_else. simpl.
    destruct (Z.eqb_spec version 0); [contradiction|]. reflexivity.
Qed.

Lemma X19_witness :
  exists s,
    Bootstrap.sync_store (L := Stub.lib) (B := Bootstrap.stub)
      Bootstrap.codex0 (Some (Ok Bootstrap.store0)) Bootstrap.now0 = Ok (Some (VDict s))
    /\ Bootstrap.sync_store (L := Stub.lib) (B := Bootstrap.stub)
         Bootstrap.codex0 (Some (Ok (VDict s))) Bootstrap.now0 = Ok (Some (VDict s)).
Proof.
  eexists. split; [reflexivity|].
  apply (X19_second_run_writes_the_same Stub.lib Bootstrap.stub Bootstrap.codex0
           (Some (Ok Bootstrap.store0)) Bootstrap.now0).
  - reflexivity.
  - vm_compute. discriminate.
Defined.

(** ** The configuration written *)

Section Config.
Import Bootstrap.
Context {L : PyLib}.

Lemma setdefault_spec (d : dict) k d1 x :
  py_setdefault (VDict d) k = Ok (d1, x) ->
  x = match dict_get d k with Some y => y | None => VDict [] end
  /\ dict_get d1 k = Some x
  /\ (forall k', k' <> k -> dict_get d1 k' = dict_get d k').
Proof.
  unfold py_setdefault. destruct (dict_get d k) as [y|] eqn:Hk.
  - intros H. apply Ok_inj in H. injection H as <- <-. auto.
  - intros H. apply Ok_inj in H. injection H as <- <-.
    split; [reflexivity|]. split.
    + rewrite dict_get_snoc by exact Hk. unfold pystr_eqb.
      rewrite bool_decide_eq_true_2 by reflexivity. reflexivity.
    + intros k' Hne. rewrite dict_get_snoc by exact Hk. unfold pystr_eqb.
      rewrite bool_decide_eq_false_2 by congruence. reflexivity.
Qed.

Lemma setdefault_dict v k r : py_setdefault v k = Ok r -> exists d, v = VDict d.
Proof. destruct v; try discriminate. eauto. Qed.

Lemma setitem_dict v k x r : py_setitem v k x = Ok r -> exists d, v = VDict d /\ r = dict_set d k x.
Proof.
  destruct v; try discriminate. intros H. apply Ok_inj in H. eauto.
Qed.

Lemma child_of (d : dict) k c :
  match dict_get d k with Some y => y | None => VDict [] end = VDict c ->
  child d k = c /\ dict_or_absent d k.
Proof.
  unfold child, dict_or_absent. destruct (dict_get d k) as [y|].
  - intros ->. auto.
  - intros [= <-]. auto.
Qed.

(** A successful update, level by level. *)
Lemma update_cfg_inv cfg_file cfg' :
  update_cfg cfg_file = Ok cfg' ->
  exists c cfg1 agents1 defaults1 models_v,
    cfg_read cfg_file = VDict c
    /\ well_shaped (VDict c)
    /\ (forall k, k <> str "agents" -> dict_get cfg1 k = dict_get c k)
    /\ (forall k, k <> str "defaults" ->
                  dict_get agents1 k = dict_get (child c (str "agents")) k)
    /\ (forall k, k <> str "model" -> k <> str "models" ->
                  dict_get defaults1 k
                  = dict_get (child (child c (str "agents")) (str "defaults")) k)
    /\ dict_get defaults1 (str "model")
       = Some (VDict (dict_set
                        (child (child (child c (str "agents")) (str "defaults"))
                           (str "model"))
                        (str "primary") (VStr model_id)))
    /\ models_v
       = match dict_get (child (child c (str "agents")) (str "defaults")) (str "models") with
         | Some (VDict m) =>
             match dict_get m model_id with
             | Some _ => VDict m
             | None => VDict (m ++ [(model_id, VDict [])])
             end
         | Some y => y
         | None => VDict [(model_id, VDict [])]
         end
    /\ dict_get defaults1 (str "models") = Some models_v
    /\ cfg' = VDict (dict_set cfg1 (str "agents")
                       (VDict (dict_set agents1 (str "defaults") (VDict defaults1)))).
Proof.
  unfold update_cfg. fold (cfg_read cfg_file).
  destruct (py_setdefault (cfg_read cfg_file) (str "agents")) as [[cfg1 agents]|] eqn:H1;
    [|discriminate].
  destruct (setdefault_dict _ _ _ H1) as [c Hc]. rewrite Hc in H1.
  apply setdefault_spec in H1 as (Hag & _ & Hc1).
  cbn [mbind result_bind].
  destruct (py_setdefault agents (str "defaults")) as [[agents1 defaults]|] eqn:H2;
    [|discriminate].
  destruct (setdefault_dict _ _ _ H2) as [a Ha]. rewrite Ha in H2.
  apply setdefault_spec in H2 as (Hde & _ & Ha1).
  cbn [mbind result_bind].
  destruct (py_setdefault defaults (str "model")) as [[defaults1 model_cfg]|] eqn:H3;
    [|discriminate].
  destruct (setdefault_dict _ _ _ H3) as [d Hd]. rewrite Hd in H3.
  apply setdefault_spec in H3 as (Hmo & _ & Hd1).
  cbn [mbind result_bind].
  destruct (py_setitem model_cfg (str "primary") (VStr model_id)) as [model_cfg1|] eqn:H4;
    [|discriminate].
  apply setitem_dict in H4 as (m & Hm & ->).
  cbn [mbind result_bind].
  rewrite Ha in Hag. rewrite Hd in Hde. rewrite Hm in Hmo.
  clear Ha Hd Hm agents defaults model_cfg.
  symmetry in Hag, Hde, Hmo.
  apply child_of in Hag as [Hca Hoa]. apply child_of in Hde as [Hcd Hod].
  apply child_of in Hmo as [Hcm Hom].
  subst a d m.
  set (d2 := dict_set defaults1 (str "model") _).
  destruct (py_setdefault (VDict d2) (str "models")) as [[defaults3 models_cfg]|] eqn:H5;
    [|discriminate].
  apply setdefault_spec in H5 as (Hms & _ & Hd3).
  cbn [mbind result_bind]. intros H. apply Ok_inj in H. subst cfg'.
  eexists c, cfg1, agents1, (dict_set defaults3 (str "models") _), _.
  split; [exact Hc|]. split; [simpl; auto|].
  split; [exact Hc1|]. split; [exact Ha1|].
  split.
  { intros k Hk1 Hk2. rewrite dict_get_set_other by exact Hk2.
    rewrite Hd3 by exact Hk2. subst d2. rewrite dict_get_set_other by exact Hk1.
    apply Hd1, Hk1. }
  split.
  { rewrite dict_get_set_other by key_ne. rewrite Hd3 by key_ne.
    subst d2. rewrite dict_get_set_same. reflexivity. }
  split; [|split; [rewrite dict_get_set_same; reflexivity | reflexivity]].
  rewrite Hms. clear Hms. subst d2. rewrite dict_get_set_other by key_ne.
  rewrite Hd1 by key_ne.
  destruct (dict_get (child (child c (str "agents")) (str "defaults")) (str "models"))
    as [[| | | | | |ms]|]; reflexivity.
Qed.

End Config.

Section ConfigFacts.
Import Bootstrap.
Context {L : PyLib}.

Lemma setdefault_ok (d : dict) k :
  dict_or_absent d k ->
  exists d1, py_setdefault (VDict d) k = Ok (d1, VDict (child d k)).
Proof.
  unfold dict_or_absent, child, py_setdefault.
  destruct (dict_get d k) as [[| | | | | |x]|]; try contradiction; eauto.
Qed.

Lemma setdefault_total (d : dict) k : exists r, py_setdefault (VDict d) k = Ok r.
Proof. unfold py_setdefault. destruct (dict_get d k); eauto. Qed.

Lemma update_cfg_ok cfg_file :
  well_shaped (cfg_read cfg_file) -> exists cfg', update_cfg cfg_file = Ok cfg'.
Proof.
  unfold update_cfg. fold (cfg_read cfg_file).
  destruct (cfg_read cfg_file) as [| | | | | |c]; try contradiction.
  intros (H1 & H2 & H3).
  destruct (setdefault_ok _ _ H1) as [cfg1 ->]. cbn [mbind result_bind].
  destruct (setdefault_ok _ _ H2) as [agents1 ->]. cbn [mbind result_bind].
  destruct (setdefault_ok _ _ H3) as [defaults1 ->]. cbn [mbind result_bind py_setitem].
  match goal with
  | |- context [py_setdefault (VDict ?d) ?k] =>
      destruct (setdefault_total d k) as [[d3 mc] ->]
  end.
  cbn [mbind result_bind]. eauto.
Qed.

Lemma update_cfg_raise_class cfg_file e :
  update_cfg cfg_file = Raise e ->
  exn_cls e = AttributeError \/ exn_cls e = TypeError.
Proof.
  unfold update_cfg. fold (cfg_read cfg_file).
  destruct (py_setdefault (cfg_read cfg_file) _) as [[cfg1 agents]|e1] eqn:H1.
  2: { cbn [mbind result_bind]. intros [= <-].
       destruct (cfg_read cfg_file); try (injection H1 as <-; auto).
       unfold py_setdefault in H1. destruct (dict_get _ _); discriminate. }
  cbn [mbind result_bind].
  destruct (py_setdefault agents _) as [[agents1 defaults]|e2] eqn:H2.
  2: { cbn [mbind result_bind]. intros [= <-].
       destruct agents; try (injection H2 as <-; auto).
       unfold py_setdefault in H2. destruct (dict_get _ _); discriminate. }
  cbn [mbind result_bind].
  destruct (py_setdefault defaults _) as [[defaults1 model_cfg]|e3] eqn:H3.
  2: { cbn [mbind result_bind]. intros [= <-].
       destruct defaults; try (injection H3 as <-; auto).
       unfold py_setdefault in H3. destruct (dict_get _ _); discriminate. }
  cbn [mbind result_bind].
  destruct (py_setitem model_cfg _ _) as [m1|e4] eqn:H4.
  2: { cbn [mbind result_bind]. intros [= <-].
       destruct model_cfg; try (injection H4 as <-; auto). discriminate. }
  cbn [mbind result_bind].
  match goal with
  | |- context [py_setdefault (VDict ?d) ?k] =>
      destruct (setdefault_total d k) as [[d3 mc] ->]
  end.
  cbn [mbind result_bind]. discriminate.
Qed.

End ConfigFacts.

(** X20. When the bootstrap hands a configuration to [_write_json], the
    primary model under [agents.defaults.model] is the Codex model, and
    everything else is as it was read: the other keys of the configuration,
    of [agents], of [agents.defaults] and of [agents.defaults.model]. The
    table [agents.defaults.models], when it is a dict or absent, has an
    entry for the Codex model and keeps every entry it had; when it is
    something else it is left alone. *)
Theorem X20_config_points_to_the_codex_model (L : PyLib)
    (cfg_file : option (result pyval)) (cfg' : pyval) :
  Bootstrap.update_cfg cfg_file = Ok cfg' ->
  exists c c',
    cfg_read cfg_file = VDict c /\ cfg' = VDict c'
    /\ (let a := child c (str "agents") in
        let d := child a (str "defaults") in
        let m := child d (str "model") in
        let a' := child c' (str "agents") in
        let d' := child a' (str "defaults") in
        let m' := child d' (str "model") in
        dict_get c' (str "agents") = Some (VDict a')
        /\ dict_get a' (str "defaults") = Some (VDict d')
        /\ dict_get d' (str "model") = Some (VDict m')
        /\ dict_get m' (str "primary") = Some (VStr Bootstrap.model_id)
        /\ (forall k, k <> str "agents" -> dict_get c' k = dict_get c k)
        /\ (forall k, k <> str "defaults" -> dict_get a' k = dict_get a k)
        /\ (forall k, k <> str "model" -> k <> str "models" ->
                      dict_get d' k = dict_get d k)
        /\ (forall k, k <> str "primary" -> dict_get m' k = dict_get m k)
        /\ (dict_get d (str "models") = None ->
            dict_get d' (str "models")
            = Some (VDict [(Bootstrap.model_id, VDict [])]))
        /\ (forall ms, dict_get d (str "models") = Some (VDict ms) ->
              exists ms', dict_get d' (str "models") = Some (VDict ms')
                          /\ is_Some (dict_get ms' Bootstrap.model_id)
                          /\ (forall k x, dict_get ms k = Some x ->
                                          dict_get ms' k = Some x))
        /\ (forall y, dict_get d (str "models") = Some y ->
                      (forall ms, y <> VDict ms) ->
                      dict_get d' (str "models") = Some y)).
Proof.
  intros Hu.
  apply update_cfg_inv in Hu
    as (c & cfg1 & agents1 & defaults1 & models_v & Hc & _ & Hc1 & Ha1 & Hd1
        & Hmodel & Hmv & Hmodels & ->).
  eexists c, _. split; [exact Hc|]. split; [reflexivity|].
  set (a := child c (str "agents")) in *.
  set (d := child a (str "defaults")) in *.
  set (m := child d (str "model")) in *.
  assert (Ha' : child (Bootstrap.dict_set cfg1 (str "agents")
                         (VDict (Bootstrap.dict_set agents1 (str "defaults")
                                   (VDict defaults1)))) (str "agents")
                = Bootstrap.dict_set agents1 (str "defaults") (VDict defaults1)).
  { unfold child. rewrite dict_get_set_same. reflexivity. }
  cbv zeta. rewrite Ha'.
  assert (Hd' : child (Bootstrap.dict_set agents1 (str "defaults") (VDict defaults1))
                  (str "defaults") = defaults1).
  { unfold child. rewrite dict_get_set_same. reflexivity. }
  rewrite Hd'.
  assert (Hm' : child defaults1 (str "model")
                = Bootstrap.dict_set m (str "primary") (VStr Bootstrap.model_id)).
  { unfold child. rewrite Hmodel. reflexivity. }
  rewrite Hm'.
  split; [apply dict_get_set_same|]. split; [apply dict_get_set_same|].
  split; [exact Hmodel|]. split; [apply dict_get_set_same|].
  split; [intros k Hk; rewrite dict_get_set_other by exact Hk; apply Hc1, Hk|].
  split; [intros k Hk; rewrite dict_get_set_other by exact Hk; apply Ha1, Hk|].
  split; [exact Hd1|].
  split; [intros k Hk; apply dict_get_set_other, Hk|].
  rewrite Hmodels, Hmv.
  split; [intros Hn; fold d in Hn; rewrite Hn; reflexivity|]. split.
  - intros ms Hms. fold d in Hms. rewrite Hms.
    destruct (dict_get ms Bootstrap.model_id) as [x0|] eqn:Hx.
    + exists ms. split; [reflexivity|]. split; [rewrite Hx; eauto | auto].
    + exists (ms ++ [(Bootstrap.model_id, VDict [])]).
      split; [reflexivity|].
      split.
      * rewrite dict_get_snoc by exact Hx. unfold pystr_eqb.
        rewrite bool_decide_eq_true_2 by reflexivity. eauto.
      * intros k x Hk. rewrite dict_get_snoc by exact Hx. unfold pystr_eqb.
        case_bool_decide as Hkk; [subst k; congruence | exact Hk].
  - intros y Hy' Hy. fold d in Hy'. rewrite Hy'.
    destruct y as [| | | | | |ms]; try reflexivity. destruct (Hy ms eq_refl).
Qed.

(** X21. The update of the configuration succeeds exactly when the
    configuration read is a dict whose [agents], [agents.defaults] and
    [agents.defaults.model], where present, are dicts; otherwise it raises
    an [AttributeError] or a [TypeError], after the store of the profiles
    has been written. *)
Theorem X21_config_update_needs_dicts (L : PyLib)
    (cfg_file : option (result pyval)) :
  ((exists cfg', Bootstrap.update_cfg cfg_file = Ok cfg')
   <-> well_shaped (cfg_read cfg_file))
  /\ (forall e, Bootstrap.update_cfg cfg_file = Raise e ->
                exn_cls e = AttributeError \/ exn_cls e = TypeError)
  /\ (forall (B : Bootstrap.BootLib) codex auth_file now store e,
         Bootstrap.sync_store codex auth_file now = Ok (Some store) ->
         Bootstrap.update_cfg cfg_file = Raise e ->
         Bootstrap.main (Some (Ok codex)) auth_file cfg_file now
         = ([Bootstrap.WriteAuth store], Raise e)).
Proof.
  split; [|split].
  - split.
    + intros [cfg' Hu]. apply update_cfg_inv in Hu
        as (c & _ & _ & _ & _ & -> & Hw & _). exact Hw.
    + apply update_cfg_ok.
  - apply update_cfg_raise_class.
  - intros B codex auth_file now store e Hs Hu.
    unfold Bootstrap.main. rewrite Hs, Hu. reflexivity.
Qed.

Lemma X20_witness :
  exists cfg',
    Bootstrap.update_cfg (L := Stub.lib) (Some (Ok Bootstrap.cfg0)) = Ok cfg'
    /\ exists c',
         cfg' = VDict c'
         /\ dict_get (child (child (child c' (str "agents")) (str "defaults"))
                        (str "model")) (str "primary")
            = Some (VStr Bootstrap.model_id)
         /\ dict_get c' (str "gateway")
            = Some (VDict [(str "port", VInt 18789)]).
Proof.
  eexists. split; [vm_compute; reflexivity|].
  destruct (X20_config_points_to_the_codex_model Stub.lib
              (Some (Ok Bootstrap.cfg0)) _ eq_refl)
    as (c & c' & Hc & Hc' & H).
  cbv zeta in H. destruct H as (_ & _ & _ & Hp & Hk & _).
  exists c'. split; [exact Hc'|]. split; [exact Hp|].
  rewrite Hk by (vm_compute; discriminate).
  apply (f_equal (fun v => match v with VDict d => dict_get d (str "gateway")
                                   | _ => None end)) in Hc.
  rewrite <- Hc. vm_compute. reflexivity.
Defined.

Lemma X21_witness :
  (exists cfg', Bootstrap.update_cfg (L := Stub.lib) (Some (Ok Bootstrap.cfg0)) = Ok cfg')
  /\ ~ (exists cfg', Bootstrap.update_cfg (L := Stub.lib)
                       (Some (Ok Bootstrap.cfg_bad)) = Ok cfg')
  /\ exn_cls (Exn AttributeError
                (builtin_msg (PyLib := Stub.lib) AttributeError (VList [])))
     = AttributeError.
Proof.
  pose proof (X21_config_update_needs_dicts Stub.lib (Some (Ok Bootstrap.cfg0)))
    as [H0 _].
  pose proof (X21_config_update_needs_dicts Stub.lib (Some (Ok Bootstrap.cfg_bad)))
    as [Hb _].
  split; [apply H0; vm_compute; tauto|].
  split; [|reflexivity].
  intros Hx. apply Hb in Hx. vm_compute in Hx. tauto.
Defined.

Section ConfigAgain.
Import Bootstrap.
Context {L : PyLib}.

Lemma setdefault_present (d : dict) k x :
  dict_get d k = Some x -> py_setdefault (VDict d) k = Ok (d, x).
Proof. intros Hx. unfold py_setdefault. rewrite Hx. reflexivity. Qed.

Lemma update_cfg_fixed cfg_file cfg' :
  update_cfg cfg_file = Ok cfg' -> update_cfg (Some (Ok cfg')) = Ok cfg'.
Proof.
  intros Hu.
  apply update_cfg_inv in Hu
    as (c & cfg1 & agents1 & defaults1 & models_v & Hc & _ & Hc1 & Ha1 & Hd1
        & Hmodel & Hmv & Hmodels & ->).
  assert (Hfix : match models_v with
                 | VDict m =>
                     match dict_get m model_id with
                     | Some _ => VDict m
                     | None => VDict (m ++ [(model_id, VDict [])])
                     end
                 | _ => models_v
                 end = models_v).
  { rewrite Hmv.
    destruct (dict_get (child (child c (str "agents")) (str "defaults")) (str "models"))
      as [[| | | | | |ms]|]; try reflexivity.
    destruct (dict_get ms model_id) eqn:Hx.
    - rewrite Hx. reflexivity.
    - rewrite dict_get_snoc by exact Hx. unfold pystr_eqb.
      rewrite bool_decide_eq_true_2 by reflexivity. reflexivity. }
  clear Hmv.
  unfold update_cfg.
  rewrite (setdefault_present _ _ _ (dict_get_set_same cfg1 (str "agents") _)).
  cbn [mbind result_bind].
  rewrite (setdefault_present _ _ _ (dict_get_set_same agents1 (str "defaults") _)).
  cbn [mbind result_bind].
  rewrite (setdefault_present _ _ _ Hmodel).
  cbn [mbind result_bind py_setitem].
  rewrite dict_set_twice.
  rewrite (dict_set_same defaults1 (str "model") _ Hmodel).
  rewrite (setdefault_present _ _ _ Hmodels).
  cbn [mbind result_bind].
  rewrite Hfix.
  rewrite (dict_set_same defaults1 (str "models") _ Hmodels).
  rewrite !dict_set_twice. reflexivity.
Qed.

End ConfigAgain.

(** X22. The configuration the bootstrap writes is a fixed point of the
    update: a run that reads it back writes the same configuration, entry
    for entry and in the same order. *)
Theorem X22_config_update_is_idempotent (L : PyLib)
    (cfg_file : option (result pyval)) (cfg' : pyval) :
  Bootstrap.update_cfg cfg_file = Ok cfg' ->
  Bootstrap.update_cfg (Some (Ok cfg')) = Ok cfg'.
Proof. apply update_cfg_fixed. Qed.

Lemma X22_witness :
  exists cfg',
    Bootstrap.update_cfg (L := Stub.lib) None = Ok cfg'
    /\ Bootstrap.update_cfg (L := Stub.lib) (Some (Ok cfg')) = Ok cfg'.
Proof.
  eexists. split; [vm_compute; reflexivity|].
  apply (X22_config_update_is_idempotent Stub.lib None). reflexivity.
Defined.

(** X23. A run of the bootstrap returns 0 whenever it ends without an
    exception. It writes nothing when there is no Codex file, and nothing
    when the access token of the Codex file is not a non-blank string.
    When it writes, the store of the profiles comes first, built from a
    non-blank access token; the configuration is written only after its
    update succeeded, and its permissions are set exactly when the file
    did not exist. *)
Theorem X23_run_writes_only_with_a_token (L : PyLib) (B : Bootstrap.BootLib)
    (codex_file auth_file cfg_file : option (result pyval)) (now : pystr) :
  let run := Bootstrap.main codex_file auth_file cfg_file now in
  (forall z, snd run = Ok z -> z = 0)
  /\ (codex_file = None -> run = ([], Ok 0))
  /\ (forall c tokens,
        codex_file = Some (Ok (VDict c)) ->
        Bootstrap.or_else (dict_get c (str "tokens")) (VDict []) = VDict tokens ->
        Bootstrap.nonblank (dict_get tokens (str "access_token")) = false ->
        run = ([], Ok 0))
  /\ (fst run <> [] ->
      exists c tokens st,
        codex_file = Some (Ok (VDict c))
        /\ Bootstrap.or_else (dict_get c (str "tokens")) (VDict []) = VDict tokens
        /\ Bootstrap.nonblank (dict_get tokens (str "access_token")) = true
        /\ Bootstrap.sync_store (VDict c) auth_file now = Ok (Some st)
        /\ hd_error (fst run) = Some (Bootstrap.WriteAuth st))
  /\ (forall cfg b,
        In (Bootstrap.WriteCfg cfg b) (fst run) ->
        Bootstrap.update_cfg cfg_file = Ok cfg
        /\ (b = true <-> cfg_file = None)
        /\ snd run = Ok 0).
Proof.
  cbv zeta. unfold Bootstrap.main.
  split; [|split; [|split; [|split]]].
  - intros z. destruct codex_file as [[codex|e]|]; simpl; try congruence.
    destruct (Bootstrap.sync_store codex auth_file now) as [[st|]|e];
      simpl; try congruence.
    destruct (Bootstrap.update_cfg cfg_file); simpl; congruence.
  - intros ->. reflexivity.
  - intros c tokens -> Htok Hnb.
    unfold Bootstrap.sync_store. cbn [Bootstrap.py_get mbind result_bind].
    rewrite Htok. cbn [Bootstrap.py_get mbind result_bind].
    rewrite Hnb. reflexivity.
  - destruct codex_file as [[codex|e]|]; simpl; try congruence.
    destruct (Bootstrap.sync_store codex auth_file now) as [[st|]|e] eqn:Hs;
      simpl; try congruence.
    intros _.
    pose proof Hs as Hs'.
    apply sync_store_inv in Hs'
      as (c & tokens & store_d & e' & version & -> & Htok & Hnb & _).
    exists c, tokens, st. repeat split; try assumption.
    destruct (Bootstrap.update_cfg cfg_file); reflexivity.
  - intros cfg b. destruct codex_file as [[codex|e]|]; simpl; try tauto.
    destruct (Bootstrap.sync_store codex auth_file now) as [[st|]|e];
      simpl; try tauto.
    destruct (Bootstrap.update_cfg cfg_file) as [cfg2|e]; simpl.
    + intros [Hin|[Hin|[]]]; [discriminate|]. injection Hin as -> <-.
      split; [reflexivity|]. split; [|reflexivity].
      destruct cfg_file; split; congruence.
    + intros [Hin|[]]. discriminate.
Qed.

Lemma X23_witness :
  Bootstrap.main (L := Stub.lib) (B := Bootstrap.stub)
    (Some (Ok (VDict [(str "tokens", VDict [(str "access_token", VStr (str "  "))])])))
    (Some (Ok Bootstrap.store0)) None Bootstrap.now0 = ([], Ok 0)
  /\ exists st cfg,
       Bootstrap.main (L := Stub.lib) (B := Bootstrap.stub)
         (Some (Ok Bootstrap.codex0)) (Some (Ok Bootstrap.store0)) None Bootstrap.now0
       = ([Bootstrap.WriteAuth st; Bootstrap.WriteCfg cfg true], Ok 0)
       /\ Bootstrap.update_cfg (L := Stub.lib) None = Ok cfg.
Proof.
  split.
  - pose proof (X23_run_writes_only_with_a_token Stub.lib Bootstrap.stub
                  (Some (Ok (VDict [(str "tokens",
                                     VDict [(str "access_token", VStr (str "  "))])])))
                  (Some (Ok Bootstrap.store0)) None Bootstrap.now0) as H.
    cbv zeta in H. destruct H as (_ & _ & H & _).
    apply (H [(str "tokens", VDict [(str "access_token", VStr (str "  "))])]
             [(str "access_token", VStr (str "  "))]); reflexivity.
  - pose proof (X23_run_writes_only_with_a_token Stub.lib Bootstrap.stub
                  (Some (Ok Bootstrap.codex0)) (Some (Ok Bootstrap.store0)) None
                  Bootstrap.now0) as H.
    cbv zeta in H. destruct H as (_ & _ & _ & _ & H).
    eexists _, _. split; [vm_compute; reflexivity|].
    apply H with (b := true).
    vm_compute. right. left. reflexivity.
Defined.
